(** * The GitHub App installation handshake of the frontend

    A shallow embedding of
    [cmd/frontend/internal/auth/githubappauth/middleware.go]:
    the state-token generator [RandomState], the four-field state context
    [gitHubAppStateDetails], the handlers [stateHandler], [redirectHandler]
    and [setupHandler], the router [generateRedirectURL] and the manifest
    conversion client [createGitHubApp].

    Go values are modelled as follows: [string] is a string of bytes, [int]
    is [Z], [error] is the text of [err.Error()], a nilable pointer is an
    [option]; the random bytes are a [list byte], the JSON text kept in the
    cache is a [string].  A handler is a computation over the state cache
    and an event trace that either goes on with a value or stops with the
    response it wrote.  [newAppStateHandler], the fourth entry point, issues
    its token by the same three steps as [stateHandler] and is left out. *)

From Stdlib Require Import ZArith List String Ascii Bool Lia DecimalString.
From Stdlib.Strings Require Import Byte.
From stdpp Require Import base option gmap strings.

Import ListNotations.
Local Open Scope Z_scope.

(** ** Byte strings *)

(** Go's [error] interface, observed through [err.Error()]. *)
Definition error := string.

Definition byte_of_Z (z : Z) : byte :=
  match Byte.of_N (Z.to_N (z mod 256)) with
  | Some b => b
  | None => x00
  end.

Definition Z_of_byte (b : byte) : Z := Z.of_N (Byte.to_N b).

Definition ascii_of_Z (z : Z) : ascii := ascii_of_N (Z.to_N (z mod 256)).
Definition Z_of_ascii (c : ascii) : Z := Z.of_N (N_of_ascii c).

(** [[]byte(s)] *)
Definition bytes_of_string (s : string) : list byte :=
  List.map (fun c => byte_of_Z (Z_of_ascii c)) (list_ascii_of_string s).

(** ** encoding/hex *)

Definition hextable : string := "0123456789abcdef".
Definition hextableUpper : string := "0123456789ABCDEF".

Definition hexdigit (table : string) (n : Z) : ascii :=
  match String.get (Z.to_nat n) table with
  | Some c => c
  | None => "0"%char
  end.

(** [hex.EncodeToString]: two digits of [hextable] per byte, high nibble
    first. *)
Fixpoint hex_EncodeToString (src : list byte) : string :=
  match src with
  | [] => EmptyString
  | b :: rest =>
      String (hexdigit hextable (Z.shiftr (Z_of_byte b) 4))
        (String (hexdigit hextable (Z.land (Z_of_byte b) 15))
           (hex_EncodeToString rest))
  end.

(** A character of a lower-case hexadecimal numeral. *)
Definition is_lower_hex (c : ascii) : bool :=
  let n := Z_of_ascii c in
  ((48 <=? n) && (n <=? 57)) || ((97 <=? n) && (n <=? 102)).

Fixpoint string_forallb (p : ascii -> bool) (s : string) : bool :=
  match s with
  | EmptyString => true
  | String c rest => p c && string_forallb p rest
  end.

(** ** crypto/sha256 *)

Module SHA256.

Definition w32 (x : Z) : Z := x mod 2 ^ 32.
Definition add32 (x y : Z) : Z := w32 (x + y).
Definition rotr (n x : Z) : Z :=
  Z.lor (Z.shiftr x n) (w32 (Z.shiftl x (32 - n))).
Definition not32 (x : Z) : Z := Z.lxor x (2 ^ 32 - 1).

Definition Ch (x y z : Z) : Z := Z.lxor (Z.land x y) (Z.land (not32 x) z).
Definition Maj (x y z : Z) : Z :=
  Z.lxor (Z.lxor (Z.land x y) (Z.land x z)) (Z.land y z).
Definition Sigma0 (x : Z) : Z :=
  Z.lxor (Z.lxor (rotr 2 x) (rotr 13 x)) (rotr 22 x).
Definition Sigma1 (x : Z) : Z :=
  Z.lxor (Z.lxor (rotr 6 x) (rotr 11 x)) (rotr 25 x).
Definition sigma0 (x : Z) : Z :=
  Z.lxor (Z.lxor (rotr 7 x) (rotr 18 x)) (Z.shiftr x 3).
Definition sigma1 (x : Z) : Z :=
  Z.lxor (Z.lxor (rotr 17 x) (rotr 19 x)) (Z.shiftr x 10).

(** The constants are fractional parts of roots of the first primes: of
    the cube roots of the first 64 for [K], of the square roots of the first
    8 for the initial digest, 32 bits each. *)
Definition primes : list Z :=
  [2; 3; 5; 7; 11; 13; 17; 19; 23; 29; 31; 37; 41; 43; 47; 53; 59; 61; 67;
   71; 73; 79; 83; 89; 97; 101; 103; 107; 109; 113; 127; 131; 137; 139; 149;
   151; 157; 163; 167; 173; 179; 181; 191; 193; 197; 199; 211; 223; 227; 229;
   233; 239; 241; 251; 257; 263; 269; 271; 277; 281; 283; 293; 307; 311].

(** The integer cube root, one bit at a time from bit [n - 1] down. *)
Fixpoint cbrt_bits (n : nat) (x acc : Z) : Z :=
  match n with
  | O => acc
  | S n' =>
      let c := acc + 2 ^ Z.of_nat n' in
      cbrt_bits n' x (if c * c * c <=? x then c else acc)
  end.

Definition cbrt_frac (p : Z) : Z := w32 (cbrt_bits 40 (p * 2 ^ 96) 0).
Definition sqrt_frac (p : Z) : Z := w32 (Z.sqrt (p * 2 ^ 64)).

Definition K : list Z := Eval vm_compute in List.map cbrt_frac primes.

(** The eight working words of the digest. *)
Record digest := Digest
  { h0 : Z; h1 : Z; h2 : Z; h3 : Z; h4 : Z; h5 : Z; h6 : Z; h7 : Z }.

Definition init : digest :=
  Eval vm_compute in
    Digest (sqrt_frac 2) (sqrt_frac 3) (sqrt_frac 5) (sqrt_frac 7)
           (sqrt_frac 11) (sqrt_frac 13) (sqrt_frac 17) (sqrt_frac 19).

(** Padding: a one bit, zeros up to 56 mod 64, and the bit length as a
    big-endian 64-bit integer. *)
Definition be_bytes (width : nat) (x : Z) : list Z :=
  List.map (fun i => Z.land (Z.shiftr x (8 * Z.of_nat (width - 1 - i))) 255)
           (seq 0 width).

Definition pad (msg : list Z) : list Z :=
  let len := Z.of_nat (List.length msg) in
  let zeros := Z.to_nat ((55 - len) mod 64) in
  msg ++ [128] ++ List.repeat 0 zeros ++ be_bytes 8 (8 * len).

Fixpoint be_words (fuel : nat) (bs : list Z) : list Z :=
  match fuel, bs with
  | S fuel', a :: b :: c :: d :: rest =>
      (Z.shiftl a 24 + Z.shiftl b 16 + Z.shiftl c 8 + d) :: be_words fuel' rest
  | _, _ => []
  end.

(** The message schedule, most recent word first while it is extended. *)
Fixpoint extend (n : nat) (w : list Z) : list Z :=
  match n with
  | O => w
  | S n' =>
      let x := add32 (add32 (sigma1 (nth 1 w 0)) (nth 6 w 0))
                     (add32 (sigma0 (nth 14 w 0)) (nth 15 w 0)) in
      extend n' (x :: w)
  end.

Definition schedule (block : list Z) : list Z :=
  List.rev (extend 48 (List.rev block)).

Definition round (s : digest) (kw : Z * Z) : digest :=
  let t1 := add32 (add32 (add32 (h7 s) (Sigma1 (h4 s)))
                         (add32 (Ch (h4 s) (h5 s) (h6 s)) (fst kw)))
                  (snd kw) in
  let t2 := add32 (Sigma0 (h0 s)) (Maj (h0 s) (h1 s) (h2 s)) in
  Digest (add32 t1 t2) (h0 s) (h1 s) (h2 s)
         (add32 (h3 s) t1) (h4 s) (h5 s) (h6 s).

Definition compress (s : digest) (block : list Z) : digest :=
  let r := List.fold_left round (List.combine K (schedule block)) s in
  Digest (add32 (h0 s) (h0 r)) (add32 (h1 s) (h1 r))
         (add32 (h2 s) (h2 r)) (add32 (h3 s) (h3 r))
         (add32 (h4 s) (h4 r)) (add32 (h5 s) (h5 r))
         (add32 (h6 s) (h6 r)) (add32 (h7 s) (h7 r)).

Fixpoint blocks (fuel : nat) (s : digest) (ws : list Z) : digest :=
  match fuel, ws with
  | S fuel', _ :: _ =>
      blocks fuel' (compress s (List.firstn 16 ws)) (List.skipn 16 ws)
  | _, _ => s
  end.

Definition digest_bytes (s : digest) : list byte :=
  List.map byte_of_Z
    (List.flat_map (be_bytes 4)
       [h0 s; h1 s; h2 s; h3 s; h4 s; h5 s; h6 s; h7 s]).

(** [h := sha256.New(); h.Write(data); h.Sum(nil)] *)
Definition Sum (data : list byte) : list byte :=
  let padded := pad (List.map Z_of_byte data) in
  let ws := be_words (List.length padded) padded in
  digest_bytes (blocks (List.length ws) init ws).

(** The digest is [sha256.Size] bytes long. *)
Definition Size : nat := 32.

End SHA256.

(** ** fmt, strconv, net/url and google/uuid

    The library functions the handlers call on strings, written out from
    their documented behaviour. *)

(** The verb [%d] of [fmt.Sprintf]. *)
Definition fmt_d (z : Z) : string :=
  DecimalString.NilZero.string_of_int (Z.to_int z).

Definition is_digit (c : ascii) : bool :=
  (48 <=? Z_of_ascii c) && (Z_of_ascii c <=? 57).

Fixpoint parse_digits (s : string) (acc : Z) : option Z :=
  match s with
  | EmptyString => Some acc
  | String c rest =>
      if is_digit c then parse_digits rest (10 * acc + (Z_of_ascii c - 48))
      else None
  end.

Module strconv.

(** [*strconv.NumError]: the function that failed, its input and the
    reason, [ErrSyntax] or [ErrRange].  The text of the error
    ([Error()], which quotes the input with [strconv.Quote]) is not
    modelled: the handlers never read it. *)
Inductive Reason := ErrSyntax | ErrRange.

Record NumError := {
  Func : string;
  Num : string;
  Err : Reason
}.

Definition maxUint64 : Z := 2 ^ 64 - 1.

(** The loop of [ParseUint] in base 10 for 64 bits, from left to right: a
    byte that is no digit is a syntax error, and an overflow is a range
    error at the digit where it happens, whatever follows. *)
Fixpoint ParseUint (s : string) (n : Z) : Reason + Z :=
  match s with
  | EmptyString => inr n
  | String c rest =>
      if is_digit c then
        if maxUint64 / 10 + 1 <=? n then inl ErrRange
        else
          let n1 := 10 * n + (Z_of_ascii c - 48) in
          if maxUint64 <? n1 then inl ErrRange else ParseUint rest n1
      else inl ErrSyntax
  end.

End strconv.

(** [strconv.Atoi]: an optional sign and one or more decimal digits, within
    the range of a 64-bit [int]. *)
Definition strconv_Atoi (s : string) : strconv.NumError + Z :=
  let fail reason :=
    inl {| strconv.Func := "Atoi"; strconv.Num := s;
           strconv.Err := reason |} in
  let '(neg, digits) :=
    match s with
    | String "-"%char rest => (true, rest)
    | String "+"%char rest => (false, rest)
    | _ => (false, s)
    end in
  match digits with
  | EmptyString => fail strconv.ErrSyntax
  | _ =>
      match strconv.ParseUint digits 0 with
      | inl reason => fail reason
      | inr un =>
          if neg then
            if 2 ^ 63 <? un then fail strconv.ErrRange else inr (- un)
          else
            if 2 ^ 63 <=? un then fail strconv.ErrRange else inr un
      end
  end.

Definition is_alnum (c : ascii) : bool :=
  let n := Z_of_ascii c in
  ((48 <=? n) && (n <=? 57)) || ((65 <=? n) && (n <=? 90))
  || ((97 <=? n) && (n <=? 122)).

(** [url.QueryEscape]: letters, digits and [-_.~] stay, a space becomes [+],
    every other byte becomes [%XX] in upper-case hexadecimal. *)
Fixpoint url_QueryEscape (s : string) : string :=
  match s with
  | EmptyString => EmptyString
  | String c rest =>
      let n := Z_of_ascii c in
      if is_alnum c || (n =? 45) || (n =? 95) || (n =? 46) || (n =? 126)
      then String c (url_QueryEscape rest)
      else if n =? 32 then String "+"%char (url_QueryEscape rest)
      else String "%"%char
             (String (hexdigit hextableUpper (Z.shiftr n 4))
                (String (hexdigit hextableUpper (Z.land n 15))
                   (url_QueryEscape rest)))
  end.

Module UUID.

(** A UUID is 16 bytes. *)
Definition t := list Z.

Definition xvalue (c : ascii) : option Z :=
  let n := Z_of_ascii c in
  if (48 <=? n) && (n <=? 57) then Some (n - 48)
  else if (65 <=? n) && (n <=? 70) then Some (n - 55)
  else if (97 <=? n) && (n <=? 102) then Some (n - 87)
  else None.

(** [xtob]: the byte written by two hexadecimal digits. *)
Definition xtob (s : string) (i : nat) : option Z :=
  match String.get i s, String.get (S i) s with
  | Some a, Some b =>
      match xvalue a, xvalue b with
      | Some x, Some y => Some (Z.lor (Z.shiftl x 4) y)
      | _, _ => None
      end
  | _, _ => None
  end.

Fixpoint xtobs (s : string) (offsets : list nat) : option t :=
  match offsets with
  | [] => Some []
  | i :: rest =>
      match xtob s i, xtobs s rest with
      | Some b, Some bs => Some (b :: bs)
      | _, _ => None
      end
  end.

Definition to_lower (c : ascii) : ascii :=
  let n := Z_of_ascii c in
  if (65 <=? n) && (n <=? 90) then ascii_of_Z (n + 32) else c.

Fixpoint lower (s : string) : string :=
  match s with
  | EmptyString => EmptyString
  | String c rest => String (to_lower c) (lower rest)
  end.

(** The errors of [Parse]: [errors.New("invalid UUID format")],
    [invalidLengthError{len(s)}] and
    [fmt.Errorf("invalid urn prefix: %q", s[:9])]. *)
Inductive ParseError :=
| InvalidFormat
| InvalidLength (len : nat)
| InvalidPrefix (prefix : string).

Definition dashed (s : string) : ParseError + t :=
  match String.get 8 s, String.get 13 s, String.get 18 s, String.get 23 s with
  | Some "-"%char, Some "-"%char, Some "-"%char, Some "-"%char =>
      match xtobs s [0; 2; 4; 6; 9; 11; 14; 16; 19; 21; 24; 26; 28; 30; 32; 34]%nat with
      | Some u => inr u
      | None => inl InvalidFormat
      end
  | _, _, _, _ => inl InvalidFormat
  end.

(** [uuid.Parse]: the 36-character form, the same behind [urn:uuid:] or
    within braces, or 32 hexadecimal digits; any other length is refused. *)
Definition Parse (s : string) : ParseError + t :=
  match String.length s with
  | 36%nat => dashed s
  | 45%nat =>
      if String.eqb (lower (String.substring 0 9 s)) "urn:uuid:"
      then dashed (String.substring 9 36 s)
      else inl (InvalidPrefix (String.substring 0 9 s))
  | 38%nat => dashed (String.substring 1 37 s)
  | 32%nat =>
      match xtobs s (List.map (fun i => 2 * i)%nat (seq 0 16)) with
      | Some u => inr u
      | None => inl InvalidFormat
      end
  | n => inl (InvalidLength n)
  end.

End UUID.

(** ** unicode/utf8 and the string literals of encoding/json

    [json.Marshal] does not keep every string: a byte that starts no valid
    UTF-8 encoding is written as the escape of U+FFFD, and the decoder
    makes a rune of every escape. *)

Module utf8.

Definition RuneError : Z := 65533.
Definition MaxRune : Z := 1114111.

Definition byte_at (i : nat) (s : string) : Z :=
  match String.get i s with
  | Some c => Z_of_ascii c
  | None => 0
  end.

(** The table [first]: for a leading byte, the width of the encoding and
    the range of the second byte. *)
Definition first (s0 : Z) : option (nat * Z * Z) :=
  if (194 <=? s0) && (s0 <=? 223) then Some (2%nat, 128, 191)
  else if s0 =? 224 then Some (3%nat, 160, 191)
  else if (225 <=? s0) && (s0 <=? 236) then Some (3%nat, 128, 191)
  else if s0 =? 237 then Some (3%nat, 128, 159)
  else if (238 <=? s0) && (s0 <=? 239) then Some (3%nat, 128, 191)
  else if s0 =? 240 then Some (4%nat, 144, 191)
  else if (241 <=? s0) && (s0 <=? 243) then Some (4%nat, 128, 191)
  else if s0 =? 244 then Some (4%nat, 128, 143)
  else None.

Definition continuation (b : Z) : bool := (128 <=? b) && (b <=? 191).

(** [utf8.DecodeRuneInString]: the first rune of [s] and its width;
    [(RuneError, 1)] for a byte that starts no valid encoding and
    [(RuneError, 0)] for the empty string. *)
Definition DecodeRuneInString (s : string) : Z * nat :=
  match s with
  | EmptyString => (RuneError, 0%nat)
  | String c0 _ =>
      let s0 := Z_of_ascii c0 in
      if s0 <? 128 then (s0, 1%nat)
      else
        match first s0 with
        | None => (RuneError, 1%nat)
        | Some (sz, lo, hi) =>
            let s1 := byte_at 1 s in
            let s2 := byte_at 2 s in
            let s3 := byte_at 3 s in
            if (String.length s <? sz)%nat then (RuneError, 1%nat)
            else if (s1 <? lo) || (hi <? s1) then (RuneError, 1%nat)
            else if (sz <=? 2)%nat then
              (Z.lor (Z.shiftl (Z.land s0 31) 6) (Z.land s1 63), 2%nat)
            else if negb (continuation s2) then (RuneError, 1%nat)
            else if (sz <=? 3)%nat then
              (Z.lor (Z.shiftl (Z.land s0 15) 12)
                 (Z.lor (Z.shiftl (Z.land s1 63) 6) (Z.land s2 63)), 3%nat)
            else if negb (continuation s3) then (RuneError, 1%nat)
            else
              (Z.lor (Z.shiftl (Z.land s0 7) 18)
                 (Z.lor (Z.shiftl (Z.land s1 63) 12)
                    (Z.lor (Z.shiftl (Z.land s2 63) 6) (Z.land s3 63))),
               4%nat)
        end
  end.

Definition bytes (bs : list Z) : string :=
  string_of_list_ascii (List.map ascii_of_Z bs).

Definition tail6 (r : Z) (shift : Z) : Z :=
  Z.lor 128 (Z.land (Z.shiftr r shift) 63).

(** [utf8.EncodeRune]: one to four bytes; a surrogate and a value that is
    no rune are written as [RuneError]. *)
Definition EncodeRune (r : Z) : string :=
  let three r :=
    bytes [Z.lor 224 (Z.shiftr r 12); tail6 r 6; tail6 r 0] in
  if (0 <=? r) && (r <=? 127) then bytes [r]
  else if (0 <=? r) && (r <=? 2047) then
    bytes [Z.lor 192 (Z.shiftr r 6); tail6 r 0]
  else if (r <? 0) || (MaxRune <? r) || ((55296 <=? r) && (r <=? 57343))
  then three RuneError
  else if r <=? 65535 then three r
  else
    bytes [Z.lor 240 (Z.shiftr r 18); tail6 r 12; tail6 r 6; tail6 r 0].

End utf8.

Module json.

Definition drop (n : nat) (s : string) : string :=
  String.substring n (String.length s - n) s.

Definition hex1 (n : Z) : string :=
  String (hexdigit hextable n) EmptyString.

(** [htmlSafeSet]: the ASCII bytes that [json.Marshal] writes as they
    are. *)
Definition htmlSafe (b : Z) : bool :=
  (32 <=? b) && (b <? 128)
  && negb ((b =? 34) || (b =? 38) || (b =? 60) || (b =? 62) || (b =? 92)).

(** The escape of an ASCII byte outside [htmlSafeSet] (Go 1.22 and later;
    earlier versions write [\u0008] and [\u000c] for the backspace and
    the form feed, which the decoder reads alike). *)
Definition escape_ascii (b : Z) : string :=
  if (b =? 92) || (b =? 34) then String (ascii_of_Z 92) (String (ascii_of_Z b) EmptyString)
  else if b =? 8 then "\b"
  else if b =? 12 then "\f"
  else if b =? 10 then "\n"
  else if b =? 13 then "\r"
  else if b =? 9 then "\t"
  else "\u00" +:+ hex1 (Z.shiftr b 4) +:+ hex1 (Z.land b 15).

(** The loop of [appendString] with [escapeHTML] set, as [json.Marshal]
    runs it: the text between the quotes.  [fuel] bounds the bytes left. *)
Fixpoint escape (fuel : nat) (s : string) : string :=
  match fuel, s with
  | S fuel', String c rest =>
      let b := Z_of_ascii c in
      if b <? 128 then
        (if htmlSafe b then String c EmptyString else escape_ascii b)
        +:+ escape fuel' rest
      else
        let '(r, size) := utf8.DecodeRuneInString s in
        if (r =? utf8.RuneError) && (size =? 1)%nat then
          "\ufffd" +:+ escape fuel' rest
        else if (r =? 8232) || (r =? 8233) then
          "\u202" +:+ hex1 (Z.land r 15) +:+ escape fuel' (drop size s)
        else String.substring 0 size s +:+ escape fuel' (drop size s)
  | _, _ => EmptyString
  end.

Definition appendString (s : string) : string :=
  String (ascii_of_Z 34)
    (escape (String.length s) s +:+ String (ascii_of_Z 34) EmptyString).

Definition xvalue (c : ascii) : option Z :=
  let n := Z_of_ascii c in
  if (48 <=? n) && (n <=? 57) then Some (n - 48)
  else if (65 <=? n) && (n <=? 70) then Some (n - 55)
  else if (97 <=? n) && (n <=? 102) then Some (n - 87)
  else None.

(** [getu4]: the number of an escape [\uXXXX] that [s] starts with. *)
Definition getu4 (s : string) : option Z :=
  match s with
  | String bs (String u (String a (String b (String c (String d _))))) =>
      if (Z_of_ascii bs =? 92) && (Z_of_ascii u =? 117) then
        match xvalue a, xvalue b, xvalue c, xvalue d with
        | Some x3, Some x2, Some x1, Some x0 =>
            Some (x3 * 4096 + x2 * 256 + x1 * 16 + x0)
        | _, _, _, _ => None
        end
      else None
  | _ => None
  end.

Definition IsSurrogate (r : Z) : bool := (55296 <=? r) && (r <? 57344).

(** [utf16.DecodeRune] *)
Definition utf16_DecodeRune (r1 r2 : Z) : Z :=
  if (55296 <=? r1) && (r1 <? 56320) && (56320 <=? r2) && (r2 <? 57344)
  then Z.lor (Z.shiftl (r1 - 55296) 10) (r2 - 56320) + 65536
  else utf8.RuneError.

(** A string literal after its opening quote, as the scanner and
    [unquote] read it: the text it stands for, and what follows its closing
    quote.  A control character, an unknown escape and a missing closing
    quote are refused; bytes that are no valid UTF-8 become U+FFFD. *)
Fixpoint literal (fuel : nat) (s : string) : option (string * string) :=
  match fuel, s with
  | S fuel', String c rest =>
      let b := Z_of_ascii c in
      let more text after :=
        match literal fuel' after with
        | Some (body, follows) => Some (text +:+ body, follows)
        | None => None
        end in
      if b =? 34 then Some (EmptyString, rest)
      else if b =? 92 then
        match rest with
        | String e rest' =>
            let k := Z_of_ascii e in
            if (k =? 34) || (k =? 92) || (k =? 47) then
              more (String e EmptyString) rest'
            else if k =? 98 then more (utf8.bytes [8]) rest'
            else if k =? 102 then more (utf8.bytes [12]) rest'
            else if k =? 110 then more (utf8.bytes [10]) rest'
            else if k =? 114 then more (utf8.bytes [13]) rest'
            else if k =? 116 then more (utf8.bytes [9]) rest'
            else if k =? 117 then
              match getu4 s with
              | None => None
              | Some rr =>
                  if IsSurrogate rr then
                    match getu4 (drop 6 s) with
                    | Some rr1 =>
                        if utf16_DecodeRune rr rr1 =? utf8.RuneError
                        then more (utf8.EncodeRune utf8.RuneError) (drop 6 s)
                        else more (utf8.EncodeRune (utf16_DecodeRune rr rr1))
                               (drop 12 s)
                    | None =>
                        more (utf8.EncodeRune utf8.RuneError) (drop 6 s)
                    end
                  else more (utf8.EncodeRune rr) (drop 6 s)
              end
            else None
        | EmptyString => None
        end
      else if b <? 32 then None
      else if b <? 128 then more (String c EmptyString) rest
      else
        let '(rr, size) := utf8.DecodeRuneInString s in
        more (utf8.EncodeRune rr) (drop size s)
  | _, _ => None
  end.

End json.

(** ** Data model *)

(** [net/http] status codes used by the handlers. *)
Definition StatusCreated : Z := 201.
Definition StatusFound : Z := 302.
Definition StatusSeeOther : Z := 303.
Definition StatusBadRequest : Z := 400.
Definition StatusInternalServerError : Z := 500.

Definition cacheTTLSeconds : Z := 60 * 60.

(** The context bound to a state token. *)
Record gitHubAppStateDetails := {
  WebhookUUID : string;
  Domain : string;
  AppID : Z;
  BaseURL : string
}.

(** [gitHubAppStateDetails{}] *)
Definition zeroStateDetails : gitHubAppStateDetails :=
  {| WebhookUUID := ""; Domain := ""; AppID := 0; BaseURL := "" |}.

(** The body of the manifest conversion response. *)
Record GitHubAppResponse := {
  resp_AppID : Z;
  resp_Slug : string;
  resp_Name : string;
  resp_HtmlURL : string;
  resp_ClientID : string;
  resp_ClientSecret : string;
  resp_PEM : string;
  resp_WebhookSecret : string;
  resp_Permissions : list (string * string);
  resp_Events : list string
}.

(** Modelled from the spec: [types.GitHubAppDomain] of [internal/types] is
    not among the sources.  The spec has a closed enumeration with a
    repository-sync and a workflow-automation domain; in Go it is a string
    type, so that [generateRedirectURL] keeps a [default] branch, reached
    here by [OtherGitHubAppDomain]. *)
Inductive GitHubAppDomain :=
| ReposGitHubAppDomain
| BatchesGitHubAppDomain
| OtherGitHubAppDomain (tag : string).

(** The fields of [ghtypes.GitHubApp] the handlers read or write. *)
Record GitHubApp := {
  app_ID : Z;
  app_AppID : Z;
  app_Name : string;
  app_Slug : string;
  app_ClientID : string;
  app_ClientSecret : string;
  app_WebhookSecret : string;
  app_PrivateKey : string;
  app_BaseURL : string;
  app_AppURL : string;
  app_Domain : GitHubAppDomain;
  app_Logo : string
}.

Record GitHubAppInstallation := {
  inst_InstallationID : Z;
  inst_AppID : Z;
  inst_URL : string;
  inst_AccountLogin : string;
  inst_AccountAvatarURL : string;
  inst_AccountURL : string;
  inst_AccountType : string
}.

(** What [client.GetAppInstallation] answers. *)
Record RemoteInstallation := {
  remote_HTMLURL : string;
  remote_Login : string;
  remote_AvatarURL : string;
  remote_AccountHTMLURL : string;
  remote_Type : string
}.

Record Webhook := {
  hook_UUID : UUID.t;
  hook_Name : string;
  hook_Secret : string
}.

Record Authenticator := {
  auth_AppID : Z;
  auth_PrivateKey : list byte
}.

Record HTTPRequest := { req_Method : string; req_URL : string }.
Record HTTPResponse := { StatusCode : Z; Body : string }.

(** An incoming request: the pairs of its query string. *)
Record Request := { query : list (string * string) }.

(** [r.URL.Query().Get(key)]: the first value of [key], or the empty
    string. *)
Fixpoint Values_Get (q : list (string * string)) (key : string) : string :=
  match q with
  | [] => ""
  | (k, v) :: rest => if String.eqb k key then v else Values_Get rest key
  end.

Definition Query_Get (r : Request) (key : string) : string :=
  Values_Get (query r) key.

(** What a handler leaves on the [http.ResponseWriter]. *)
Inductive Response :=
| http_Error (msg : string) (code : Z)
| http_Redirect (url : string) (code : Z)
| Write (body : string)
| Panic (msg : string).

(** ** The state cache *)

(** Modelled from the spec: [internal/rcache] is not among the sources.  The
    spec has an ephemeral key-value cache with a per-entry time to live and
    the operations set, get and delete; an entry that outlived its time to
    live is not found. *)
Module rcache.

Record Cache := {
  ttlSeconds : Z;
  entries : gmap string (string * Z)
}.

Definition NewWithTTL (ttl : Z) : Cache :=
  {| ttlSeconds := ttl; entries := ∅ |}.

Definition Get (c : Cache) (now : Z) (key : string) : option string :=
  match entries c !! key with
  | Some (value, deadline) => if now <? deadline then Some value else None
  | None => None
  end.

Definition Set_ (c : Cache) (now : Z) (key value : string) : Cache :=
  {| ttlSeconds := ttlSeconds c;
     entries := <[key := (value, now + ttlSeconds c)]> (entries c) |}.

Definition Delete (c : Cache) (key : string) : Cache :=
  {| ttlSeconds := ttlSeconds c; entries := delete key (entries c) |}.

End rcache.

(** ** Effects *)

(** What a handler does to its collaborators, in the order it does it. *)
Inductive Event :=
| CacheGet (key : string)
| CacheSet (key value : string)
| CacheDelete (key : string)
| HTTPDo (req : HTTPRequest)
| AppsCreate (app : GitHubApp)
| AppsGetByID (id : Z)
| AppsInstall (inst : GitHubAppInstallation)
| WebhooksGetByUUID (uuid : UUID.t)
| WebhooksUpdate (hook : Webhook)
| GetAppInstallation (installationID : Z)
| Sleep (seconds : Z).

Record World := {
  cache : rcache.Cache;
  trace : list Event
}.

(** A handler step: it stops with the response written, or goes on with a
    value. *)
Definition Handler (A : Type) : Type := World -> (Response + A) * World.

Definition pure {A} (a : A) : Handler A := fun w => (inr a, w).

Definition bind {A B} (m : Handler A) (k : A -> Handler B) : Handler B :=
  fun w =>
    match m w with
    | (inl r, w') => (inl r, w')
    | (inr a, w') => k a w'
    end.

(** Write the response and return from the handler. *)
Definition respond {A} (r : Response) : Handler A := fun w => (inl r, w).

Definition emit (e : Event) : Handler unit :=
  fun w => (inr tt, {| cache := cache w; trace := trace w ++ [e] |}).

Declare Scope handler_scope.
Delimit Scope handler_scope with handler.
Notation "x <- m ;; k" := (bind m (fun x => k))
  (at level 100, m at next level, right associativity) : handler_scope.
Notation "m ;; k" := (bind m (fun _ => k))
  (at level 100, right associativity) : handler_scope.
Local Open Scope handler_scope.

(** [v, err := f(); if err != nil { respond; return }] *)
Definition try {E A} (x : E + A) (on_err : E -> Response) : Handler A :=
  match x with
  | inl err => respond (on_err err)
  | inr v => pure v
  end.

(** The same for a call to a collaborator, which is recorded. *)
Definition call {A} (e : Event) (x : error + A) : Handler (error + A) :=
  emit e ;; pure x.

(** The response of a finished handler and the world it leaves. *)
Definition serve (h : Handler Empty_set) (w : World) : Response * World :=
  match h w with
  | (inl r, w') => (r, w')
  | (inr e, _) => match e with end
  end.

(** *** Frames *)

(** A step only appends to the trace. *)
Definition grows {A} (h : Handler A) : Prop :=
  forall w, exists evs, trace (snd (h w)) = trace w ++ evs.

(** A step leaves the cache as it found it. *)
Definition keeps_cache {A} (h : Handler A) : Prop :=
  forall w, cache (snd (h w)) = cache w.

(** ** Collaborators *)

(** The pure functions of other packages that the handlers call and whose
    code is not part of this development: [encoding/json] on the two structs,
    [net/url], [http.NewRequest], and of this repository [github.APIRoot],
    the GraphQL identifier codec of GitHub Apps and the tag table of
    [parseDomain]. *)
Class Deps := {
  json_Marshal : gitHubAppStateDetails -> error + string;
  json_Unmarshal : string -> error + gitHubAppStateDetails;
  json_Decode : string -> error + GitHubAppResponse;
  URL : Type;
  url_Parse : string -> error + URL;
  url_JoinPath : string -> list string -> error + string;
  URL_String : URL -> string;
  URL_Scheme : URL -> string;
  URL_Host : URL -> string;
  http_NewRequest : string -> string -> error + HTTPRequest;
  github_APIRoot : URL -> URL * bool;
  MarshalGitHubAppID : Z -> string;
  UnmarshalGitHubAppID : string -> error + Z;
  (** the domain a tag names, or the error for a tag that names none *)
  parseDomainTag : string -> error + GitHubAppDomain;
  (** how [%v] prints a pointer to a domain: an address *)
  fmt_v_pointer : GitHubAppDomain -> string;
  (** [strconv.Quote], the verb [%q]: a Go string literal, with escapes
      for what the tables of [unicode] do not count as printable *)
  strconv_Quote : string -> string
}.

(** The value of a Go call that may panic. *)
Inductive Outcome (A : Type) :=
| Returned (a : A)
| Panicked (msg : string).
Arguments Returned {A} a.
Arguments Panicked {A} msg.

Definition nil_dereference : string :=
  "runtime error: invalid memory address or nil pointer dereference".

Section Handshake.

Context `{D : Deps}.

(** What the world outside answers during one request: the clock, the
    random source, the HTTP client, the database and GitHub. *)
Record Env := {
  now : Z;
  rand_Reader : nat -> error + list byte;
  MockCreateGitHubApp :
    option (string -> GitHubAppDomain -> error + GitHubApp);
  httpClient_Do : HTTPRequest -> error + HTTPResponse;
  GitHubApps_Create : GitHubApp -> error + Z;
  GitHubApps_GetByID : Z -> error + GitHubApp;
  GitHubApps_Install : GitHubAppInstallation -> error + Z;
  Webhooks_GetByUUID : UUID.t -> error + Webhook;
  Webhooks_Update : Webhook -> error + Webhook;
  NewGitHubAppAuthenticator : Z -> list byte -> error + Authenticator;
  client_GetAppInstallation :
    URL -> Authenticator -> Z -> error + RemoteInstallation
}.

Definition cache_Get (env : Env) (key : string) : Handler (option string) :=
  fun w =>
    (inr (rcache.Get (cache w) (now env) key),
     {| cache := cache w; trace := trace w ++ [CacheGet key] |}).

Definition cache_Set (env : Env) (key value : string) : Handler unit :=
  fun w =>
    (inr tt,
     {| cache := rcache.Set_ (cache w) (now env) key value;
        trace := trace w ++ [CacheSet key value] |}).

Definition cache_Delete (key : string) : Handler unit :=
  fun w =>
    (inr tt,
     {| cache := rcache.Delete (cache w) key;
        trace := trace w ++ [CacheDelete key] |}).

(** Modelled from the spec: [parseDomain] is not among the sources.  The
    spec has a missing domain unparseable and an unknown tag a validation
    error, never a default. *)
Definition parseDomain (s : option string) : error + GitHubAppDomain :=
  match s with
  | None => inl "empty domain"
  | Some tag => parseDomainTag tag
  end.

(** [err.Error()] of an error of [uuid.Parse], as [%v] prints it. *)
Definition uuid_Error (err : UUID.ParseError) : string :=
  match err with
  | UUID.InvalidFormat => "invalid UUID format"
  | UUID.InvalidLength len => "invalid UUID length: " +:+ fmt_d (Z.of_nat len)
  | UUID.InvalidPrefix prefix => "invalid urn prefix: " +:+ strconv_Quote prefix
  end.

(** *** RandomState *)

Definition RandomState (env : Env) (n : nat) : error + string :=
  match rand_Reader env n with
  | inl err => inl err
  | inr data => inr (hex_EncodeToString (SHA256.Sum data))
  end.

(** *** generateRedirectURL *)

Definition generateRedirectURL (domain : option string)
    (installationID appID : option Z) (appName : option string)
    (creationErr : option error) : Outcome string :=
  match domain, creationErr with
  | None, Some err =>
      Returned ("/site-admin/github-apps?success=false&error="
                +:+ url_QueryEscape err)
  | _, _ =>
      match parseDomain domain with
      | inl _ =>
          match domain with
          | None => Panicked nil_dereference
          | Some d =>
              Returned ("/site-admin/github-apps?success=false&error="
                        +:+ url_QueryEscape ("invalid domain: " +:+ d))
          end
      | inr ReposGitHubAppDomain =>
          match creationErr with
          | Some err =>
              Returned ("/site-admin/github-apps?success=false&error="
                        +:+ url_QueryEscape err)
          | None =>
              match installationID, appID with
              | Some inst, Some app =>
                  Returned ("/site-admin/github-apps/"
                            +:+ MarshalGitHubAppID app
                            +:+ "?installation_id=" +:+ fmt_d inst)
              | _, _ =>
                  Returned ("/site-admin/github-apps?success=false&error="
                            +:+ url_QueryEscape
                                  "missing installation ID or app ID")
              end
          end
      | inr BatchesGitHubAppDomain =>
          match creationErr with
          | Some err =>
              Returned ("/site-admin/batch-changes?success=false&error="
                        +:+ url_QueryEscape err)
          | None =>
              match appName with
              | None => Returned "/site-admin/batch-changes?success=true"
              | Some name =>
                  Returned ("/site-admin/batch-changes?success=true&app_name="
                            +:+ name)
              end
          end
      | inr other =>
          Returned ("/site-admin/github-apps?success=false&error="
                    +:+ url_QueryEscape
                          ("unsupported github apps domain: "
                           +:+ fmt_v_pointer other))
      end
  end.

(** [redirectURL := generateRedirectURL(...); http.Redirect(w, r,
    redirectURL, http.StatusFound); return] *)
Definition redirectFound {A} (u : Outcome string) : Handler A :=
  match u with
  | Returned url => respond (http_Redirect url StatusFound)
  | Panicked msg => respond (Panic msg)
  end.

(** *** createGitHubApp *)

Definition createGitHubApp (env : Env) (conversionURL : string)
    (domain : GitHubAppDomain) : Handler (error + GitHubApp) :=
  match MockCreateGitHubApp env with
  | Some mock => pure (mock conversionURL domain)
  | None =>
      match http_NewRequest "POST" conversionURL with
      | inl err => pure (inl err)
      | inr r =>
          x <- call (HTTPDo r) (httpClient_Do env r) ;;
          match x with
          | inl err => pure (inl err)
          | inr resp =>
              if negb (StatusCode resp =? StatusCreated)
              then pure (inl ("expected 201 statusCode, got: "
                              +:+ fmt_d (StatusCode resp)))
              else
                match json_Decode (Body resp) with
                | inl err => pure (inl err)
                | inr response =>
                    match url_Parse (resp_HtmlURL response) with
                    | inl err => pure (inl err)
                    | inr htmlURL =>
                        pure (inr
                          {| app_ID := 0;
                             app_AppID := resp_AppID response;
                             app_Name := resp_Name response;
                             app_Slug := resp_Slug response;
                             app_ClientID := resp_ClientID response;
                             app_ClientSecret := resp_ClientSecret response;
                             app_WebhookSecret := resp_WebhookSecret response;
                             app_PrivateKey := resp_PEM response;
                             app_BaseURL :=
                               URL_Scheme htmlURL +:+ "://" +:+ URL_Host htmlURL;
                             app_AppURL := URL_String htmlURL;
                             app_Domain := domain;
                             app_Logo :=
                               URL_Scheme htmlURL +:+ "://" +:+ URL_Host htmlURL
                               +:+ "/identicons/app/app/"
                               +:+ resp_Slug response |})
                    end
                end
          end
      end
  end.

(** *** stateHandler *)

Definition stateHandler (env : Env) (r : Request) : Handler Empty_set :=
  s <- try (RandomState env 128)
         (fun err => http_Error
            ("Unexpected error when generating state parameter: " +:+ err)
            StatusInternalServerError) ;;
  let gqlID := Query_Get r "id" in
  let domain := Query_Get r "domain" in
  let baseURL := Query_Get r "baseURL" in
  if String.eqb gqlID "" then
    stateDetails <- try (json_Marshal zeroStateDetails)
           (fun err => http_Error
              ("Unexpected error when marshalling state: " +:+ err)
              StatusInternalServerError) ;;
    cache_Set env s stateDetails ;;
    respond (Write s)
  else
    id64 <- try (UnmarshalGitHubAppID gqlID)
           (fun err => http_Error
              ("Unexpected error while unmarshalling App ID: " +:+ err)
              StatusBadRequest) ;;
    stateDetails <- try (json_Marshal
                           {| WebhookUUID := ""; Domain := domain;
                              AppID := id64; BaseURL := baseURL |})
           (fun err => http_Error
              ("Unexpected error when marshalling state: " +:+ err)
              StatusInternalServerError) ;;
    cache_Set env s stateDetails ;;
    respond (Write s).

(** *** redirectHandler *)

(** What [redirectHandler] does once the token is consumed, from the parsing
    of the webhook UUID on. *)
Definition redirectHandler_consumed (env : Env) (code : string)
    (stateDetails : gitHubAppStateDetails) : Handler Empty_set :=
  webhookUUID <- try (UUID.Parse (WebhookUUID stateDetails))
       (fun err => http_Error
          ("Bad request, could not parse webhook UUID: " +:+ uuid_Error err)
          StatusBadRequest) ;;
  baseURL <- try (url_Parse (BaseURL stateDetails))
       (fun err => http_Error
          ("Bad request, could not parse baseURL from state: "
           +:+ BaseURL stateDetails +:+ ", error: " +:+ err)
          StatusInternalServerError) ;;
  let apiURL := fst (github_APIRoot baseURL) in
  u <- try (url_JoinPath (URL_String apiURL)
              ["/app-manifests"; code; "conversions"])
       (fun err => http_Error
          ("Unexpected error when building manifest endpoint URL: "
           +:+ err)
          StatusInternalServerError) ;;
  domain <- try (parseDomain (Some (Domain stateDetails)))
       (fun err => http_Error ("Unable to parse domain: " +:+ err)
                     StatusBadRequest) ;;
  converted <- createGitHubApp env u domain ;;
  app <- try converted
       (fun err => http_Error
          ("Unexpected error while converting github app: " +:+ err)
          StatusInternalServerError) ;;
  created <- call (AppsCreate app) (GitHubApps_Create env app) ;;
  id <- try created
       (fun err => http_Error
          ("Unexpected error while storing github app in DB: " +:+ err)
          StatusInternalServerError) ;;
  fetched <- call (WebhooksGetByUUID webhookUUID)
               (Webhooks_GetByUUID env webhookUUID) ;;
  hook <- try fetched
       (fun err => http_Error ("Error while fetching webhook: " +:+ err)
                     StatusInternalServerError) ;;
  let hook := {| hook_UUID := hook_UUID hook;
                 hook_Name := app_Name app;
                 hook_Secret := app_WebhookSecret app |} in
  updated <- call (WebhooksUpdate hook) (Webhooks_Update env hook) ;;
  _ <- try updated
       (fun err => http_Error
          ("Error while updating webhook secret: " +:+ err)
          StatusInternalServerError) ;;
  state <- try (RandomState env 128)
       (fun err => http_Error
          ("Unexpected error when creating state param: " +:+ err)
          StatusInternalServerError) ;;
  newStateDetails <- try (json_Marshal
                            {| WebhookUUID := "";
                               Domain := Domain stateDetails;
                               AppID := id; BaseURL := "" |})
       (fun err => http_Error
          ("unexpected error when marshalling state: " +:+ err)
          StatusInternalServerError) ;;
  cache_Set env state newStateDetails ;;
  emit (Sleep 3) ;;
  let redirectURL :=
    match url_JoinPath (app_AppURL app) ["installations/new"] with
    | inr joined => joined
    | inl _ => app_AppURL app
    end in
  respond (http_Redirect (redirectURL +:+ "?state=" +:+ state)
             StatusSeeOther).

Definition redirectHandler (env : Env) (r : Request) : Handler Empty_set :=
  let state := Query_Get r "state" in
  let code := Query_Get r "code" in
  if String.eqb state "" || String.eqb code "" then
    respond (http_Error
               "Bad request, code and state query params must be present"
               StatusBadRequest)
  else if negb (String.length state =? 64)%nat then
    respond (http_Error "Bad request, state query param is wrong length"
               StatusBadRequest)
  else
    found <- cache_Get env state ;;
    match found with
    | None =>
        respond (http_Error "Bad request, state query param does not match"
                   StatusBadRequest)
    | Some stateValue =>
        stateDetails <- try (json_Unmarshal stateValue)
             (fun _ => http_Error "Bad request, invalid state"
                         StatusBadRequest) ;;
        cache_Delete state ;;
        redirectHandler_consumed env code stateDetails
    end.

(** *** setupHandler *)

(** What [setupHandler] does once the token is consumed, from the parsing of
    the installation ID on.  [failed] abbreviates the error redirect that
    the four steps of the install action share. *)
Definition setupHandler_consumed (env : Env) (r : Request) (instID : string)
    (stateDetails : gitHubAppStateDetails) : Handler Empty_set :=
  match strconv_Atoi instID with
  | inl _ =>
      redirectFound
        (generateRedirectURL (Some (Domain stateDetails)) None
           (Some (AppID stateDetails)) None
           (Some "Bad request, could not parse installation ID"))
  | inr installationID =>
      let action := Query_Get r "setup_action" in
      let failed (appName : option string) (msg : string) :=
        redirectFound
          (generateRedirectURL (Some (Domain stateDetails))
             (Some installationID) (Some (AppID stateDetails))
             appName (Some msg)) in
      if String.eqb action "install" then
        fetched <- call (AppsGetByID (AppID stateDetails))
                     (GitHubApps_GetByID env (AppID stateDetails)) ;;
        match fetched with
        | inl err =>
            failed None
              ("Unexpected error while fetching GitHub App from DB: "
               +:+ err)
        | inr app =>
        match NewGitHubAppAuthenticator env (app_AppID app)
                (bytes_of_string (app_PrivateKey app)) with
        | inl err =>
            failed None
              ("Unexpected error while creating GitHubAppAuthenticator: "
               +:+ err)
        | inr auther =>
        match url_Parse (app_BaseURL app) with
        | inl err =>
            failed None
              ("Unexpected error while parsing App base URL: "
               +:+ err)
        | inr baseURL =>
        let apiURL := fst (github_APIRoot baseURL) in
        emit (Sleep 3) ;;
        remote <- call (GetAppInstallation installationID)
                    (client_GetAppInstallation env apiURL auther
                       installationID) ;;
        match remote with
        | inl err =>
            failed None
              ("Unexpected error while fetching App installation details from GitHub: "
               +:+ err)
        | inr remoteInstall =>
        let installation :=
          {| inst_InstallationID := installationID;
             inst_AppID := app_ID app;
             inst_URL := remote_HTMLURL remoteInstall;
             inst_AccountLogin := remote_Login remoteInstall;
             inst_AccountAvatarURL := remote_AvatarURL remoteInstall;
             inst_AccountURL := remote_AccountHTMLURL remoteInstall;
             inst_AccountType := remote_Type remoteInstall |} in
        installed <- call (AppsInstall installation)
                       (GitHubApps_Install env installation) ;;
        match installed with
        | inl err =>
            failed (Some (app_Name app))
              ("Unexpected error while creating GitHub App installation: "
               +:+ err)
        | inr _ =>
            redirectFound
              (generateRedirectURL (Some (Domain stateDetails))
                 (Some installationID) (Some (app_ID app))
                 (Some (app_Name app)) None)
        end end end end end
      else
        respond (http_Error
                   ("Bad request; unsupported setup action: "
                    +:+ action)
                   StatusBadRequest)
  end.

Definition setupHandler (env : Env) (r : Request) : Handler Empty_set :=
  let state := Query_Get r "state" in
  let instID := Query_Get r "installation_id" in
  if String.eqb state "" || String.eqb instID "" then
    respond (http_Redirect "/site-admin/github-apps" StatusFound)
  else if negb (String.length state =? 64)%nat then
    respond (http_Error "Bad request, state query param is wrong length"
               StatusBadRequest)
  else
    found <- cache_Get env state ;;
    match found with
    | None =>
        redirectFound
          (generateRedirectURL None None None None
             (Some "Bad request, state query param does not match"))
    | Some setupInfo =>
        match json_Unmarshal setupInfo with
        | inl _ =>
            redirectFound
              (generateRedirectURL None None None None
                 (Some "Bad request, invalid state"))
        | inr stateDetails =>
            cache_Delete state ;;
            setupHandler_consumed env r instID stateDetails
        end
    end.

(** *** The token life cycle

    The handlers issue and consume tokens in line.  The two step sequences
    are named here so that properties of the life cycle can be stated once;
    [stateHandler_issue], [redirectHandler_consume] and
    [setupHandler_consume] below show the handlers run exactly these steps. *)

(** [RandomState(128)], [json.Marshal(context)], [srv.cache.Set]. *)
Definition issue (env : Env) (context : gitHubAppStateDetails)
    (on_random on_marshal : error -> Response) : Handler string :=
  s <- try (RandomState env 128) on_random ;;
  stateDetails <- try (json_Marshal context) on_marshal ;;
  cache_Set env s stateDetails ;;
  pure s.

(** [srv.cache.Get], [json.Unmarshal], [srv.cache.Delete]. *)
Definition consume (env : Env) (state : string)
    (not_found invalid : Response) : Handler gitHubAppStateDetails :=
  found <- cache_Get env state ;;
  match found with
  | None => respond not_found
  | Some stateValue =>
      match json_Unmarshal stateValue with
      | inl _ => respond invalid
      | inr stateDetails => cache_Delete state ;; pure stateDetails
      end
  end.

(** The world after the events [evs], the cache as it was. *)
Definition after (w : World) (evs : list Event) : World :=
  {| cache := cache w; trace := trace w ++ evs |}.

(** The world after a token was looked up and deleted. *)
Definition consumed (w : World) (state : string) : World :=
  {| cache := rcache.Delete (cache w) state;
     trace := trace w ++ [CacheGet state; CacheDelete state] |}.

(** How the two callbacks answer a token they do not find. *)
Definition redirect_NotFound : Response :=
  http_Error "Bad request, state query param does not match" StatusBadRequest.

Definition setup_NotFound : Response :=
  http_Redirect
    ("/site-admin/github-apps?success=false&error="
     +:+ url_QueryEscape "Bad request, state query param does not match")
    StatusFound.

Definition redirect_Invalid : Response :=
  http_Error "Bad request, invalid state" StatusBadRequest.

Definition setup_Invalid : Response :=
  http_Redirect
    ("/site-admin/github-apps?success=false&error="
     +:+ url_QueryEscape "Bad request, invalid state")
    StatusFound.

Definition state_random_error (err : error) : Response :=
  http_Error ("Unexpected error when generating state parameter: " +:+ err)
    StatusInternalServerError.

Definition state_marshal_error (err : error) : Response :=
  http_Error ("Unexpected error when marshalling state: " +:+ err)
    StatusInternalServerError.

(** The context [stateHandler] binds to the token it issues: the zero
    context without an [id], else the decoded [id] with the domain and the
    base URL of the request. *)
Definition stateHandler_context (r : Request) (id64 : Z)
    : gitHubAppStateDetails :=
  if String.eqb (Query_Get r "id") "" then zeroStateDetails
  else {| WebhookUUID := ""; Domain := Query_Get r "domain";
          AppID := id64; BaseURL := Query_Get r "baseURL" |}.

(** A later request presenting [state] to either callback is turned away as
    not found, having only looked the token up. *)
Definition rejected_as_NotFound (env : Env) (r : Request) (w : World)
    (state : string) : Prop :=
  (Query_Get r "code" <> "" ->
   serve (redirectHandler env r) w
   = (redirect_NotFound, after w [CacheGet state]))
  /\ (Query_Get r "installation_id" <> "" ->
      serve (setupHandler env r) w
      = (setup_NotFound, after w [CacheGet state])).

(** The codec gives back the context it encoded. *)
Definition round_trips (context : gitHubAppStateDetails) : Prop :=
  forall encoded,
    json_Marshal context = inr encoded -> json_Unmarshal encoded = inr context.

(** A step leaves the cache as it found it, or sets in it the token that
    [RandomState] returns. *)
Definition issues_at_most {A} (env : Env) (h : Handler A) : Prop :=
  forall w,
    cache (snd (h w)) = cache w
    \/ exists tok value,
         RandomState env 128 = inr tok
         /\ cache (snd (h w)) = rcache.Set_ (cache w) (now env) tok value.

End Handshake.

(** ** A reference instance of the collaborators

    Stand-ins for the libraries, in the manner of the mocks of the package's
    tests: a JSON codec for flat objects of strings and integers, URLs as
    strings, and a table with the tag of the spec's scenarios.  The codec
    writes and reads its strings as [encoding/json] does ([json.appendString]
    and [json.literal] above) and reads objects in the form it writes them,
    without white space.  The theorems below hold for every instance; this
    one shows their hypotheses can be met, and where a claim fails. *)
Module Ref.

Definition dquote : ascii := ascii_of_nat 34.
Definition backslash : ascii := ascii_of_nat 92.

(** A string as [json.Marshal] writes it. *)
Definition quote (s : string) : string := json.appendString s.

Definition member (key value : string) : string :=
  quote key +:+ ":" +:+ value.

Fixpoint join (sep : string) (parts : list string) : string :=
  match parts with
  | [] => ""
  | [p] => p
  | p :: rest => p +:+ sep +:+ join sep rest
  end.

(** The tags of the struct: [webhookUUID], [app_id] and [base_url] are
    omitted when empty, [domain] never. *)
Definition Marshal (d : gitHubAppStateDetails) : error + string :=
  inr ("{" +:+ join ","
         ((if String.eqb (WebhookUUID d) "" then []
           else [member "webhookUUID" (quote (WebhookUUID d))])
          ++ [member "domain" (quote (Domain d))]
          ++ (if AppID d =? 0 then [] else [member "app_id" (fmt_d (AppID d))])
          ++ (if String.eqb (BaseURL d) "" then []
              else [member "base_url" (quote (BaseURL d))]))
       +:+ "}").

Inductive value := VString (s : string) | VNumber (n : Z).

(** A string literal after its opening quote: its text, and what follows
    its closing quote. *)
Definition string_body (s : string) : option (string * string) :=
  json.literal (String.length s) s.

Fixpoint digits (s : string) (acc : Z) : Z * string :=
  match s with
  | String c rest =>
      if is_digit c then digits rest (10 * acc + (Z_of_ascii c - 48))
      else (acc, s)
  | EmptyString => (acc, s)
  end.

Definition parse_value (s : string) : option (value * string) :=
  match s with
  | String c rest =>
      if Ascii.eqb c dquote then
        match string_body rest with
        | Some (body, after) => Some (VString body, after)
        | None => None
        end
      else if Ascii.eqb c "-" then
        match rest with
        | String c' _ =>
            if is_digit c' then
              let '(n, after) := digits rest 0 in Some (VNumber (- n), after)
            else None
        | EmptyString => None
        end
      else if is_digit c then
        let '(n, after) := digits s 0 in Some (VNumber n, after)
      else None
  | EmptyString => None
  end.

Definition assign (key : string) (v : value) (d : gitHubAppStateDetails)
  : error + gitHubAppStateDetails :=
  let mismatch := inl ("json: cannot unmarshal into field " +:+ key) in
  if String.eqb key "webhookUUID" then
    match v with
    | VString s => inr {| WebhookUUID := s; Domain := Domain d;
                          AppID := AppID d; BaseURL := BaseURL d |}
    | _ => mismatch
    end
  else if String.eqb key "domain" then
    match v with
    | VString s => inr {| WebhookUUID := WebhookUUID d; Domain := s;
                          AppID := AppID d; BaseURL := BaseURL d |}
    | _ => mismatch
    end
  else if String.eqb key "app_id" then
    match v with
    | VNumber n => inr {| WebhookUUID := WebhookUUID d; Domain := Domain d;
                          AppID := n; BaseURL := BaseURL d |}
    | _ => mismatch
    end
  else if String.eqb key "base_url" then
    match v with
    | VString s => inr {| WebhookUUID := WebhookUUID d; Domain := Domain d;
                          AppID := AppID d; BaseURL := s |}
    | _ => mismatch
    end
  else inr d.

Definition syntax_error : error := "invalid character in JSON input".

Fixpoint members (fuel : nat) (s : string) (d : gitHubAppStateDetails)
  : error + gitHubAppStateDetails :=
  match fuel, s with
  | S fuel', String q rest =>
      if Ascii.eqb q dquote then
        match string_body rest with
        | Some (key, String ":" rest') =>
            match parse_value rest' with
            | Some (v, after) =>
                match assign key v d with
                | inl err => inl err
                | inr d' =>
                    match after with
                    | String "," more => members fuel' more d'
                    | String "}" EmptyString => inr d'
                    | _ => inl syntax_error
                    end
                end
            | None => inl syntax_error
            end
        | _ => inl syntax_error
        end
      else inl syntax_error
  | _, _ => inl syntax_error
  end.

Definition Unmarshal (s : string) : error + gitHubAppStateDetails :=
  match s with
  | String "{" (String "}" EmptyString) => inr zeroStateDetails
  | String "{" rest => members (String.length rest) rest zeroStateDetails
  | _ => inl syntax_error
  end.

Definition domainTag (tag : string) : error + GitHubAppDomain :=
  if String.eqb tag "repoSync" then inr ReposGitHubAppDomain
  else if String.eqb tag "batches" then inr BatchesGitHubAppDomain
  else inl ("unknown domain: " +:+ tag).

Definition APIRoot (base : string) : string * bool :=
  if String.eqb base "https://github.com" then ("https://api.github.com", true)
  else (base +:+ "/api/v3", false).

Definition trim_slash (s : string) : string :=
  match s with
  | String "/" rest => rest
  | _ => s
  end.

Definition JoinPath (base : string) (elems : list string) : error + string :=
  inr (join "/" (base :: List.map trim_slash elems)).

(** [strconv.Quote]: ASCII and bytes that are no UTF-8 as the library
    writes them.  A rune above U+00FF is taken as printable: the tables of
    [unicode] that decide it are not written out here. *)
Definition Quote_ascii (b : Z) : string :=
  if (b =? 34) || (b =? 92) then
    String backslash (String (ascii_of_Z b) EmptyString)
  else if (32 <=? b) && (b <=? 126) then String (ascii_of_Z b) EmptyString
  else if b =? 7 then "\a"
  else if b =? 8 then "\b"
  else if b =? 12 then "\f"
  else if b =? 10 then "\n"
  else if b =? 13 then "\r"
  else if b =? 9 then "\t"
  else if b =? 11 then "\v"
  else "\x" +:+ json.hex1 (Z.shiftr b 4) +:+ json.hex1 (Z.land b 15).

Fixpoint Quote_body (fuel : nat) (s : string) : string :=
  match fuel, s with
  | S fuel', String c rest =>
      let b := Z_of_ascii c in
      if b <? 128 then Quote_ascii b +:+ Quote_body fuel' rest
      else
        let '(r, size) := utf8.DecodeRuneInString s in
        if (r =? utf8.RuneError) && (size =? 1)%nat then
          "\x" +:+ json.hex1 (Z.shiftr b 4) +:+ json.hex1 (Z.land b 15)
          +:+ Quote_body fuel' rest
        else if (r <? 161) || (r =? 173) then
          "\u00" +:+ json.hex1 (Z.shiftr r 4) +:+ json.hex1 (Z.land r 15)
          +:+ Quote_body fuel' (json.drop size s)
        else
          String.substring 0 size s +:+ Quote_body fuel' (json.drop size s)
  | _, _ => EmptyString
  end.

Definition Quote (s : string) : string :=
  String dquote (Quote_body (String.length s) s +:+ String dquote EmptyString).

Definition deps : Deps := {|
  json_Marshal := Marshal;
  json_Unmarshal := Unmarshal;
  json_Decode := fun _ => inl syntax_error;
  URL := string;
  url_Parse := inr;
  url_JoinPath := JoinPath;
  URL_String := fun u => u;
  URL_Scheme := fun _ => "https";
  URL_Host := fun u => u;
  http_NewRequest := fun method url =>
    inr {| req_Method := method; req_URL := url |};
  github_APIRoot := APIRoot;
  MarshalGitHubAppID := fun id => "GitHubApp:" +:+ fmt_d id;
  UnmarshalGitHubAppID := fun id =>
    match strconv_Atoi id with
    | inr n => inr n
    | inl _ => inl ("invalid id: " +:+ id)
    end;
  parseDomainTag := domainTag;
  fmt_v_pointer := fun _ => "0xc000012345";
  strconv_Quote := Quote
|}.

(** A request that finds every collaborator failing: the random source
    still answers, from a fixed seed. *)
Definition env (now : Z) (seed : list byte) : Env (D := deps) := {|
  now := now;
  rand_Reader := fun n => inr (List.firstn n (seed ++ List.repeat x00 n));
  MockCreateGitHubApp := None;
  httpClient_Do := fun _ => inr {| StatusCode := 404; Body := "" |};
  GitHubApps_Create := fun _ => inl "no database";
  GitHubApps_GetByID := fun _ => inl "no database";
  GitHubApps_Install := fun _ => inl "no database";
  Webhooks_GetByUUID := fun _ => inl "no database";
  Webhooks_Update := fun _ => inl "no database";
  NewGitHubAppAuthenticator := fun _ _ => inl "no key";
  client_GetAppInstallation := fun _ _ _ => inl "unreachable"
|}.

Definition get (q : list (string * string)) : Request := {| query := q |}.

Definition start : World :=
  {| cache := rcache.NewWithTTL cacheTTLSeconds; trace := [] |}.

(** A token, the digest of 128 zero bytes, and a world whose cache holds it
    since time 0 with the given bytes. *)
Definition token : string :=
  "38723a2e5e8a17aa7950dc008209944e898f69a7bd10a23c839d341e935fd5ca".

Definition holding (value : string) : World :=
  {| cache := rcache.Set_ (rcache.NewWithTTL cacheTTLSeconds) 0 token value;
     trace := [] |}.

Definition encode (d : gitHubAppStateDetails) : string :=
  match Marshal d with
  | inr encoded => encoded
  | inl _ => ""
  end.

(** The contexts of the spec's scenarios: an installed app of the repository
    domain, and a new app with its webhook. *)
Definition installing : gitHubAppStateDetails :=
  {| WebhookUUID := ""; Domain := "repoSync"; AppID := 7; BaseURL := "" |}.

Definition converting : gitHubAppStateDetails :=
  {| WebhookUUID := "6ba7b810-9dad-11d1-80b4-00c04fd430c8";
     Domain := "repoSync"; AppID := 0; BaseURL := "https://github.com" |}.

Definition redirect_request : Request :=
  get [("state", token); ("code", "abc")].

(** A request whose state has the wrong length. *)
Definition short_request : Request :=
  get [("state", "short"); ("code", "abc"); ("installation_id", "1")].

(** The world [/state] leaves when it issued [token] for the zero context. *)
Definition issued : World :=
  {| cache := rcache.Set_ (rcache.NewWithTTL cacheTTLSeconds) 0 token
                (encode zeroStateDetails);
     trace := [CacheSet token (encode zeroStateDetails)] |}.





Definition conversion_request : HTTPRequest :=
  {| req_Method := "POST";
     req_URL := "https://api.github.com/app-manifests/abc/conversions" |}.

Definition setup_request (installation_id action : string) : Request :=
  get [("state", token); ("installation_id", installation_id);
       ("setup_action", action)].

End Ref.

(** * The rest of the package

    The entry points and helpers of [middleware.go] that the handshake
    above leaves out: the site-admin gate [ServeHTTP] with [checkSiteAdmin],
    the fourth handler [newAppStateHandler], and the options of the Perforce
    command builder that shares the file. *)

(** ** The site-admin gate *)

Definition StatusUnauthorized : Z := 401.
Definition StatusForbidden : Z := 403.

(** What [authcheck.CheckCurrentUserIsSiteAdmin] returns besides nil: the
    sentinel [authcheck.ErrNotAuthenticated], or some other error. *)
Inductive AuthError :=
| ErrNotAuthenticated
| OtherAuthError (msg : error).

(** [checkSiteAdmin]: what it writes to the response, and the error it
    returns. *)
Definition checkSiteAdmin (check : option AuthError)
    : list Response * option AuthError :=
  match check with
  | None => ([], None)
  | Some err =>
      let status :=
        match err with
        | ErrNotAuthenticated => StatusUnauthorized
        | OtherAuthError _ => StatusForbidden
        end in
      ([http_Error "Bad request, user must be a site admin" status], Some err)
  end.

(** [ServeHTTP]: the writes to the response in their order, and the world
    left.  [Router] is what the embedded [mux.Router] does with the
    request. *)
Definition ServeHTTP (check : option AuthError) (Router : Handler Empty_set)
    (w : World) : list Response * World :=
  let '(written, err) := checkSiteAdmin check in
  match err with
  | Some _ =>
      (written ++ [http_Error "User must be site admin" StatusForbidden], w)
  | None =>
      let '(resp, w') := serve Router w in
      (written ++ [resp], w')
  end.

(** ** google/uuid: String *)

Definition hex2 (b : Z) : string :=
  String (hexdigit hextable (Z.shiftr b 4))
    (String (hexdigit hextable (Z.land b 15)) EmptyString).

Fixpoint hex_bytes (bs : list Z) : string :=
  match bs with
  | [] => EmptyString
  | b :: rest => hex2 b +:+ hex_bytes rest
  end.

(** [UUID.String]: the 16 bytes in lower-case hexadecimal, in groups of
    4, 2, 2, 2 and 6 bytes with dashes between. *)
Definition uuid_String (u : UUID.t) : string :=
  hex_bytes (List.firstn 4 u) +:+ "-"
  +:+ hex_bytes (List.firstn 2 (List.skipn 4 u)) +:+ "-"
  +:+ hex_bytes (List.firstn 2 (List.skipn 6 u)) +:+ "-"
  +:+ hex_bytes (List.firstn 2 (List.skipn 8 u)) +:+ "-"
  +:+ hex_bytes (List.firstn 6 (List.skipn 10 u)).

(** A UUID as Go has it: an array of 16 bytes. *)
Definition uuid_wf (u : UUID.t) : Prop :=
  List.length u = 16%nat /\ Forall (fun b => 0 <= b < 256) u.

(** ** Shapes the handlers build *)

(** The webhook as [redirectHandler] writes it back. *)
Definition bound_hook (hook : Webhook) (app : GitHubApp) : Webhook :=
  {| hook_UUID := hook_UUID hook;
     hook_Name := app_Name app;
     hook_Secret := app_WebhookSecret app |}.

(** The context [redirectHandler] binds to the token of the next leg. *)
Definition next_context (d : gitHubAppStateDetails) (id : Z)
    : gitHubAppStateDetails :=
  {| WebhookUUID := ""; Domain := Domain d; AppID := id; BaseURL := "" |}.

(** The record [setupHandler] hands to [Install]. *)
Definition installation_of (installationID : Z) (app : GitHubApp)
    (remote : RemoteInstallation) : GitHubAppInstallation :=
  {| inst_InstallationID := installationID;
     inst_AppID := app_ID app;
     inst_URL := remote_HTMLURL remote;
     inst_AccountLogin := remote_Login remote;
     inst_AccountAvatarURL := remote_AvatarURL remote;
     inst_AccountURL := remote_AccountHTMLURL remote;
     inst_AccountType := remote_Type remote |}.

(** What [setupHandler] adds to the trace, after the lookup and the
    deletion of the token, when every step of the install action
    succeeds. *)
Definition install_events (d : gitHubAppStateDetails) (n : Z)
    (app : GitHubApp) (remote : RemoteInstallation) : list Event :=
  [AppsGetByID (AppID d); Sleep 3; GetAppInstallation n;
   AppsInstall (installation_of n app remote)].

(** The context [/new-app-state] binds to its token. *)
Definition new_app_context (r : Request) (webhookUUID : string)
    : gitHubAppStateDetails :=
  {| WebhookUUID := webhookUUID; Domain := Query_Get r "domain";
     AppID := 0; BaseURL := Query_Get r "baseURL" |}.

(** Every key of the cache has the shape of a token of [RandomState]. *)
Definition tokens_only (c : rcache.Cache) : Prop :=
  forall key entry,
    rcache.entries c !! key = Some entry ->
    String.length key = 64%nat /\ string_forallb is_lower_hex key = true.

(** ** newAppStateHandler *)

(** What [newAppStateHandler] needs besides [Deps]: the kind
    [extsvc.KindGitHub] and the JSON encoding of its response, the state
    with the webhook UUID. *)
Class NewAppDeps := {
  KindGitHub : string;
  json_EncodeResponse : string -> string -> error + string
}.

Section NewApp.

Context `{D : Deps} `{N : NewAppDeps}.

(** [ws.CreateWebhook(ctx, name, kind, urn, nil)] is an argument: what the
    webhook service answers.  The row it creates lives in the database and
    leaves no event in the trace. *)
Definition newAppStateHandler (env : Env)
    (CreateWebhook : string -> string -> string -> error + Webhook)
    (r : Request) : Handler Empty_set :=
  let webhookURN := Query_Get r "webhookURN" in
  let appName := Query_Get r "appName" in
  let domain := Query_Get r "domain" in
  let baseURL := Query_Get r "baseURL" in
  webhookUUID <-
    (if String.eqb webhookURN "" then pure ""
     else
       hook <- try (CreateWebhook appName KindGitHub webhookURN)
            (fun err => http_Error
               ("Unexpected error while setting up webhook endpoint: " +:+ err)
               StatusInternalServerError) ;;
       pure (uuid_String (hook_UUID hook))) ;;
  s <- try (RandomState env 128)
       (fun err => http_Error
          ("Unexpected error when generating state parameter: " +:+ err)
          StatusInternalServerError) ;;
  stateDetails <- try (json_Marshal
                         {| WebhookUUID := webhookUUID; Domain := domain;
                            AppID := 0; BaseURL := baseURL |})
       (fun err => http_Error
          ("Unexpected error when marshalling state: " +:+ err)
          StatusInternalServerError) ;;
  cache_Set env s stateDetails ;;
  match json_EncodeResponse s webhookUUID with
  | inr body => respond (Write body)
  | inl err =>
      respond (http_Error
                 ("Unexpected error while writing response: " +:+ err)
                 StatusInternalServerError)
  end.

(** The handlers registered by [NewGitHubAppServer], by route. *)
Inductive Route := StateRoute | NewAppStateRoute | RedirectRoute | SetupRoute.

Definition route_handler (env : Env)
    (CreateWebhook : string -> string -> string -> error + Webhook)
    (route : Route) (r : Request) : Handler Empty_set :=
  match route with
  | StateRoute => stateHandler env r
  | NewAppStateRoute => newAppStateHandler env CreateWebhook r
  | RedirectRoute => redirectHandler env r
  | SetupRoute => setupHandler env r
  end.

End NewApp.

(** ** The Perforce command *)

Module perforce.

Section Command.

(** [io.Reader], [io.Writer] and [log.Logger] values; an interface value
    that may be nil is an [option]. *)
Variables (Reader Writer Logger : Type).
Variable NoOp : Logger.

Record p4Options := {
  arguments : list string;
  overrideEnvironment : list string;
  environment : list string;
  stdin : option Reader;
  stdout : option Writer;
  stderr : option Writer;
  logger : option Logger
}.

(** [p4Options{}] *)
Definition zero : p4Options :=
  {| arguments := []; overrideEnvironment := []; environment := [];
     stdin := None; stdout := None; stderr := None; logger := None |}.

(** An option changes the options in place. *)
Definition P4OptionFunc : Type := p4Options -> p4Options.

Definition WithArguments (args : list string) : P4OptionFunc :=
  fun o =>
    {| arguments := arguments o ++ args;
       overrideEnvironment := overrideEnvironment o;
       environment := environment o;
       stdin := stdin o; stdout := stdout o; stderr := stderr o;
       logger := logger o |}.

Definition override (entries : list string) : P4OptionFunc :=
  fun o =>
    {| arguments := arguments o;
       overrideEnvironment := overrideEnvironment o ++ entries;
       environment := environment o;
       stdin := stdin o; stdout := stdout o; stderr := stderr o;
       logger := logger o |}.

Definition WithHost (p4port : string) : P4OptionFunc :=
  override ["P4PORT=" +:+ p4port].

Definition WithAuthentication (user password : string) : P4OptionFunc :=
  override ["P4USER=" +:+ user; "P4PASSWD=" +:+ password].

Definition WithEnvironment (env : list string) : P4OptionFunc :=
  fun o =>
    {| arguments := arguments o;
       overrideEnvironment := overrideEnvironment o;
       environment := environment o ++ env;
       stdin := stdin o; stdout := stdout o; stderr := stderr o;
       logger := logger o |}.

Definition WithLogger (l : option Logger) : P4OptionFunc :=
  fun o =>
    {| arguments := arguments o;
       overrideEnvironment := overrideEnvironment o;
       environment := environment o;
       stdin := stdin o; stdout := stdout o; stderr := stderr o;
       logger := l |}.

Definition WithAlternateHomeDir (dir : string) : P4OptionFunc :=
  override ["HOME=" +:+ dir].

Definition WithClient (client : string) : P4OptionFunc :=
  override ["P4CLIENT=" +:+ client].

Definition WithStderr (s : option Writer) : P4OptionFunc :=
  fun o =>
    {| arguments := arguments o;
       overrideEnvironment := overrideEnvironment o;
       environment := environment o;
       stdin := stdin o; stdout := stdout o; stderr := s;
       logger := logger o |}.

Definition WithStdin (s : option Reader) : P4OptionFunc :=
  fun o =>
    {| arguments := arguments o;
       overrideEnvironment := overrideEnvironment o;
       environment := environment o;
       stdin := s; stdout := stdout o; stderr := stderr o;
       logger := logger o |}.

Definition WithStdout (s : option Writer) : P4OptionFunc :=
  fun o =>
    {| arguments := arguments o;
       overrideEnvironment := overrideEnvironment o;
       environment := environment o;
       stdin := stdin o; stdout := s; stderr := stderr o;
       logger := logger o |}.

(** The [exec.Cmd] built, with the logger it is wrapped with.  [Args]
    holds the command name first, as [exec.CommandContext] fills it. *)
Record Cmd := {
  Name : string;
  Args : list string;
  Env_ : list string;
  Dir : string;
  Stdin : option Reader;
  Stdout : option Writer;
  Stderr : option Writer;
  Log : Logger
}.

(** [for _, option := range options { option(&opts) }] *)
Definition apply_options (options : list P4OptionFunc) (o : p4Options)
    : p4Options :=
  List.fold_left (fun acc option => option acc) options o.

Definition NewBaseCommand (cwd : string) (options : list P4OptionFunc) : Cmd :=
  let opts := apply_options options zero in
  {| Name := "p4";
     Args := "p4" :: arguments opts;
     Env_ := (["P4CLIENTPATH=" +:+ cwd] ++ environment opts)
             ++ overrideEnvironment opts;
     Dir := cwd;
     Stdin := stdin opts;
     Stdout := stdout opts;
     Stderr := stderr opts;
     Log := match logger opts with
            | Some l => l
            | None => NoOp
            end |}.

(** The options the package exports, as data. *)
Inductive Option_ :=
| Arguments_ (args : list string)
| Host (p4port : string)
| Authentication (user password : string)
| Environment (env : list string)
| Logger_ (l : option Logger)
| AlternateHomeDir (dir : string)
| Client (client : string)
| Stderr_ (s : option Writer)
| Stdin_ (s : option Reader)
| Stdout_ (s : option Writer).

Definition option_func (opt : Option_) : P4OptionFunc :=
  match opt with
  | Arguments_ args => WithArguments args
  | Host p4port => WithHost p4port
  | Authentication user password => WithAuthentication user password
  | Environment env => WithEnvironment env
  | Logger_ l => WithLogger l
  | AlternateHomeDir dir => WithAlternateHomeDir dir
  | Client client => WithClient client
  | Stderr_ s => WithStderr s
  | Stdin_ s => WithStdin s
  | Stdout_ s => WithStdout s
  end.

(** What an option contributes to the arguments, to the plain environment
    and to the overriding environment. *)
Definition option_arguments (opt : Option_) : list string :=
  match opt with
  | Arguments_ args => args
  | _ => []
  end.

Definition option_environment (opt : Option_) : list string :=
  match opt with
  | Environment env => env
  | _ => []
  end.

Definition option_override (opt : Option_) : list string :=
  match opt with
  | Host p4port => ["P4PORT=" +:+ p4port]
  | Authentication user password =>
      ["P4USER=" +:+ user; "P4PASSWD=" +:+ password]
  | AlternateHomeDir dir => ["HOME=" +:+ dir]
  | Client client => ["P4CLIENT=" +:+ client]
  | _ => []
  end.

(** The standard output an option sets, if it sets one. *)
Definition option_stdout (opt : Option_) : option (option Writer) :=
  match opt with
  | Stdout_ s => Some s
  | _ => None
  end.

End Command.

Arguments arguments {Reader Writer Logger}.
Arguments overrideEnvironment {Reader Writer Logger}.
Arguments environment {Reader Writer Logger}.
Arguments stdin {Reader Writer Logger}.
Arguments stdout {Reader Writer Logger}.
Arguments stderr {Reader Writer Logger}.
Arguments logger {Reader Writer Logger}.
Arguments zero {Reader Writer Logger}.
Arguments WithArguments {Reader Writer Logger}.
Arguments override {Reader Writer Logger}.
Arguments WithHost {Reader Writer Logger}.
Arguments WithAuthentication {Reader Writer Logger}.
Arguments WithEnvironment {Reader Writer Logger}.
Arguments WithLogger {Reader Writer Logger}.
Arguments WithAlternateHomeDir {Reader Writer Logger}.
Arguments WithClient {Reader Writer Logger}.
Arguments WithStderr {Reader Writer Logger}.
Arguments WithStdin {Reader Writer Logger}.
Arguments WithStdout {Reader Writer Logger}.
Arguments Name {Reader Writer Logger}.
Arguments Args {Reader Writer Logger}.
Arguments Env_ {Reader Writer Logger}.
Arguments Dir {Reader Writer Logger}.
Arguments Stdin {Reader Writer Logger}.
Arguments Stdout {Reader Writer Logger}.
Arguments Stderr {Reader Writer Logger}.
Arguments Log {Reader Writer Logger}.
Arguments apply_options {Reader Writer Logger}.
Arguments NewBaseCommand {Reader Writer Logger}.
Arguments Arguments_ {Reader Writer Logger}.
Arguments Host {Reader Writer Logger}.
Arguments Authentication {Reader Writer Logger}.
Arguments Environment {Reader Writer Logger}.
Arguments Logger_ {Reader Writer Logger}.
Arguments AlternateHomeDir {Reader Writer Logger}.
Arguments Client {Reader Writer Logger}.
Arguments Stderr_ {Reader Writer Logger}.
Arguments Stdin_ {Reader Writer Logger}.
Arguments Stdout_ {Reader Writer Logger}.
Arguments option_func {Reader Writer Logger}.
Arguments option_arguments {Reader Writer Logger}.
Arguments option_environment {Reader Writer Logger}.
Arguments option_override {Reader Writer Logger}.
Arguments option_stdout {Reader Writer Logger}.

End perforce.

(** ** A reference instance where the collaborators answer

    The mock of the conversion as the package's tests install it, a
    database and a platform that answer every call, and the webhook
    service of [/new-app-state]. *)
Module Happy.

Definition uuid : UUID.t :=
  [107; 167; 184; 16; 157; 173; 17; 209; 128; 180; 0; 192; 79; 212; 48; 200].

Definition app (dom : GitHubAppDomain) : GitHubApp :=
  {| app_ID := 42; app_AppID := 1234; app_Name := "Foo"; app_Slug := "foo";
     app_ClientID := "Iv1.0"; app_ClientSecret := "secret";
     app_WebhookSecret := "hush"; app_PrivateKey := "pem";
     app_BaseURL := "https://github.com";
     app_AppURL := "https://github.com/apps/foo";
     app_Domain := dom;
     app_Logo := "https://github.com/identicons/app/app/foo" |}.

Definition remote : RemoteInstallation :=
  {| remote_HTMLURL := "https://github.com/settings/installations/12";
     remote_Login := "octo"; remote_AvatarURL := "https://github.com/octo.png";
     remote_AccountHTMLURL := "https://github.com/octo";
     remote_Type := "Organization" |}.

Definition env (now : Z) (seed : list byte) : Env (D := Ref.deps) := {|
  now := now;
  rand_Reader := fun n => inr (List.firstn n (seed ++ List.repeat x00 n));
  MockCreateGitHubApp := Some (fun _ dom => inr (app dom));
  httpClient_Do := fun _ => inl "no network";
  GitHubApps_Create := fun _ => inr 42;
  GitHubApps_GetByID := fun _ => inr (app ReposGitHubAppDomain);
  GitHubApps_Install := fun _ => inr 1;
  Webhooks_GetByUUID := fun u =>
    inr {| hook_UUID := u; hook_Name := ""; hook_Secret := "" |};
  Webhooks_Update := fun hook => inr hook;
  NewGitHubAppAuthenticator := fun id key =>
    inr {| auth_AppID := id; auth_PrivateKey := key |};
  client_GetAppInstallation := fun _ _ _ => inr remote
|}.

(** The token [RandomState] makes of the seed [x01]. *)
Definition next_token : string :=
  "ed4fc1d85afa5175e4973c9780b78fa000f070c00230ec18d6190133cb915db5".

(** [json.NewEncoder(w).Encode(resp)]: the object and a newline. *)
Definition EncodeResponse (state webhookUUID : string) : error + string :=
  inr ("{" +:+ Ref.join ","
         ([Ref.member "state" (Ref.quote state)]
          ++ (if String.eqb webhookUUID "" then []
              else [Ref.member "webhookUUID" (Ref.quote webhookUUID)]))
       +:+ "}" +:+ String (ascii_of_nat 10) EmptyString).

Definition new_app : NewAppDeps :=
  {| KindGitHub := "GITHUB"; json_EncodeResponse := EncodeResponse |}.

Definition CreateWebhook (name kind urn : string) : error + Webhook :=
  inr {| hook_UUID := uuid; hook_Name := name; hook_Secret := "" |}.

Definition new_app_request : Request :=
  Ref.get [("webhookURN", "https://sourcegraph.test/.api/webhooks/1");
           ("appName", "Foo"); ("domain", "repoSync");
           ("baseURL", "https://github.com")].

Definition new_app_body : string :=
  match EncodeResponse Ref.token "6ba7b810-9dad-11d1-80b4-00c04fd430c8" with
  | inr body => body
  | inl _ => ""
  end.

Definition install_request : Request :=
  Ref.get [("state", next_token); ("installation_id", "12");
           ("setup_action", "install")].

End Happy.

(** * Properties *)

(** ** The library models on known values *)

(** FIPS 180-4 test vectors: the digests of the empty string, of a message
    of two blocks and of "abc". *)
Example sha256_empty :
  hex_EncodeToString (SHA256.Sum []) =
  "e3b0c44298fc1c149afbf4c8996fb92427ae41e4649b934ca495991b7852b855".
Proof. vm_compute. reflexivity. Qed.

Example sha256_two_blocks :
  hex_EncodeToString
    (SHA256.Sum
       (bytes_of_string
          "abcdbcdecdefdefgefghfghighijhijkijkljklmklmnlmnomnopnopq")) =
  "248d6a61d20638b8e5c026930c3e6039a33ce45964ff2167f6ecedd419db06c1".
Proof. vm_compute. reflexivity. Qed.

Example sha256_abc :
  hex_EncodeToString (SHA256.Sum (bytes_of_string "abc")) =
  "ba7816bf8f01cfea414140de5dae2223b00361a396177a9cb410ff61f20015ad".
Proof. vm_compute. reflexivity. Qed.

Example fmt_d_examples : (fmt_d 0, fmt_d 42, fmt_d (-7)) = ("0", "42", "-7").
Proof. reflexivity. Qed.

Example Atoi_examples :
  (strconv_Atoi "15", strconv_Atoi "-3", strconv_Atoi "+08") = (inr 15, inr (-3), inr 8).
Proof. reflexivity. Qed.

Example QueryEscape_example :
  url_QueryEscape "invalid domain: a/b" = "invalid+domain%3A+a%2Fb".
Proof. reflexivity. Qed.

Example uuid_Parse_example :
  UUID.Parse "6ba7b810-9dad-11d1-80b4-00c04fd430c8" =
  inr [107; 167; 184; 16; 157; 173; 17; 209; 128; 180; 0; 192; 79; 212; 48; 200].
Proof. reflexivity. Qed.

Example ref_codec_examples :
  (Ref.Marshal zeroStateDetails,
   Ref.Marshal {| WebhookUUID := ""; Domain := "repoSync"; AppID := 7; BaseURL := "" |})
  = (inr ("{" +:+ Ref.member "domain" (Ref.quote "") +:+ "}"),
     inr ("{" +:+ Ref.member "domain" (Ref.quote "repoSync")
          +:+ "," +:+ Ref.member "app_id" "7" +:+ "}")).
Proof. reflexivity. Qed.

(** ** The cache *)

Lemma Get_Delete_eq (c : rcache.Cache) (now : Z) (key : string) :
  rcache.Get (rcache.Delete c key) now key = None.
Proof. unfold rcache.Get, rcache.Delete; simpl. by rewrite lookup_delete_eq. Qed.

Lemma Get_Delete_ne (c : rcache.Cache) (now : Z) (key key' : string) :
  key ≠ key' ->
  rcache.Get (rcache.Delete c key) now key' = rcache.Get c now key'.
Proof.
  intros Hne. unfold rcache.Get, rcache.Delete; simpl.
  by rewrite lookup_delete_ne.
Qed.

Lemma Get_Set_eq (c : rcache.Cache) (t0 now : Z) (key value : string) :
  now < t0 + rcache.ttlSeconds c ->
  rcache.Get (rcache.Set_ c t0 key value) now key = Some value.
Proof.
  intros Hlive. unfold rcache.Get, rcache.Set_; simpl.
  rewrite lookup_insert_eq.
  destruct (Z.ltb_spec now (t0 + rcache.ttlSeconds c)); [done | lia].
Qed.

Lemma Get_Set_ne (c : rcache.Cache) (t0 now : Z) (key key' value : string) :
  key ≠ key' ->
  rcache.Get (rcache.Set_ c t0 key value) now key' = rcache.Get c now key'.
Proof.
  intros Hne. unfold rcache.Get, rcache.Set_; simpl.
  by rewrite lookup_insert_ne.
Qed.

(** A token is not found exactly when it has no entry (it was never issued,
    or it was deleted) or its entry has expired. *)
Lemma Get_None (c : rcache.Cache) (now : Z) (key : string) :
  rcache.Get c now key = None <->
  rcache.entries c !! key = None
  \/ exists value deadline,
       rcache.entries c !! key = Some (value, deadline) /\ deadline <= now.
Proof.
  unfold rcache.Get.
  destruct (rcache.entries c !! key) as [[value deadline]|] eqn:E.
  - destruct (Z.ltb_spec now deadline); split.
    + discriminate.
    + intros [Hn | (v' & d' & Heq & Hle)]; [discriminate |].
      injection Heq as <- <-. lia.
    + intros _. right. eauto.
    + done.
  - split; [by left | done].
Qed.

Lemma Get_absent (c : rcache.Cache) (now : Z) (key : string) :
  rcache.entries c !! key = None -> rcache.Get c now key = None.
Proof. intros H. apply Get_None. by left. Qed.

(** ** The token generator *)

Lemma hex_EncodeToString_length (src : list byte) :
  String.length (hex_EncodeToString src) = (2 * List.length src)%nat.
Proof.
  induction src as [|b rest IH]; [reflexivity |].
  cbn [hex_EncodeToString String.length List.length]. rewrite IH. lia.
Qed.

Lemma hex_EncodeToString_lower (src : list byte) :
  string_forallb is_lower_hex (hex_EncodeToString src) = true.
Proof.
  induction src as [|b rest IH]; [reflexivity |].
  cbn [hex_EncodeToString string_forallb]. rewrite IH.
  destruct b; reflexivity.
Qed.

Lemma sha256_Sum_length (data : list byte) :
  List.length (SHA256.Sum data) = SHA256.Size.
Proof.
  unfold SHA256.Sum, SHA256.digest_bytes.
  rewrite List.length_map. reflexivity.
Qed.

Section Properties.

Context `{D : Deps}.

(** A token is the hexadecimal SHA-256 digest of what the random source
    gave, whatever the number of bytes asked for. *)
Lemma RandomState_token (env : Env) (n : nat) (tok : string) :
  RandomState env n = inr tok ->
  (exists data,
      rand_Reader env n = inr data
      /\ tok = hex_EncodeToString (SHA256.Sum data))
  /\ String.length tok = 64%nat
  /\ string_forallb is_lower_hex tok = true.
Proof.
  unfold RandomState. destruct (rand_Reader env n) as [err|data]; [discriminate |].
  intros Hok.
  assert (tok = hex_EncodeToString (SHA256.Sum data)) as -> by congruence.
  split; [eauto | split].
  - rewrite hex_EncodeToString_length, sha256_Sum_length. reflexivity.
  - apply hex_EncodeToString_lower.
Qed.

(** ** The handler steps *)

Lemma eqb_empty (s : string) : s <> "" -> String.eqb s "" = false.
Proof. apply String.eqb_neq. Qed.

Lemma len64_nonempty (s : string) :
  String.length s = 64%nat -> String.eqb s "" = false.
Proof. destruct s; [discriminate | reflexivity]. Qed.

Lemma serve_snd (h : Handler Empty_set) (w : World) :
  snd (serve h w) = snd (h w).
Proof. unfold serve. destruct (h w) as [[resp|[]] w']; reflexivity. Qed.

Lemma serve_ext (h h' : Handler Empty_set) (w : World) :
  h w = h' w -> serve h w = serve h' w.
Proof. unfold serve. by intros ->. Qed.

Lemma serve_bind {A} (m : Handler A) (k : A -> Handler Empty_set)
    (w w' : World) (a : A) :
  m w = (inr a, w') -> serve (a' <- m ;; k a') w = serve (k a) w'.
Proof. unfold serve, bind. by intros ->. Qed.

Lemma serve_bind_stop {A} (m : Handler A) (k : A -> Handler Empty_set)
    (w w' : World) (resp : Response) :
  m w = (inl resp, w') -> serve (a' <- m ;; k a') w = (resp, w').
Proof. unfold serve, bind. by intros ->. Qed.

(** *** The handlers run the steps of [consume] and [issue] *)

Lemma redirectHandler_consume (env : Env) (r : Request) (w : World) :
  Query_Get r "code" <> "" ->
  String.length (Query_Get r "state") = 64%nat ->
  redirectHandler env r w
  = (d <- consume env (Query_Get r "state") redirect_NotFound redirect_Invalid ;;
     redirectHandler_consumed env (Query_Get r "code") d) w.
Proof.
  intros Hcode Hlen. unfold redirectHandler.
  rewrite (len64_nonempty _ Hlen), (eqb_empty _ Hcode), Hlen.
  cbn [orb negb Nat.eqb].
  unfold consume, bind, cache_Get.
  destruct (rcache.Get (cache w) (now env) (Query_Get r "state")) as [v|];
    [| reflexivity].
  unfold try. destruct (json_Unmarshal v) as [e|d]; reflexivity.
Qed.

Lemma setupHandler_consume (env : Env) (r : Request) (w : World) :
  Query_Get r "installation_id" <> "" ->
  String.length (Query_Get r "state") = 64%nat ->
  setupHandler env r w
  = (d <- consume env (Query_Get r "state") setup_NotFound setup_Invalid ;;
     setupHandler_consumed env r (Query_Get r "installation_id") d) w.
Proof.
  intros Hinst Hlen. unfold setupHandler.
  rewrite (len64_nonempty _ Hlen), (eqb_empty _ Hinst), Hlen.
  cbn [orb negb Nat.eqb].
  unfold consume, bind, cache_Get.
  destruct (rcache.Get (cache w) (now env) (Query_Get r "state")) as [v|];
    [| reflexivity].
  destruct (json_Unmarshal v) as [e|d]; reflexivity.
Qed.

Lemma stateHandler_issue (env : Env) (r : Request) (w : World) (id64 : Z) :
  Query_Get r "id" = ""
  \/ UnmarshalGitHubAppID (Query_Get r "id") = inr id64 ->
  stateHandler env r w
  = (s <- issue env (stateHandler_context r id64)
            state_random_error state_marshal_error ;;
     respond (Write s)) w.
Proof.
  intros Hid. unfold stateHandler, stateHandler_context, issue, bind, try.
  destruct (RandomState env 128) as [err|s]; [reflexivity |].
  unfold pure, respond.
  destruct (String.eqb_spec (Query_Get r "id") "") as [Hempty|Hgiven].
  - destruct (json_Marshal zeroStateDetails); reflexivity.
  - destruct Hid as [Hid|Hid]; [contradiction |]. rewrite Hid.
    destruct (json_Marshal _); reflexivity.
Qed.

(** *** What [consume] and [issue] do *)

Lemma consume_found (env : Env) (state : string) (nf inv : Response)
    (w : World) (v : string) (d : gitHubAppStateDetails) :
  rcache.Get (cache w) (now env) state = Some v ->
  json_Unmarshal v = inr d ->
  consume env state nf inv w = (inr d, consumed w state).
Proof.
  intros Hget Hdec. unfold consume, bind, cache_Get, cache_Delete, pure.
  rewrite Hget, Hdec. unfold consumed. cbn [cache trace].
  by rewrite <- app_assoc.
Qed.

Lemma consume_missing (env : Env) (state : string) (nf inv : Response)
    (w : World) :
  rcache.Get (cache w) (now env) state = None ->
  consume env state nf inv w = (inl nf, after w [CacheGet state]).
Proof.
  intros Hget. unfold consume, bind, cache_Get, respond. by rewrite Hget.
Qed.

Lemma consume_invalid (env : Env) (state : string) (nf inv : Response)
    (w : World) (v : string) (err : error) :
  rcache.Get (cache w) (now env) state = Some v ->
  json_Unmarshal v = inl err ->
  consume env state nf inv w = (inl inv, after w [CacheGet state]).
Proof.
  intros Hget Hdec. unfold consume, bind, cache_Get, respond.
  by rewrite Hget, Hdec.
Qed.

(** ** Frame properties

    Every step only appends to the trace; the steps after the token is
    consumed leave the cache alone, but for the token [redirectHandler]
    issues at its end. *)

Lemma grows_pure {A} (a : A) : grows (pure a).
Proof. intros w. exists []. symmetry. apply app_nil_r. Qed.

Lemma grows_respond {A} (r : Response) : grows (@respond A r).
Proof. intros w. exists []. symmetry. apply app_nil_r. Qed.

Lemma grows_emit (e : Event) : grows (emit e).
Proof. intros w. by exists [e]. Qed.

Lemma grows_bind {A B} (m : Handler A) (k : A -> Handler B) :
  grows m -> (forall a, grows (k a)) -> grows (bind m k).
Proof.
  intros Hm Hk w. unfold bind. destruct (Hm w) as [evs Hevs].
  destruct (m w) as [[resp|a] w']; cbn [snd] in *.
  - eauto.
  - destruct (Hk a w') as [evs' Hevs']. exists (evs ++ evs').
    by rewrite Hevs', Hevs, app_assoc.
Qed.

Lemma grows_try {E A} (x : E + A) (h : E -> Response) : grows (try x h).
Proof. destruct x; [apply grows_respond | apply grows_pure]. Qed.

Lemma grows_call {A} (e : Event) (x : error + A) : grows (call e x).
Proof. apply grows_bind; [apply grows_emit | intros; apply grows_pure]. Qed.

Lemma grows_cache_Get (env : Env) (key : string) : grows (cache_Get env key).
Proof. intros w. by exists [CacheGet key]. Qed.

Lemma grows_cache_Set (env : Env) (key v : string) :
  grows (cache_Set env key v).
Proof. intros w. by exists [CacheSet key v]. Qed.

Lemma grows_cache_Delete (key : string) : grows (cache_Delete key).
Proof. intros w. by exists [CacheDelete key]. Qed.

Lemma grows_redirectFound {A} (u : Outcome string) :
  grows (@redirectFound A u).
Proof. destruct u; apply grows_respond. Qed.

Lemma keeps_cache_pure {A} (a : A) : keeps_cache (pure a).
Proof. by intros w. Qed.

Lemma keeps_cache_respond {A} (r : Response) : keeps_cache (@respond A r).
Proof. by intros w. Qed.

Lemma keeps_cache_emit (e : Event) : keeps_cache (emit e).
Proof. by intros w. Qed.

Lemma keeps_cache_bind {A B} (m : Handler A) (k : A -> Handler B) :
  keeps_cache m -> (forall a, keeps_cache (k a)) -> keeps_cache (bind m k).
Proof.
  intros Hm Hk w. unfold bind. specialize (Hm w).
  destruct (m w) as [[resp|a] w']; cbn [snd] in *; [done |].
  by rewrite Hk.
Qed.

Lemma keeps_cache_try {E A} (x : E + A) (h : E -> Response) :
  keeps_cache (try x h).
Proof. by destruct x. Qed.

Lemma keeps_cache_call {A} (e : Event) (x : error + A) :
  keeps_cache (call e x).
Proof. by intros w. Qed.

Lemma keeps_cache_redirectFound {A} (u : Outcome string) :
  keeps_cache (@redirectFound A u).
Proof. by destruct u. Qed.

Ltac frame_step :=
  first
    [ apply grows_bind; [| intros ?]
    | apply keeps_cache_bind; [| intros ?]
    | apply grows_pure | apply grows_respond | apply grows_emit
    | apply grows_try | apply grows_call | apply grows_cache_Get
    | apply grows_cache_Set | apply grows_cache_Delete
    | apply grows_redirectFound
    | apply keeps_cache_pure | apply keeps_cache_respond
    | apply keeps_cache_emit | apply keeps_cache_try
    | apply keeps_cache_call | apply keeps_cache_redirectFound
    | match goal with
      | |- grows (match ?x with _ => _ end) => destruct x
      | |- keeps_cache (match ?x with _ => _ end) => destruct x
      end ].

Lemma grows_createGitHubApp (env : Env) (u : string) (dom : GitHubAppDomain) :
  grows (createGitHubApp env u dom).
Proof. unfold createGitHubApp. repeat frame_step. Qed.

Lemma keeps_cache_createGitHubApp (env : Env) (u : string)
    (dom : GitHubAppDomain) :
  keeps_cache (createGitHubApp env u dom).
Proof. unfold createGitHubApp. repeat frame_step. Qed.

Lemma grows_setupHandler_consumed (env : Env) (r : Request) (instID : string)
    (d : gitHubAppStateDetails) :
  grows (setupHandler_consumed env r instID d).
Proof. unfold setupHandler_consumed. cbv zeta. repeat frame_step. Qed.

Lemma keeps_cache_setupHandler_consumed (env : Env) (r : Request)
    (instID : string) (d : gitHubAppStateDetails) :
  keeps_cache (setupHandler_consumed env r instID d).
Proof. unfold setupHandler_consumed. cbv zeta. repeat frame_step. Qed.

Lemma grows_redirectHandler_consumed (env : Env) (code : string)
    (d : gitHubAppStateDetails) :
  grows (redirectHandler_consumed env code d).
Proof.
  unfold redirectHandler_consumed. cbv zeta.
  repeat (frame_step || apply grows_createGitHubApp).
Qed.

Lemma issues_at_most_bind {A B} (env : Env) (m : Handler A)
    (k : A -> Handler B) :
  keeps_cache m -> (forall a, issues_at_most env (k a)) ->
  issues_at_most env (bind m k).
Proof.
  intros Hm Hk w. unfold bind. specialize (Hm w).
  destruct (m w) as [[resp|a] w']; cbn [snd] in *; [by left |].
  rewrite <- Hm. apply Hk.
Qed.

Lemma issues_at_most_redirectHandler_consumed (env : Env) (code : string)
    (d : gitHubAppStateDetails) :
  issues_at_most env (redirectHandler_consumed env code d).
Proof.
  unfold redirectHandler_consumed. cbv zeta.
  do 4 (apply issues_at_most_bind; [apply keeps_cache_try | intros ?]).
  apply issues_at_most_bind; [apply keeps_cache_createGitHubApp | intros ?].
  apply issues_at_most_bind; [apply keeps_cache_try | intros ?].
  do 3 (apply issues_at_most_bind; [apply keeps_cache_call | intros ?];
        apply issues_at_most_bind; [apply keeps_cache_try | intros ?]).
  intros w. unfold bind, try.
  destruct (RandomState env 128) as [err|tok] eqn:Htok; [by left |].
  destruct (json_Marshal _) as [err|b]; [by left |].
  right. exists tok, b. by split.
Qed.

(** ** Validation before the store *)

Lemma redirectHandler_wrong_length (env : Env) (r : Request) (w : World) :
  String.length (Query_Get r "state") <> 64%nat ->
  serve (redirectHandler env r) w
  = (http_Error
       (if String.eqb (Query_Get r "state") ""
           || String.eqb (Query_Get r "code") ""
        then "Bad request, code and state query params must be present"
        else "Bad request, state query param is wrong length")
       StatusBadRequest, w).
Proof.
  intros Hlen%Nat.eqb_neq. unfold serve, redirectHandler.
  destruct (String.eqb _ "" || String.eqb _ ""); [reflexivity |].
  by rewrite Hlen.
Qed.

Lemma setupHandler_wrong_length (env : Env) (r : Request) (w : World) :
  String.length (Query_Get r "state") <> 64%nat ->
  Query_Get r "state" <> "" -> Query_Get r "installation_id" <> "" ->
  serve (setupHandler env r) w
  = (http_Error "Bad request, state query param is wrong length"
       StatusBadRequest, w).
Proof.
  intros Hlen%Nat.eqb_neq Hstate Hinst. unfold serve, setupHandler.
  by rewrite (eqb_empty _ Hstate), (eqb_empty _ Hinst), Hlen.
Qed.

(** C7: a [state] whose length is not 64 is answered with HTTP 400 by
    [/redirect], and by [/setup] when [state] and [installation_id] are both
    given, and the world is left as it was: no cache operation is recorded
    and the cache is unchanged. *)
Theorem state_length_checked_before_store
    (env : Env) (r : Request) (w : World) :
  String.length (Query_Get r "state") <> 64%nat ->
  (exists msg,
      serve (redirectHandler env r) w = (http_Error msg StatusBadRequest, w))
  /\ (Query_Get r "state" <> "" -> Query_Get r "installation_id" <> "" ->
      serve (setupHandler env r) w
      = (http_Error "Bad request, state query param is wrong length"
           StatusBadRequest, w)).
Proof.
  intros Hlen. split.
  - eexists. by apply redirectHandler_wrong_length.
  - by apply setupHandler_wrong_length.
Qed.

(** With both parameters given and a state of 64 characters, [/setup] goes
    to the cache. *)
Lemma setupHandler_looks_up (env : Env) (r : Request) (w : World) :
  Query_Get r "installation_id" <> "" ->
  String.length (Query_Get r "state") = 64%nat ->
  exists evs,
    trace (snd (serve (setupHandler env r) w))
    = trace w ++ CacheGet (Query_Get r "state") :: evs.
Proof.
  intros Hinst Hlen. rewrite serve_snd, setupHandler_consume by done.
  unfold bind.
  destruct (rcache.Get (cache w) (now env) (Query_Get r "state")) as [v|] eqn:Hget.
  - destruct (json_Unmarshal v) as [err|d] eqn:Hdec.
    + rewrite (consume_invalid _ _ _ _ _ _ _ Hget Hdec). by exists [].
    + rewrite (consume_found _ _ _ _ _ _ _ Hget Hdec).
      destruct (grows_setupHandler_consumed env r
                  (Query_Get r "installation_id") d
                  (consumed w (Query_Get r "state"))) as [evs Hevs].
      rewrite Hevs. cbn [consumed trace].
      exists (CacheDelete (Query_Get r "state") :: evs).
      by rewrite <- app_assoc.
  - rewrite (consume_missing _ _ _ _ _ Hget). by exists [].
Qed.

(** C4 (amended): [/setup] takes a request for a direct installation
    exactly when [state] or [installation_id] is absent, one of them being
    enough: it then answers 302 to [/site-admin/github-apps] and leaves the
    world as it was.  A request with both given goes on to the check of the
    state's length, and past it to the cache. *)
Theorem setup_direct_install (env : Env) (r : Request) (w : World) :
  (serve (setupHandler env r) w
   = (http_Redirect "/site-admin/github-apps" StatusFound, w)
   <-> Query_Get r "state" = "" \/ Query_Get r "installation_id" = "")
  /\ (Query_Get r "state" <> "" -> Query_Get r "installation_id" <> "" ->
      if (String.length (Query_Get r "state") =? 64)%nat
      then exists evs,
             trace (snd (serve (setupHandler env r) w))
             = trace w ++ CacheGet (Query_Get r "state") :: evs
      else serve (setupHandler env r) w
           = (http_Error "Bad request, state query param is wrong length"
                StatusBadRequest, w)).
Proof.
  split; [split |].
  - intros Hserve.
    destruct (String.eqb_spec (Query_Get r "state") "") as [|Hstate];
      [by left |].
    destruct (String.eqb_spec (Query_Get r "installation_id") "") as [|Hinst];
      [by right |].
    exfalso.
    destruct (Nat.eqb_spec (String.length (Query_Get r "state")) 64%nat)
      as [Hlen|Hlen].
    + destruct (setupHandler_looks_up env r w Hinst Hlen) as [evs Hevs].
      rewrite Hserve in Hevs. cbn [snd] in Hevs.
      rewrite <- (app_nil_r (trace w)) in Hevs at 1.
      by apply app_inv_head in Hevs.
    + rewrite (setupHandler_wrong_length env r w Hlen Hstate Hinst) in Hserve.
      discriminate.
  - intros Habsent. unfold serve, setupHandler.
    destruct Habsent as [-> | ->]; [reflexivity |].
    by rewrite orb_true_r.
  - intros Hstate Hinst.
    destruct (Nat.eqb_spec (String.length (Query_Get r "state")) 64%nat)
      as [Hlen|Hlen].
    + by apply setupHandler_looks_up.
    + by apply setupHandler_wrong_length.
Qed.

(** ** Consumption *)

Lemma redirectHandler_missing (env : Env) (r : Request) (w : World) :
  Query_Get r "code" <> "" ->
  String.length (Query_Get r "state") = 64%nat ->
  rcache.Get (cache w) (now env) (Query_Get r "state") = None ->
  serve (redirectHandler env r) w
  = (redirect_NotFound, after w [CacheGet (Query_Get r "state")]).
Proof.
  intros Hcode Hlen Hget.
  rewrite (serve_ext _ _ _ (redirectHandler_consume env r w Hcode Hlen)).
  apply serve_bind_stop. by apply consume_missing.
Qed.

Lemma setupHandler_missing (env : Env) (r : Request) (w : World) :
  Query_Get r "installation_id" <> "" ->
  String.length (Query_Get r "state") = 64%nat ->
  rcache.Get (cache w) (now env) (Query_Get r "state") = None ->
  serve (setupHandler env r) w
  = (setup_NotFound, after w [CacheGet (Query_Get r "state")]).
Proof.
  intros Hinst Hlen Hget.
  rewrite (serve_ext _ _ _ (setupHandler_consume env r w Hinst Hlen)).
  apply serve_bind_stop. by apply consume_missing.
Qed.

Lemma missing_rejected (env : Env) (r : Request) (w : World) (t : string) :
  Query_Get r "state" = t -> String.length t = 64%nat ->
  rcache.Get (cache w) (now env) t = None ->
  rejected_as_NotFound env r w t.
Proof.
  intros <- Hlen Hget. split; intros Hgiven.
  - by apply redirectHandler_missing.
  - by apply setupHandler_missing.
Qed.

Lemma redirectHandler_found (env : Env) (r : Request) (w : World)
    (v : string) (d : gitHubAppStateDetails) :
  Query_Get r "code" <> "" ->
  String.length (Query_Get r "state") = 64%nat ->
  rcache.Get (cache w) (now env) (Query_Get r "state") = Some v ->
  json_Unmarshal v = inr d ->
  serve (redirectHandler env r) w
  = serve (redirectHandler_consumed env (Query_Get r "code") d)
      (consumed w (Query_Get r "state")).
Proof.
  intros Hcode Hlen Hget Hdec.
  rewrite (serve_ext _ _ _ (redirectHandler_consume env r w Hcode Hlen)).
  apply serve_bind. by apply consume_found with v.
Qed.

Lemma setupHandler_found (env : Env) (r : Request) (w : World)
    (v : string) (d : gitHubAppStateDetails) :
  Query_Get r "installation_id" <> "" ->
  String.length (Query_Get r "state") = 64%nat ->
  rcache.Get (cache w) (now env) (Query_Get r "state") = Some v ->
  json_Unmarshal v = inr d ->
  serve (setupHandler env r) w
  = serve (setupHandler_consumed env r (Query_Get r "installation_id") d)
      (consumed w (Query_Get r "state")).
Proof.
  intros Hinst Hlen Hget Hdec.
  rewrite (serve_ext _ _ _ (setupHandler_consume env r w Hinst Hlen)).
  apply serve_bind. by apply consume_found with v.
Qed.

Lemma redirectHandler_invalid (env : Env) (r : Request) (w : World)
    (v : string) (err : error) :
  Query_Get r "code" <> "" ->
  String.length (Query_Get r "state") = 64%nat ->
  rcache.Get (cache w) (now env) (Query_Get r "state") = Some v ->
  json_Unmarshal v = inl err ->
  serve (redirectHandler env r) w
  = (redirect_Invalid, after w [CacheGet (Query_Get r "state")]).
Proof.
  intros Hcode Hlen Hget Hdec.
  rewrite (serve_ext _ _ _ (redirectHandler_consume env r w Hcode Hlen)).
  apply serve_bind_stop. by apply consume_invalid with v err.
Qed.

Lemma setupHandler_invalid (env : Env) (r : Request) (w : World)
    (v : string) (err : error) :
  Query_Get r "installation_id" <> "" ->
  String.length (Query_Get r "state") = 64%nat ->
  rcache.Get (cache w) (now env) (Query_Get r "state") = Some v ->
  json_Unmarshal v = inl err ->
  serve (setupHandler env r) w
  = (setup_Invalid, after w [CacheGet (Query_Get r "state")]).
Proof.
  intros Hinst Hlen Hget Hdec.
  rewrite (serve_ext _ _ _ (setupHandler_consume env r w Hinst Hlen)).
  apply serve_bind_stop. by apply consume_invalid with v err.
Qed.

(** After [/setup] consumed a token the cache has lost it, and nothing
    else. *)
Lemma setupHandler_consumes (env : Env) (r : Request) (w : World)
    (v : string) (d : gitHubAppStateDetails) :
  Query_Get r "installation_id" <> "" ->
  String.length (Query_Get r "state") = 64%nat ->
  rcache.Get (cache w) (now env) (Query_Get r "state") = Some v ->
  json_Unmarshal v = inr d ->
  cache (snd (serve (setupHandler env r) w))
  = rcache.Delete (cache w) (Query_Get r "state").
Proof.
  intros Hinst Hlen Hget Hdec.
  rewrite (setupHandler_found env r w v d) by done.
  rewrite serve_snd. by rewrite keeps_cache_setupHandler_consumed.
Qed.

(** After [/redirect] consumed a token the cache has lost it, and may hold
    the token issued for the installation. *)
Lemma redirectHandler_consumes (env : Env) (r : Request) (w : World)
    (v : string) (d : gitHubAppStateDetails) :
  Query_Get r "code" <> "" ->
  String.length (Query_Get r "state") = 64%nat ->
  rcache.Get (cache w) (now env) (Query_Get r "state") = Some v ->
  json_Unmarshal v = inr d ->
  let deleted := rcache.Delete (cache w) (Query_Get r "state") in
  cache (snd (serve (redirectHandler env r) w)) = deleted
  \/ exists tok value,
       RandomState env 128 = inr tok
       /\ cache (snd (serve (redirectHandler env r) w))
          = rcache.Set_ deleted (now env) tok value.
Proof.
  intros Hcode Hlen Hget Hdec.
  rewrite (redirectHandler_found env r w v d) by done.
  rewrite serve_snd.
  apply (issues_at_most_redirectHandler_consumed env (Query_Get r "code") d
           (consumed w (Query_Get r "state"))).
Qed.

(** C1: a token that has no entry in the cache (it was never issued) or
    whose entry has expired is turned away as not found by both callbacks,
    with HTTP 400 on [/redirect] and an error redirect on [/setup],
    whatever else the cache holds; and so is a token that an earlier
    [/redirect] or [/setup] request looked up and deleted, given that the
    token [/redirect] issued at its end is a new one. *)
Theorem consume_single_use_and_total
    (env : Env) (r : Request) (w : World) (t : string) :
  Query_Get r "state" = t -> String.length t = 64%nat ->
  (rcache.entries (cache w) !! t = None
   \/ (exists value deadline,
          rcache.entries (cache w) !! t = Some (value, deadline)
          /\ deadline <= now env) ->
   rejected_as_NotFound env r w t)
  /\ (forall env0 r0 w0 v d,
        Query_Get r0 "state" = t ->
        rcache.Get (cache w0) (now env0) t = Some v ->
        json_Unmarshal v = inr d ->
        (Query_Get r0 "code" <> "" -> RandomState env0 128 <> inr t ->
         w = snd (serve (redirectHandler env0 r0) w0) ->
         rejected_as_NotFound env r w t)
        /\ (Query_Get r0 "installation_id" <> "" ->
            w = snd (serve (setupHandler env0 r0) w0) ->
            rejected_as_NotFound env r w t)).
Proof.
  intros Hstate Hlen. split.
  - intros Hgone. apply missing_rejected; [done | done |].
    by apply Get_None.
  - intros env0 r0 w0 v d Hstate0 Hget Hdec. subst t.
    rewrite <- Hstate0 in Hget. split.
    + intros Hcode Hfresh ->.
      apply missing_rejected; [done | done |].
      apply Get_absent. rewrite <- Hstate0 in Hlen, Hfresh |- *.
      destruct (redirectHandler_consumes env0 r0 w0 v d Hcode Hlen Hget Hdec)
        as [-> | (tok & value & Htok & ->)];
        cbn [rcache.Delete rcache.Set_ rcache.entries].
      * apply lookup_delete_eq.
      * rewrite lookup_insert_ne by congruence. apply lookup_delete_eq.
    + intros Hinst ->.
      apply missing_rejected; [done | done |].
      apply Get_absent. rewrite <- Hstate0 in Hlen |- *.
      rewrite (setupHandler_consumes env0 r0 w0 v d Hinst Hlen Hget Hdec).
      apply lookup_delete_eq.
Qed.

(** A handler that stops before the cache leaves the world as it was. *)
Lemma redirectHandler_not_validated (env : Env) (r : Request) (w : World) :
  Query_Get r "code" = ""
  \/ String.length (Query_Get r "state") <> 64%nat ->
  snd (serve (redirectHandler env r) w) = w.
Proof.
  intros Hbad. unfold serve, redirectHandler.
  destruct (String.eqb _ "" || String.eqb (Query_Get r "code") "") eqn:Hempty;
    [reflexivity |].
  destruct (Nat.eqb_spec (String.length (Query_Get r "state")) 64%nat)
    as [Hlen|Hlen]; [| reflexivity].
  destruct Hbad as [Hcode | Hne]; [| contradiction].
  rewrite Hcode, orb_true_r in Hempty. discriminate.
Qed.

Lemma setupHandler_not_validated (env : Env) (r : Request) (w : World) :
  Query_Get r "installation_id" = ""
  \/ String.length (Query_Get r "state") <> 64%nat ->
  snd (serve (setupHandler env r) w) = w.
Proof.
  intros Hbad. unfold serve, setupHandler.
  destruct (String.eqb _ "" || String.eqb (Query_Get r "installation_id") "")
    eqn:Hempty; [reflexivity |].
  destruct (Nat.eqb_spec (String.length (Query_Get r "state")) 64%nat)
    as [Hlen|Hlen]; [| reflexivity].
  destruct Hbad as [Hinst | Hne]; [| contradiction].
  rewrite Hinst, orb_true_r in Hempty. discriminate.
Qed.

(** An entry that a request removes from the cache is the token it
    presented, found and decoded. *)
Lemma redirectHandler_deletes_decoded (env : Env) (r : Request) (w : World)
    (key : string) (x : string * Z) :
  rcache.entries (cache w) !! key = Some x ->
  rcache.entries (cache (snd (serve (redirectHandler env r) w))) !! key = None ->
  key = Query_Get r "state"
  /\ exists v d,
       rcache.Get (cache w) (now env) key = Some v /\ json_Unmarshal v = inr d.
Proof.
  intros Hold Hnew.
  destruct (String.eqb_spec (Query_Get r "code") "") as [Hcode|Hcode].
  { rewrite redirectHandler_not_validated in Hnew by by left. congruence. }
  destruct (Nat.eq_dec (String.length (Query_Get r "state")) 64%nat)
    as [Hlen|Hlen].
  2: { rewrite redirectHandler_not_validated in Hnew by by right. congruence. }
  destruct (rcache.Get (cache w) (now env) (Query_Get r "state"))
    as [v|] eqn:Hget.
  2: { rewrite redirectHandler_missing in Hnew by done.
       cbn [snd after cache] in Hnew. congruence. }
  destruct (json_Unmarshal v) as [err|d] eqn:Hdec.
  { rewrite (redirectHandler_invalid env r w v err) in Hnew by done.
    cbn [snd after cache] in Hnew. congruence. }
  assert (key = Query_Get r "state") as ->.
  { destruct (decide (key = Query_Get r "state")) as [|Hne]; [done | exfalso].
    destruct (redirectHandler_consumes env r w v d Hcode Hlen Hget Hdec)
      as [Heq | (tok & value & _ & Heq)];
      rewrite Heq in Hnew; cbn [rcache.Delete rcache.Set_ rcache.entries] in Hnew.
    - rewrite lookup_delete_ne in Hnew by done. congruence.
    - destruct (decide (tok = key)) as [->|Htok].
      + by rewrite lookup_insert_eq in Hnew.
      + rewrite lookup_insert_ne, lookup_delete_ne in Hnew by done.
        congruence. }
  eauto.
Qed.

Lemma setupHandler_deletes_decoded (env : Env) (r : Request) (w : World)
    (key : string) (x : string * Z) :
  rcache.entries (cache w) !! key = Some x ->
  rcache.entries (cache (snd (serve (setupHandler env r) w))) !! key = None ->
  key = Query_Get r "state"
  /\ exists v d,
       rcache.Get (cache w) (now env) key = Some v /\ json_Unmarshal v = inr d.
Proof.
  intros Hold Hnew.
  destruct (String.eqb_spec (Query_Get r "installation_id") "") as [Hinst|Hinst].
  { rewrite setupHandler_not_validated in Hnew by by left. congruence. }
  destruct (Nat.eq_dec (String.length (Query_Get r "state")) 64%nat)
    as [Hlen|Hlen].
  2: { rewrite setupHandler_not_validated in Hnew by by right. congruence. }
  destruct (rcache.Get (cache w) (now env) (Query_Get r "state"))
    as [v|] eqn:Hget.
  2: { rewrite setupHandler_missing in Hnew by done.
       cbn [snd after cache] in Hnew. congruence. }
  destruct (json_Unmarshal v) as [err|d] eqn:Hdec.
  { rewrite (setupHandler_invalid env r w v err) in Hnew by done.
    cbn [snd after cache] in Hnew. congruence. }
  assert (key = Query_Get r "state") as ->.
  { destruct (decide (key = Query_Get r "state")) as [|Hne]; [done | exfalso].
    rewrite (setupHandler_consumes env r w v d Hinst Hlen Hget Hdec) in Hnew.
    cbn [rcache.Delete rcache.entries] in Hnew.
    rewrite lookup_delete_ne in Hnew by done. congruence. }
  eauto.
Qed.

(** C2: when the bytes stored under the presented token do not decode,
    [/redirect] answers 400 and [/setup] redirects to the error page, and
    either has done no more than look the token up: the cache is unchanged.
    Whenever either handler removes an entry from the cache, the entry is
    the presented token and its bytes decoded. *)
Theorem token_deleted_only_after_decoding
    (env : Env) (r : Request) (w : World) :
  (forall v err,
      String.length (Query_Get r "state") = 64%nat ->
      rcache.Get (cache w) (now env) (Query_Get r "state") = Some v ->
      json_Unmarshal v = inl err ->
      (Query_Get r "code" <> "" ->
       serve (redirectHandler env r) w
       = (redirect_Invalid, after w [CacheGet (Query_Get r "state")]))
      /\ (Query_Get r "installation_id" <> "" ->
          serve (setupHandler env r) w
          = (setup_Invalid, after w [CacheGet (Query_Get r "state")])))
  /\ (forall (h : Handler Empty_set) (key : string) (x : string * Z),
        h = redirectHandler env r \/ h = setupHandler env r ->
        rcache.entries (cache w) !! key = Some x ->
        rcache.entries (cache (snd (serve h w))) !! key = None ->
        key = Query_Get r "state"
        /\ exists v d,
             rcache.Get (cache w) (now env) key = Some v
             /\ json_Unmarshal v = inr d).
Proof.
  split.
  - intros v err Hlen Hget Hdec. split; intros Hgiven.
    + by apply redirectHandler_invalid with v err.
    + by apply setupHandler_invalid with v err.
  - intros h key x [-> | ->].
    + apply redirectHandler_deletes_decoded.
    + apply setupHandler_deletes_decoded.
Qed.

Lemma Atoi_nonempty (s : string) (n : Z) : strconv_Atoi s = inr n -> s <> "".
Proof. by intros Hparse ->. Qed.

(** C10: [/setup] deletes the token as soon as its context has decoded,
    before it parses [installation_id] and before it looks at
    [setup_action].  A request with a token that resolves, an
    [installation_id] that parses and an action other than [install] is
    answered 400 "unsupported setup action" with the token looked up and
    deleted, and the same request sent again is turned away as a state
    mismatch. *)
Theorem setup_consumes_before_action
    (env env' : Env) (r : Request) (w : World)
    (v : string) (d : gitHubAppStateDetails) (n : Z) :
  String.length (Query_Get r "state") = 64%nat ->
  rcache.Get (cache w) (now env) (Query_Get r "state") = Some v ->
  json_Unmarshal v = inr d ->
  strconv_Atoi (Query_Get r "installation_id") = inr n ->
  Query_Get r "setup_action" <> "install" ->
  serve (setupHandler env r) w
  = (http_Error
       ("Bad request; unsupported setup action: "
        +:+ Query_Get r "setup_action")
       StatusBadRequest,
     consumed w (Query_Get r "state"))
  /\ serve (setupHandler env' r) (consumed w (Query_Get r "state"))
     = (setup_NotFound,
        after (consumed w (Query_Get r "state"))
          [CacheGet (Query_Get r "state")]).
Proof.
  intros Hlen Hget Hdec Hinst Haction.
  pose proof (Atoi_nonempty _ _ Hinst) as Hgiven. split.
  - rewrite (setupHandler_found env r w v d) by done.
    unfold serve, setupHandler_consumed. rewrite Hinst.
    apply String.eqb_neq in Haction. by rewrite Haction.
  - apply setupHandler_missing; [done | done |].
    apply Get_Delete_eq.
Qed.

(** C8: [/setup] with a 64-character state that resolves to a context of
    the repository domain, and an [installation_id] that is no integer,
    answers 302 to the GitHub Apps listing with [success=false] and the
    error about parsing the installation ID.  It has looked the token up and
    deleted it and done nothing else: the app is not fetched. *)
Theorem setup_unparsable_installation_id
    (env : Env) (r : Request) (w : World)
    (v : string) (d : gitHubAppStateDetails) (err : strconv.NumError) :
  String.length (Query_Get r "state") = 64%nat ->
  rcache.Get (cache w) (now env) (Query_Get r "state") = Some v ->
  json_Unmarshal v = inr d ->
  parseDomain (Some (Domain d)) = inr ReposGitHubAppDomain ->
  Query_Get r "installation_id" <> "" ->
  strconv_Atoi (Query_Get r "installation_id") = inl err ->
  serve (setupHandler env r) w
  = (http_Redirect
       "/site-admin/github-apps?success=false&error=Bad+request%2C+could+not+parse+installation+ID"
       StatusFound,
     consumed w (Query_Get r "state"))
  /\ forall id,
       In (AppsGetByID id) (trace (snd (serve (setupHandler env r) w))) ->
       In (AppsGetByID id) (trace w).
Proof.
  intros Hlen Hget Hdec Hdomain Hgiven Hinst.
  assert (Hserve : serve (setupHandler env r) w
    = (http_Redirect
         "/site-admin/github-apps?success=false&error=Bad+request%2C+could+not+parse+installation+ID"
         StatusFound,
       consumed w (Query_Get r "state"))).
  { rewrite (setupHandler_found env r w v d) by done.
    unfold serve, setupHandler_consumed. rewrite Hinst.
    unfold generateRedirectURL. rewrite Hdomain. reflexivity. }
  split; [done |].
  intros id. rewrite Hserve. cbn [snd consumed trace].
  rewrite in_app_iff. intros [Hin | [Hin | [Hin | []]]]; [done | |];
    discriminate Hin.
Qed.

(** ** Issuing *)

Lemma issue_inv (env : Env) (context : gitHubAppStateDetails)
    (e1 e2 : error -> Response) (w w1 : World) (tok : string) :
  issue env context e1 e2 w = (inr tok, w1) ->
  exists encoded,
    RandomState env 128 = inr tok
    /\ json_Marshal context = inr encoded
    /\ w1 = {| cache := rcache.Set_ (cache w) (now env) tok encoded;
               trace := trace w ++ [CacheSet tok encoded] |}.
Proof.
  unfold issue, bind, try, respond, pure, cache_Set.
  destruct (RandomState env 128) as [err|s]; [discriminate |].
  destruct (json_Marshal context) as [err|encoded]; [discriminate |].
  intros [= <- <-]. eauto.
Qed.

Lemma stateHandler_Write (env : Env) (r : Request) (w w1 : World)
    (tok : string) (id64 : Z) :
  Query_Get r "id" = ""
  \/ UnmarshalGitHubAppID (Query_Get r "id") = inr id64 ->
  serve (stateHandler env r) w = (Write tok, w1) ->
  issue env (stateHandler_context r id64)
    state_random_error state_marshal_error w = (inr tok, w1).
Proof.
  intros Hid. rewrite (serve_ext _ _ _ (stateHandler_issue env r w id64 Hid)).
  unfold serve, bind, respond.
  destruct (issue env _ _ _ w) as [[resp|s] w'] eqn:Hissue.
  - intros [= -> <-]. exfalso. revert Hissue.
    unfold issue, bind, try, respond, pure, cache_Set.
    destruct (RandomState env 128); [discriminate |].
    destruct (json_Marshal _); discriminate.
  - by intros [= <- <-].
Qed.

(** The token just issued is found until its time to live has passed. *)
Lemma issued_found (env env' : Env) (context : gitHubAppStateDetails)
    (e1 e2 : error -> Response) (w w1 : World) (tok : string) :
  issue env context e1 e2 w = (inr tok, w1) ->
  now env' < now env + rcache.ttlSeconds (cache w) ->
  String.length tok = 64%nat
  /\ exists encoded,
       json_Marshal context = inr encoded
       /\ rcache.Get (cache w1) (now env') tok = Some encoded.
Proof.
  intros (encoded & Htok & Henc & ->)%issue_inv Hlive. split.
  - by apply (RandomState_token env 128).
  - exists encoded. split; [done |]. cbn [cache]. by apply Get_Set_eq.
Qed.


(** ** The bare token on the conversion callback *)

Lemma redirectHandler_zero_context (env : Env) (r : Request) (w : World)
    (v : string) :
  Query_Get r "code" <> "" ->
  String.length (Query_Get r "state") = 64%nat ->
  rcache.Get (cache w) (now env) (Query_Get r "state") = Some v ->
  json_Unmarshal v = inr zeroStateDetails ->
  serve (redirectHandler env r) w
  = (http_Error
       "Bad request, could not parse webhook UUID: invalid UUID length: 0"
       StatusBadRequest,
     consumed w (Query_Get r "state")).
Proof.
  intros Hcode Hlen Hget Hdec.
  by rewrite (redirectHandler_found env r w v zeroStateDetails).
Qed.

(** C3 (amended): a token issued by [/state] without an [id] carries the
    zero context.  Presented to [/redirect] with a code, it is found,
    decoded and deleted, and the request is then refused with HTTP 400
    because the empty webhook UUID of the zero context does not parse: the
    handler returns before the conversion, and its only effects are the
    lookup and the deletion. *)
Theorem bare_token_stops_at_webhook_uuid
    (env0 env : Env) (r0 r : Request) (w w1 : World) (tok : string) :
  Query_Get r0 "id" = "" ->
  serve (stateHandler env0 r0) w = (Write tok, w1) ->
  round_trips zeroStateDetails ->
  now env < now env0 + rcache.ttlSeconds (cache w) ->
  Query_Get r "state" = tok -> Query_Get r "code" <> "" ->
  serve (redirectHandler env r) w1
  = (http_Error
       "Bad request, could not parse webhook UUID: invalid UUID length: 0"
       StatusBadRequest,
     consumed w1 tok).
Proof.
  intros Hid Hissued Hcodec Hlive <- Hcode.
  apply (stateHandler_Write env0 r0 w w1 _ 0) in Hissued; [| by left].
  unfold stateHandler_context in Hissued. rewrite Hid in Hissued.
  cbn [String.eqb] in Hissued.
  destruct (issued_found env0 env _ _ _ _ _ _ Hissued Hlive)
    as (Hlen & encoded & Henc & Hget).
  apply redirectHandler_zero_context with encoded; try done.
  by apply Hcodec.
Qed.

(** ** The manifest conversion *)

Lemma createGitHubApp_success (env : Env) (u : string)
    (dom : GitHubAppDomain) (w w' : World) (app : GitHubApp) :
  MockCreateGitHubApp env = None ->
  createGitHubApp env u dom w = (inr (inr app), w') ->
  exists req resp,
    http_NewRequest "POST" u = inr req
    /\ httpClient_Do env req = inr resp
    /\ StatusCode resp = StatusCreated.
Proof.
  intros Hmock. unfold createGitHubApp. rewrite Hmock.
  destruct (http_NewRequest "POST" u) as [err|req]; [discriminate |].
  unfold call, bind, emit, pure. cbv beta iota.
  destruct (httpClient_Do env req) as [err|resp] eqn:Hdo; [discriminate |].
  destruct (Z.eqb_spec (StatusCode resp) StatusCreated) as [Hcode|Hcode];
    cbn [negb]; [| discriminate].
  intros _. by exists req, resp.
Qed.

Lemma createGitHubApp_status (env : Env) (u : string)
    (dom : GitHubAppDomain) (w : World)
    (req : HTTPRequest) (resp : HTTPResponse) :
  MockCreateGitHubApp env = None ->
  http_NewRequest "POST" u = inr req ->
  httpClient_Do env req = inr resp ->
  StatusCode resp <> StatusCreated ->
  createGitHubApp env u dom w
  = (inr (inl ("expected 201 statusCode, got: " +:+ fmt_d (StatusCode resp))),
     after w [HTTPDo req]).
Proof.
  intros Hmock Hreq Hdo Hcode%Z.eqb_neq. unfold createGitHubApp.
  rewrite Hmock, Hreq. unfold call, bind, emit, pure. cbv beta iota.
  by rewrite Hdo, Hcode.
Qed.

(** When the conversion fails, [/redirect] answers 500 with the error and
    does nothing more. *)
Lemma redirectHandler_conversion_failed (env : Env) (r : Request) (w w' : World)
    (v : string) (d : gitHubAppStateDetails) (uuid : UUID.t) (base : URL)
    (u : string) (dom : GitHubAppDomain) (err : error) :
  Query_Get r "code" <> "" ->
  String.length (Query_Get r "state") = 64%nat ->
  rcache.Get (cache w) (now env) (Query_Get r "state") = Some v ->
  json_Unmarshal v = inr d ->
  UUID.Parse (WebhookUUID d) = inr uuid ->
  url_Parse (BaseURL d) = inr base ->
  url_JoinPath (URL_String (fst (github_APIRoot base)))
    ["/app-manifests"; Query_Get r "code"; "conversions"] = inr u ->
  parseDomain (Some (Domain d)) = inr dom ->
  createGitHubApp env u dom (consumed w (Query_Get r "state"))
  = (inr (inl err), w') ->
  serve (redirectHandler env r) w
  = (http_Error ("Unexpected error while converting github app: " +:+ err)
       StatusInternalServerError, w').
Proof.
  intros Hcode Hlen Hget Hdec Huuid Hbase Hjoin Hdom Hconv.
  rewrite (redirectHandler_found env r w v d) by done.
  unfold serve, redirectHandler_consumed, bind, try, pure, respond.
  rewrite Huuid. cbv beta iota zeta.
  rewrite Hbase. cbv beta iota zeta.
  rewrite Hjoin. cbv beta iota zeta.
  rewrite Hdom. cbv beta iota zeta.
  by rewrite Hconv.
Qed.

(** C9: without a mock installed, [createGitHubApp] returns an app only when
    the platform answered 201; any other status gives the error "expected
    201 statusCode, got: <status>"; [/redirect] then answers 500 with that
    error, and its effects end with the HTTP request: the token it consumed
    stays deleted, no app is created, no webhook is updated and no token is
    set. *)
Theorem conversion_requires_201
    (env : Env) (u : string) (dom : GitHubAppDomain) (w : World) :
  MockCreateGitHubApp env = None ->
  (forall app w',
      createGitHubApp env u dom w = (inr (inr app), w') ->
      exists req resp,
        http_NewRequest "POST" u = inr req
        /\ httpClient_Do env req = inr resp
        /\ StatusCode resp = StatusCreated)
  /\ (forall req resp,
        http_NewRequest "POST" u = inr req ->
        httpClient_Do env req = inr resp ->
        StatusCode resp <> StatusCreated ->
        createGitHubApp env u dom w
        = (inr (inl ("expected 201 statusCode, got: "
                     +:+ fmt_d (StatusCode resp))),
           after w [HTTPDo req])
        /\ forall r v d uuid base,
             Query_Get r "code" <> "" ->
             String.length (Query_Get r "state") = 64%nat ->
             rcache.Get (cache w) (now env) (Query_Get r "state") = Some v ->
             json_Unmarshal v = inr d ->
             UUID.Parse (WebhookUUID d) = inr uuid ->
             url_Parse (BaseURL d) = inr base ->
             url_JoinPath (URL_String (fst (github_APIRoot base)))
               ["/app-manifests"; Query_Get r "code"; "conversions"] = inr u ->
             parseDomain (Some (Domain d)) = inr dom ->
             serve (redirectHandler env r) w
             = (http_Error
                  ("Unexpected error while converting github app: "
                   +:+ "expected 201 statusCode, got: "
                   +:+ fmt_d (StatusCode resp))
                  StatusInternalServerError,
                after (consumed w (Query_Get r "state")) [HTTPDo req])).
Proof.
  intros Hmock. split.
  - intros app w'. by apply createGitHubApp_success.
  - intros req resp Hreq Hdo Hcode. split.
    + by apply createGitHubApp_status.
    + intros r v d uuid base Hgiven Hlen Hget Hdec Huuid Hbase Hjoin Hdom.
      apply redirectHandler_conversion_failed
        with v d uuid base u dom; try done.
      by apply createGitHubApp_status.
Qed.

(** ** The router *)

(** Without a domain and without an error, [generateRedirectURL] finds
    [parseDomain] failing and dereferences the nil domain for the error
    text: it panics. *)
Lemma generateRedirectURL_nil_domain_panics
    (installationID appID : option Z) (appName : option string) :
  generateRedirectURL None installationID appID appName None
  = Panicked nil_dereference.
Proof. reflexivity. Qed.

(** On every other input the router returns, and the URL starts with a
    slash. *)
Lemma generateRedirectURL_returns (domain : option string)
    (installationID appID : option Z) (appName : option string)
    (creationErr : option error) :
  is_Some domain \/ is_Some creationErr ->
  exists rest,
    generateRedirectURL domain installationID appID appName creationErr
    = Returned (String "/" rest).
Proof.
  intros Hgiven. unfold generateRedirectURL.
  destruct domain as [tag|], creationErr as [err|];
    try (by eexists); cbn [parseDomain].
  - destruct (parseDomainTag tag) as [e|[| |other]]; by eexists.
  - destruct (parseDomainTag tag) as [e|[| |other]]; [by eexists | | |].
    + destruct installationID, appID; by eexists.
    + destruct appName; by eexists.
    + by eexists.
  - destruct Hgiven as [[? [=]] | [? [=]]].
Qed.


End Properties.

(** * The theorems at the reference instance *)

Lemma consume_single_use_and_total_witness :
  rejected_as_NotFound (Ref.env 20 []) (Ref.setup_request "12" "install")
    (snd (serve (setupHandler (Ref.env 10 [])
                   (Ref.setup_request "12" "install"))
            (Ref.holding (Ref.encode Ref.installing))))
    Ref.token
  /\ rejected_as_NotFound (Ref.env 20 []) Ref.redirect_request
       (snd (serve (redirectHandler (Ref.env 10 [x01]) Ref.redirect_request)
               (Ref.holding (Ref.encode Ref.converting))))
       Ref.token
  /\ rejected_as_NotFound (Ref.env 4000 []) Ref.redirect_request
       (Ref.holding (Ref.encode Ref.converting)) Ref.token.
Proof.
  split; [| split].
  - refine (proj2 (proj2 (consume_single_use_and_total (D := Ref.deps)
              (Ref.env 20 []) (Ref.setup_request "12" "install") _ Ref.token
              eq_refl eq_refl)
            (Ref.env 10 []) (Ref.setup_request "12" "install")
            (Ref.holding (Ref.encode Ref.installing))
            (Ref.encode Ref.installing) Ref.installing
            eq_refl eq_refl eq_refl) _ eq_refl).
    discriminate.
  - refine (proj1 (proj2 (consume_single_use_and_total (D := Ref.deps)
              (Ref.env 20 []) Ref.redirect_request _ Ref.token
              eq_refl eq_refl)
            (Ref.env 10 [x01]) Ref.redirect_request
            (Ref.holding (Ref.encode Ref.converting))
            (Ref.encode Ref.converting) Ref.converting
            eq_refl eq_refl eq_refl) _ _ eq_refl).
    + discriminate.
    + vm_compute. discriminate.
  - apply (consume_single_use_and_total (D := Ref.deps)
             (Ref.env 4000 []) Ref.redirect_request
             (Ref.holding (Ref.encode Ref.converting)) Ref.token
             eq_refl eq_refl).
    right. exists (Ref.encode Ref.converting), 3600.
    split; [reflexivity | discriminate].
Defined.

Lemma token_deleted_only_after_decoding_witness :
  serve (redirectHandler (Ref.env 10 []) Ref.redirect_request)
    (Ref.holding "nonsense")
  = (redirect_Invalid, after (Ref.holding "nonsense") [CacheGet Ref.token])
  /\ serve (setupHandler (Ref.env 10 []) (Ref.setup_request "12" "install"))
       (Ref.holding "nonsense")
     = (setup_Invalid, after (Ref.holding "nonsense") [CacheGet Ref.token]).
Proof.
  split.
  - refine (proj1 (proj1 (token_deleted_only_after_decoding (D := Ref.deps)
              (Ref.env 10 []) Ref.redirect_request (Ref.holding "nonsense"))
            "nonsense" Ref.syntax_error eq_refl eq_refl eq_refl) _).
    discriminate.
  - refine (proj2 (proj1 (token_deleted_only_after_decoding (D := Ref.deps)
              (Ref.env 10 []) (Ref.setup_request "12" "install")
              (Ref.holding "nonsense"))
            "nonsense" Ref.syntax_error eq_refl eq_refl eq_refl) _).
    discriminate.
Defined.

(** The request of the spec's Scenario A, run: the token [/state] issued
    for the zero context is refused by [/redirect] at the webhook UUID, and
    no HTTP request is made. *)
Lemma bare_token_redirect_counterexample :
  serve (stateHandler (D := Ref.deps) (Ref.env 0 []) (Ref.get [])) Ref.start
  = (Write Ref.token, Ref.issued)
  /\ serve (redirectHandler (Ref.env 1 []) Ref.redirect_request) Ref.issued
     = (http_Error
          "Bad request, could not parse webhook UUID: invalid UUID length: 0"
          StatusBadRequest,
        consumed Ref.issued Ref.token)
  /\ Forall (fun e => forall req, e <> HTTPDo req)
       (trace (consumed Ref.issued Ref.token)).
Proof.
  split; [| split].
  - vm_compute. reflexivity.
  - vm_compute. reflexivity.
  - repeat constructor; discriminate.
Qed.

Lemma bare_token_stops_at_webhook_uuid_witness :
  serve (redirectHandler (Ref.env 1 []) Ref.redirect_request) Ref.issued
  = (http_Error
       "Bad request, could not parse webhook UUID: invalid UUID length: 0"
       StatusBadRequest,
     consumed Ref.issued Ref.token).
Proof.
  apply (bare_token_stops_at_webhook_uuid (D := Ref.deps)
           (Ref.env 0 []) (Ref.env 1 []) (Ref.get []) Ref.redirect_request
           Ref.start Ref.issued Ref.token).
  - reflexivity.
  - vm_compute. reflexivity.
  - intros encoded Hencoded. injection Hencoded as <-. reflexivity.
  - reflexivity.
  - reflexivity.
  - discriminate.
Defined.

(** A request with a [state] and no [installation_id]: it is taken for a
    direct installation, although the state is given and has the wrong
    length. *)
Lemma setup_state_without_installation_id_counterexample :
  Query_Get (Ref.get [("state", "short")]) "state" <> ""
  /\ String.length (Query_Get (Ref.get [("state", "short")]) "state") <> 64%nat
  /\ serve (setupHandler (Ref.env 0 []) (Ref.get [("state", "short")]))
       Ref.start
     = (http_Redirect "/site-admin/github-apps" StatusFound, Ref.start).
Proof. repeat split; discriminate. Qed.



Lemma state_length_checked_before_store_witness :
  (exists msg,
      serve (redirectHandler (Ref.env 0 []) Ref.short_request) Ref.start
      = (http_Error msg StatusBadRequest, Ref.start))
  /\ serve (setupHandler (Ref.env 0 []) Ref.short_request) Ref.start
     = (http_Error "Bad request, state query param is wrong length"
          StatusBadRequest, Ref.start).
Proof.
  destruct (state_length_checked_before_store (D := Ref.deps)
              (Ref.env 0 []) Ref.short_request Ref.start)
    as [Hredirect Hsetup].
  - discriminate.
  - split; [exact Hredirect | apply Hsetup; discriminate].
Defined.

Lemma setup_unparsable_installation_id_witness :
  serve (setupHandler (Ref.env 10 [])
           (Ref.setup_request "notanumber" "install"))
    (Ref.holding (Ref.encode Ref.installing))
  = (http_Redirect
       "/site-admin/github-apps?success=false&error=Bad+request%2C+could+not+parse+installation+ID"
       StatusFound,
     consumed (Ref.holding (Ref.encode Ref.installing)) Ref.token).
Proof.
  refine (proj1 (setup_unparsable_installation_id (D := Ref.deps)
            (Ref.env 10 []) (Ref.setup_request "notanumber" "install")
            (Ref.holding (Ref.encode Ref.installing))
            (Ref.encode Ref.installing) Ref.installing
            {| strconv.Func := "Atoi"; strconv.Num := "notanumber";
               strconv.Err := strconv.ErrSyntax |}
            eq_refl eq_refl eq_refl eq_refl _ eq_refl)).
  discriminate.
Defined.

Lemma conversion_requires_201_witness :
  serve (redirectHandler (Ref.env 10 []) Ref.redirect_request)
    (Ref.holding (Ref.encode Ref.converting))
  = (http_Error
       "Unexpected error while converting github app: expected 201 statusCode, got: 404"
       StatusInternalServerError,
     after (consumed (Ref.holding (Ref.encode Ref.converting)) Ref.token)
       [HTTPDo Ref.conversion_request]).
Proof.
  refine (proj2 (proj2 (conversion_requires_201 (D := Ref.deps)
            (Ref.env 10 [])
            "https://api.github.com/app-manifests/abc/conversions"
            ReposGitHubAppDomain (Ref.holding (Ref.encode Ref.converting))
            eq_refl)
          Ref.conversion_request {| StatusCode := 404; Body := "" |}
          eq_refl eq_refl _)
          Ref.redirect_request (Ref.encode Ref.converting) Ref.converting
          [107; 167; 184; 16; 157; 173; 17; 209; 128; 180; 0; 192; 79; 212; 48; 200]
          "https://github.com" _ eq_refl eq_refl eq_refl eq_refl eq_refl
          eq_refl eq_refl);
    discriminate.
Defined.

Lemma setup_consumes_before_action_witness :
  serve (setupHandler (Ref.env 10 []) (Ref.setup_request "12" "update"))
    (Ref.holding (Ref.encode Ref.installing))
  = (http_Error "Bad request; unsupported setup action: update"
       StatusBadRequest,
     consumed (Ref.holding (Ref.encode Ref.installing)) Ref.token)
  /\ serve (setupHandler (Ref.env 11 []) (Ref.setup_request "12" "update"))
       (consumed (Ref.holding (Ref.encode Ref.installing)) Ref.token)
     = (setup_NotFound,
        after (consumed (Ref.holding (Ref.encode Ref.installing)) Ref.token)
          [CacheGet Ref.token]).
Proof.
  apply (setup_consumes_before_action (D := Ref.deps)
           (Ref.env 10 []) (Ref.env 11 []) (Ref.setup_request "12" "update")
           (Ref.holding (Ref.encode Ref.installing))
           (Ref.encode Ref.installing) Ref.installing 12);
    try reflexivity.
  discriminate.
Defined.

(** * More of the package, verified *)

Section Coverage.

Context `{D : Deps}.

(** ** The router *)

(** X1: [generateRedirectURL] returns exactly when it is given a domain or
    an error, and what it returns starts with a slash; given neither, it
    panics on the nil domain. *)
Theorem generateRedirectURL_returns_iff (domain : option string)
    (installationID appID : option Z) (appName : option string)
    (creationErr : option error) :
  ((exists rest,
       generateRedirectURL domain installationID appID appName creationErr
       = Returned (String "/" rest))
   <-> is_Some domain \/ is_Some creationErr)
  /\ (domain = None /\ creationErr = None
      <-> generateRedirectURL domain installationID appID appName creationErr
          = Panicked nil_dereference).
Proof.
  split; split.
  - intros [rest Hret]. destruct domain as [tag|]; [left; eauto |].
    destruct creationErr as [err|]; [right; eauto |].
    discriminate Hret.
  - apply generateRedirectURL_returns.
  - by intros [-> ->].
  - intros Hpanic. destruct domain as [tag|].
    { destruct (generateRedirectURL_returns (Some tag) installationID appID
                  appName creationErr) as [rest Hret]; [left; by eexists |].
      rewrite Hret in Hpanic. discriminate Hpanic. }
    destruct creationErr as [err|]; [| done].
    destruct (generateRedirectURL_returns None installationID appID
                appName (Some err)) as [rest Hret]; [right; by eexists |].
    rewrite Hret in Hpanic. discriminate Hpanic.
Qed.

(** ** What the installation callback answers *)

Ltac found_leaf :=
  match goal with
  | |- context [redirectFound (generateRedirectURL ?a ?b ?c ?d ?e)] =>
      let rest := fresh "rest" in
      let Hret := fresh "Hret" in
      destruct (generateRedirectURL_returns a b c d e) as [rest Hret];
      [ first [ left; eauto | right; eauto ]
      | rewrite Hret; cbn [redirectFound respond fst]; eauto ]
  end.

Lemma setupHandler_consumed_answers (env : Env) (r : Request)
    (instID : string) (d : gitHubAppStateDetails) (w : World) :
  exists text,
    fst (serve (setupHandler_consumed env r instID d) w)
    = http_Redirect text StatusFound
    \/ fst (serve (setupHandler_consumed env r instID d) w)
       = http_Error text StatusBadRequest.
Proof.
  unfold serve, setupHandler_consumed. cbv zeta.
  unfold call, bind, emit, pure. cbv beta iota.
  destruct (strconv_Atoi instID) as [err|n]; [found_leaf |].
  destruct (String.eqb _ "install"); [| cbn; eauto].
  destruct (GitHubApps_GetByID env (AppID d)) as [err|app]; [found_leaf |].
  destruct (NewGitHubAppAuthenticator env _ _) as [err|auther];
    [found_leaf |].
  destruct (url_Parse (app_BaseURL app)) as [err|baseURL]; [found_leaf |].
  destruct (client_GetAppInstallation env _ _ _) as [err|remote];
    [found_leaf |].
  destruct (GitHubApps_Install env _) as [err|id]; found_leaf.
Qed.

(** X2: whatever the request, the collaborators and the cache, [/setup]
    answers with a 302 redirect or with HTTP 400: it never panics in the
    router and never answers 500. *)
Theorem setupHandler_answers (env : Env) (r : Request) (w : World) :
  exists text,
    fst (serve (setupHandler env r) w) = http_Redirect text StatusFound
    \/ fst (serve (setupHandler env r) w) = http_Error text StatusBadRequest.
Proof.
  destruct (String.eqb_spec (Query_Get r "state") "") as [Hstate|Hstate].
  { unfold serve, setupHandler. rewrite Hstate. cbn. eauto. }
  destruct (String.eqb_spec (Query_Get r "installation_id") "") as [Hinst|Hinst].
  { unfold serve, setupHandler. rewrite Hinst, orb_true_r. cbn. eauto. }
  destruct (Nat.eq_dec (String.length (Query_Get r "state")) 64%nat)
    as [Hlen|Hlen].
  2: { rewrite setupHandler_wrong_length by done. cbn. eauto. }
  destruct (rcache.Get (cache w) (now env) (Query_Get r "state"))
    as [v|] eqn:Hget.
  2: { rewrite setupHandler_missing by done. cbn. eauto. }
  destruct (json_Unmarshal v) as [err|d] eqn:Hdec.
  { rewrite (setupHandler_invalid env r w v err) by done. cbn. eauto. }
  rewrite (setupHandler_found env r w v d) by done.
  apply setupHandler_consumed_answers.
Qed.

(** ** The router where it is called *)



(** ** What the callbacks do to the cache *)

(** X3: [/setup] never adds and never changes an entry of the cache: it
    leaves the cache as it was, or deletes the token it was presented. *)
Theorem setupHandler_cache (env : Env) (r : Request) (w : World) :
  cache (snd (serve (setupHandler env r) w)) = cache w
  \/ cache (snd (serve (setupHandler env r) w))
     = rcache.Delete (cache w) (Query_Get r "state").
Proof.
  destruct (String.eqb_spec (Query_Get r "installation_id") "") as [Hinst|Hinst].
  { left. by rewrite setupHandler_not_validated by by left. }
  destruct (Nat.eq_dec (String.length (Query_Get r "state")) 64%nat)
    as [Hlen|Hlen].
  2: { left. by rewrite setupHandler_not_validated by by right. }
  destruct (rcache.Get (cache w) (now env) (Query_Get r "state"))
    as [v|] eqn:Hget.
  2: { left. by rewrite setupHandler_missing by done. }
  destruct (json_Unmarshal v) as [err|d] eqn:Hdec.
  { left. by rewrite (setupHandler_invalid env r w v err) by done. }
  right. by apply setupHandler_consumes with v d.
Qed.

(** X4: [/redirect] leaves the cache as it was, or deletes the token it was
    presented, or deletes it and sets one entry, under the token that
    [RandomState] returned. *)
Theorem redirectHandler_cache (env : Env) (r : Request) (w : World) :
  let deleted := rcache.Delete (cache w) (Query_Get r "state") in
  cache (snd (serve (redirectHandler env r) w)) = cache w
  \/ cache (snd (serve (redirectHandler env r) w)) = deleted
  \/ exists tok value,
       RandomState env 128 = inr tok
       /\ cache (snd (serve (redirectHandler env r) w))
          = rcache.Set_ deleted (now env) tok value.
Proof.
  intros deleted.
  destruct (String.eqb_spec (Query_Get r "code") "") as [Hcode|Hcode].
  { left. by rewrite redirectHandler_not_validated by by left. }
  destruct (Nat.eq_dec (String.length (Query_Get r "state")) 64%nat)
    as [Hlen|Hlen].
  2: { left. by rewrite redirectHandler_not_validated by by right. }
  destruct (rcache.Get (cache w) (now env) (Query_Get r "state"))
    as [v|] eqn:Hget.
  2: { left. by rewrite redirectHandler_missing by done. }
  destruct (json_Unmarshal v) as [err|d] eqn:Hdec.
  { left. by rewrite (redirectHandler_invalid env r w v err) by done. }
  right. by apply redirectHandler_consumes with v d.
Qed.

(** ** The conversion callback, start to end *)

Lemma createGitHubApp_returns (env : Env) (u : string)
    (dom : GitHubAppDomain) (w w' : World) (resp : Response) :
  createGitHubApp env u dom w <> (inl resp, w').
Proof.
  unfold createGitHubApp, call, bind, emit, pure.
  destruct (MockCreateGitHubApp env); [discriminate |].
  destruct (http_NewRequest "POST" u); [discriminate |]. cbv beta iota.
  destruct (httpClient_Do env _); [discriminate |].
  destruct (negb _); [discriminate |].
  destruct (json_Decode _); [discriminate |].
  destruct (url_Parse _); discriminate.
Qed.

(** What a 303 of [/redirect] says about the run that gave it. *)
Lemma redirectHandler_converted (env : Env) (r : Request) (w w' : World)
    (location : string) :
  serve (redirectHandler env r) w
  = (http_Redirect location StatusSeeOther, w') ->
  exists v d uuid u dom app w2 id hook tok enc,
    rcache.Get (cache w) (now env) (Query_Get r "state") = Some v
    /\ json_Unmarshal v = inr d
    /\ UUID.Parse (WebhookUUID d) = inr uuid
    /\ parseDomain (Some (Domain d)) = inr dom
    /\ createGitHubApp env u dom (consumed w (Query_Get r "state"))
       = (inr (inr app), w2)
    /\ GitHubApps_Create env app = inr id
    /\ Webhooks_GetByUUID env uuid = inr hook
    /\ RandomState env 128 = inr tok
    /\ json_Marshal (next_context d id) = inr enc
    /\ cache w' = rcache.Set_ (cache w2) (now env) tok enc
    /\ trace w'
       = trace w2
         ++ [AppsCreate app; WebhooksGetByUUID uuid;
             WebhooksUpdate (bound_hook hook app); CacheSet tok enc; Sleep 3]
    /\ location
       = match url_JoinPath (app_AppURL app) ["installations/new"] with
         | inr joined => joined
         | inl _ => app_AppURL app
         end +:+ "?state=" +:+ tok.
Proof.
  intros Hserve.
  destruct (String.eqb_spec (Query_Get r "code") "") as [Hcode|Hcode].
  { revert Hserve. unfold serve, redirectHandler.
    by rewrite Hcode, orb_true_r. }
  destruct (Nat.eq_dec (String.length (Query_Get r "state")) 64%nat)
    as [Hlen|Hlen].
  2: { by rewrite redirectHandler_wrong_length in Hserve by done. }
  destruct (rcache.Get (cache w) (now env) (Query_Get r "state"))
    as [v|] eqn:Hget.
  2: { by rewrite redirectHandler_missing in Hserve by done. }
  destruct (json_Unmarshal v) as [err|d] eqn:Hdec.
  { by rewrite (redirectHandler_invalid env r w v err) in Hserve by done. }
  rewrite (redirectHandler_found env r w v d) in Hserve by done.
  revert Hserve.
  unfold serve, redirectHandler_consumed, call, bind, try, emit, pure,
    respond, cache_Set.
  destruct (UUID.Parse (WebhookUUID d)) as [err|uuid] eqn:Huuid;
    [discriminate |].
  destruct (url_Parse (BaseURL d)) as [err|base]; [discriminate |].
  cbv beta iota zeta.
  destruct (url_JoinPath _ _) as [err|u] eqn:Hjoin; [discriminate |].
  destruct (parseDomain (Some (Domain d))) as [err|dom] eqn:Hdom;
    [discriminate |].
  cbv beta iota zeta.
  destruct (createGitHubApp env u dom _) as [[resp|[err|app]] w2] eqn:Hconv;
    [by apply createGitHubApp_returns in Hconv | discriminate |].
  destruct (GitHubApps_Create env app) as [err|id] eqn:Hid; [discriminate |].
  destruct (Webhooks_GetByUUID env uuid) as [err|hook] eqn:Hhook;
    [discriminate |].
  cbv beta iota zeta.
  match goal with
  | |- context [Webhooks_Update env ?h] =>
      destruct (Webhooks_Update env h) as [err|updated]; [discriminate |]
  end.
  destruct (RandomState env 128) as [err|tok] eqn:Htok; [discriminate |].
  match goal with
  | |- context [json_Marshal ?c] =>
      destruct (json_Marshal c) as [err|enc] eqn:Henc; [discriminate |]
  end.
  cbn [cache trace]. intros [= <- <-].
  exists v, d, uuid, u, dom, app, w2, id, hook, tok, enc.
  repeat split; try done.
  repeat rewrite <- app_assoc. reflexivity.
Qed.

(** X5: [/redirect] answers 303 only at the end of a complete conversion.
    When it does, the presented token was found, decoded and deleted, the
    conversion returned an app, the app was stored, the webhook of the
    context was fetched and written back with the name and the secret of
    the app, and one token was set for the context of the domain and the
    id the database gave; these are all its effects, in this order, and
    the token is the [state] parameter of the location. *)
Theorem redirectHandler_see_other (env : Env) (r : Request) (w w' : World)
    (location : string) :
  serve (redirectHandler env r) w
  = (http_Redirect location StatusSeeOther, w') ->
  exists v d uuid u dom app w2 id hook tok enc,
    rcache.Get (cache w) (now env) (Query_Get r "state") = Some v
    /\ json_Unmarshal v = inr d
    /\ UUID.Parse (WebhookUUID d) = inr uuid
    /\ parseDomain (Some (Domain d)) = inr dom
    /\ createGitHubApp env u dom (consumed w (Query_Get r "state"))
       = (inr (inr app), w2)
    /\ GitHubApps_Create env app = inr id
    /\ Webhooks_GetByUUID env uuid = inr hook
    /\ RandomState env 128 = inr tok
    /\ json_Marshal (next_context d id) = inr enc
    /\ cache w' = rcache.Set_ (cache w2) (now env) tok enc
    /\ trace w'
       = trace w2
         ++ [AppsCreate app; WebhooksGetByUUID uuid;
             WebhooksUpdate (bound_hook hook app); CacheSet tok enc; Sleep 3]
    /\ location
       = match url_JoinPath (app_AppURL app) ["installations/new"] with
         | inr joined => joined
         | inl _ => app_AppURL app
         end +:+ "?state=" +:+ tok.
Proof.
  exact (redirectHandler_converted env r w w' location).
Qed.

(** ** The installation callback, start to end *)

Lemma setupHandler_consumed_installs (env : Env) (r : Request) (w : World)
    (d : gitHubAppStateDetails) (n id : Z) (app : GitHubApp)
    (auther : Authenticator) (baseURL : URL) (remote : RemoteInstallation) :
  strconv_Atoi (Query_Get r "installation_id") = inr n ->
  Query_Get r "setup_action" = "install" ->
  GitHubApps_GetByID env (AppID d) = inr app ->
  NewGitHubAppAuthenticator env (app_AppID app)
    (bytes_of_string (app_PrivateKey app)) = inr auther ->
  url_Parse (app_BaseURL app) = inr baseURL ->
  client_GetAppInstallation env (fst (github_APIRoot baseURL)) auther n
  = inr remote ->
  GitHubApps_Install env (installation_of n app remote) = inr id ->
  setupHandler_consumed env r (Query_Get r "installation_id") d w
  = redirectFound
      (generateRedirectURL (Some (Domain d)) (Some n) (Some (app_ID app))
         (Some (app_Name app)) None)
      (after w (install_events d n app remote)).
Proof.
  intros Hinst Haction Happ Hauth Hbase Hremote Hinstall.
  unfold setupHandler_consumed. rewrite Hinst, Haction. cbv zeta.
  cbn [String.eqb Ascii.eqb Bool.eqb].
  unfold call, bind, emit, pure. cbv beta iota. rewrite Happ.
  cbv beta iota. rewrite Hauth, Hbase. cbv beta iota.
  rewrite Hremote. cbv beta iota.
  fold (installation_of n app remote). rewrite Hinstall.
  unfold after, install_events. cbn [cache trace].
  by repeat rewrite <- app_assoc.
Qed.

(** X6: when the token resolves, the installation id parses, the action is
    [install] and the four steps succeed, [/setup] has looked up and
    deleted the token, fetched the app of the context, slept, fetched the
    installation and stored the record of that installation for that app,
    in this order.  It answers 302: for the repository domain to the page
    of the app with the installation id, for the batches domain to the
    batch changes page with the name of the app; and for a domain that does
    not parse to the error page, the installation being stored all the
    same. *)
Theorem setupHandler_installs (env : Env) (r : Request) (w : World)
    (v : string) (d : gitHubAppStateDetails) (n id : Z) (app : GitHubApp)
    (auther : Authenticator) (baseURL : URL) (remote : RemoteInstallation) :
  String.length (Query_Get r "state") = 64%nat ->
  rcache.Get (cache w) (now env) (Query_Get r "state") = Some v ->
  json_Unmarshal v = inr d ->
  strconv_Atoi (Query_Get r "installation_id") = inr n ->
  Query_Get r "setup_action" = "install" ->
  GitHubApps_GetByID env (AppID d) = inr app ->
  NewGitHubAppAuthenticator env (app_AppID app)
    (bytes_of_string (app_PrivateKey app)) = inr auther ->
  url_Parse (app_BaseURL app) = inr baseURL ->
  client_GetAppInstallation env (fst (github_APIRoot baseURL)) auther n
  = inr remote ->
  GitHubApps_Install env (installation_of n app remote) = inr id ->
  let w' := after (consumed w (Query_Get r "state"))
              (install_events d n app remote) in
  snd (serve (setupHandler env r) w) = w'
  /\ (parseDomain (Some (Domain d)) = inr ReposGitHubAppDomain ->
      fst (serve (setupHandler env r) w)
      = http_Redirect
          ("/site-admin/github-apps/" +:+ MarshalGitHubAppID (app_ID app)
           +:+ "?installation_id=" +:+ fmt_d n)
          StatusFound)
  /\ (parseDomain (Some (Domain d)) = inr BatchesGitHubAppDomain ->
      fst (serve (setupHandler env r) w)
      = http_Redirect
          ("/site-admin/batch-changes?success=true&app_name="
           +:+ app_Name app)
          StatusFound)
  /\ (forall err,
        parseDomain (Some (Domain d)) = inl err ->
        fst (serve (setupHandler env r) w)
        = http_Redirect
            ("/site-admin/github-apps?success=false&error="
             +:+ url_QueryEscape ("invalid domain: " +:+ Domain d))
            StatusFound).
Proof.
  intros Hlen Hget Hdec Hinst Haction Happ Hauth Hbase Hremote Hinstall w'.
  pose proof (Atoi_nonempty _ _ Hinst) as Hgiven.
  rewrite (setupHandler_found env r w v d) by done.
  unfold serve.
  rewrite (setupHandler_consumed_installs env r _ d n id app auther baseURL
             remote) by done.
  fold w'. split; [| split; [| split]].
  - by destruct (generateRedirectURL _ _ _ _ _).
  - intros Hdom. unfold generateRedirectURL. by rewrite Hdom.
  - intros Hdom. unfold generateRedirectURL. by rewrite Hdom.
  - intros err Hdom. unfold generateRedirectURL. by rewrite Hdom.
Qed.

Lemma setupHandler_consumed_fetches (env : Env) (r : Request) (w : World)
    (d : gitHubAppStateDetails) (n : Z) :
  strconv_Atoi (Query_Get r "installation_id") = inr n ->
  Query_Get r "setup_action" = "install" ->
  exists evs,
    trace (snd (setupHandler_consumed env r
                  (Query_Get r "installation_id") d w))
    = trace w ++ AppsGetByID (AppID d) :: evs.
Proof.
  intros Hinst Haction.
  unfold setupHandler_consumed. rewrite Hinst, Haction. cbv zeta.
  cbn [String.eqb Ascii.eqb Bool.eqb].
  unfold call, bind, emit, pure. cbv beta iota.
  assert (Hleaf : forall (u : Outcome string) (evs : list Event),
             exists evs',
               trace (snd (@redirectFound Empty_set u
                             {| cache := cache w;
                                trace := (trace w ++ [AppsGetByID (AppID d)])
                                         ++ evs |}))
               = trace w ++ AppsGetByID (AppID d) :: evs').
  { intros u evs. exists evs. destruct u; cbn; by rewrite <- app_assoc. }
  destruct (GitHubApps_GetByID env (AppID d)) as [err|app].
  { rewrite <- (app_nil_r (trace w ++ _)). apply Hleaf. }
  destruct (NewGitHubAppAuthenticator env _ _) as [err|auther].
  { rewrite <- (app_nil_r (trace w ++ _)). apply Hleaf. }
  destruct (url_Parse (app_BaseURL app)) as [err|baseURL].
  { rewrite <- (app_nil_r (trace w ++ _)). apply Hleaf. }
  cbn [cache trace].
  destruct (client_GetAppInstallation env _ _ _) as [err|remote].
  { repeat rewrite <- (app_assoc (trace w ++ _)). apply Hleaf. }
  destruct (GitHubApps_Install env _) as [err|id]; cbn [cache trace];
    repeat rewrite <- (app_assoc (trace w ++ _)); apply Hleaf.
Qed.

(** X7: the token that a complete [/redirect] issued, presented to [/setup]
    within its time to live with an installation id and the action
    [install], makes [/setup] fetch the app under the id that the database
    gave when [/redirect] stored it.  The codec is asked to give back the
    context of the new token as it was encoded. *)
Theorem redirect_then_setup (env env' : Env) (r r' : Request) (w w' : World)
    (location v : string) (d : gitHubAppStateDetails) (n : Z) :
  serve (redirectHandler env r) w
  = (http_Redirect location StatusSeeOther, w') ->
  rcache.Get (cache w) (now env) (Query_Get r "state") = Some v ->
  json_Unmarshal v = inr d ->
  (forall app id,
      GitHubApps_Create env app = inr id -> round_trips (next_context d id)) ->
  now env' < now env + rcache.ttlSeconds (cache w) ->
  strconv_Atoi (Query_Get r' "installation_id") = inr n ->
  Query_Get r' "setup_action" = "install" ->
  exists tok app id,
    RandomState env 128 = inr tok
    /\ GitHubApps_Create env app = inr id
    /\ In (AppsCreate app) (trace w')
    /\ (Query_Get r' "state" = tok ->
        exists evs,
          trace (snd (serve (setupHandler env' r') w'))
          = trace w' ++ [CacheGet tok; CacheDelete tok; AppsGetByID id]
            ++ evs).
Proof.
  intros Hserve Hget0 Hdec0 Hcodec Hlive Hinst Haction.
  destruct (redirectHandler_converted env r w w' location Hserve)
    as (v' & d' & uuid & u & dom & app & w2 & id & hook & tok & enc
        & Hget & Hdec & Huuid & Hdom & Hconv & Hid & Hhook & Htok & Henc
        & Hcache & Htrace & Hloc).
  assert (v' = v) as -> by congruence.
  assert (d' = d) as -> by congruence.
  exists tok, app, id. repeat split; try done.
  { rewrite Htrace, in_app_iff. right. by left. }
  intros Hstate.
  pose proof (Atoi_nonempty _ _ Hinst) as Hgiven.
  destruct (RandomState_token env 128 tok Htok) as (_ & Hlen & _).
  assert (Hcache2 : cache w2 = rcache.Delete (cache w) (Query_Get r "state")).
  { pose proof (keeps_cache_createGitHubApp env u dom
                  (consumed w (Query_Get r "state"))) as Hkeep.
    by rewrite Hconv in Hkeep. }
  assert (Hfound : rcache.Get (cache w') (now env') tok = Some enc).
  { rewrite Hcache. apply Get_Set_eq. by rewrite Hcache2. }
  rewrite <- Hstate in Hlen, Hfound |- *.
  rewrite (setupHandler_found env' r' w' enc (next_context d id));
    [| done | done | done | by apply (Hcodec app id)].
  rewrite serve_snd.
  destruct (setupHandler_consumed_fetches env' r'
              (consumed w' (Query_Get r' "state"))
              (next_context d id) n Hinst Haction) as [evs Hevs].
  exists evs. rewrite Hevs. cbn [consumed trace next_context AppID].
  by rewrite <- app_assoc.
Qed.

(** X8: an answer of [/redirect] other than the 303 leaves no new token:
    the cache is as it was, or has lost the presented token.  This holds
    also where the app was stored and a later step failed. *)
Theorem redirectHandler_error_issues_nothing
    (env : Env) (r : Request) (w : World) :
  (forall location,
      fst (serve (redirectHandler env r) w)
      <> http_Redirect location StatusSeeOther) ->
  cache (snd (serve (redirectHandler env r) w)) = cache w
  \/ cache (snd (serve (redirectHandler env r) w))
     = rcache.Delete (cache w) (Query_Get r "state").
Proof.
  intros Herror.
  destruct (String.eqb_spec (Query_Get r "code") "") as [Hcode|Hcode].
  { left. by rewrite redirectHandler_not_validated by by left. }
  destruct (Nat.eq_dec (String.length (Query_Get r "state")) 64%nat)
    as [Hlen|Hlen].
  2: { left. by rewrite redirectHandler_not_validated by by right. }
  destruct (rcache.Get (cache w) (now env) (Query_Get r "state"))
    as [v|] eqn:Hget.
  2: { left. by rewrite redirectHandler_missing by done. }
  destruct (json_Unmarshal v) as [err|d] eqn:Hdec.
  { left. by rewrite (redirectHandler_invalid env r w v err) by done. }
  right. revert Herror.
  rewrite (redirectHandler_found env r w v d) by done.
  unfold serve, redirectHandler_consumed, call, bind, try, emit, pure,
    respond, cache_Set.
  destruct (UUID.Parse (WebhookUUID d)) as [err|uuid]; [done |].
  destruct (url_Parse (BaseURL d)) as [err|base]; [done |].
  cbv beta iota zeta.
  destruct (url_JoinPath _ _) as [err|u]; [done |].
  destruct (parseDomain (Some (Domain d))) as [err|dom]; [done |].
  cbv beta iota zeta.
  pose proof (keeps_cache_createGitHubApp env u dom
                (consumed w (Query_Get r "state"))) as Hkeep.
  destruct (createGitHubApp env u dom _) as [[resp|[err|app]] w2] eqn:Hconv;
    cbn [snd consumed cache] in Hkeep;
    [by apply createGitHubApp_returns in Hconv | done |].
  destruct (GitHubApps_Create env app) as [err|id]; [done |].
  destruct (Webhooks_GetByUUID env uuid) as [err|hook]; [done |].
  cbv beta iota zeta.
  match goal with
  | |- context [Webhooks_Update env ?h] =>
      destruct (Webhooks_Update env h) as [err|updated]; [done |]
  end.
  destruct (RandomState env 128) as [err|tok]; [done |].
  match goal with
  | |- context [json_Marshal ?c] =>
      destruct (json_Marshal c) as [err|enc]; [done |]
  end.
  intros Herror. exfalso. by eapply Herror.
Qed.

(** ** The token endpoint *)

(** The two ways [/state] ends. *)
Lemma stateHandler_cases (env : Env) (r : Request) (w : World) :
  (exists tok enc id64,
      serve (stateHandler env r) w
      = (Write tok,
         {| cache := rcache.Set_ (cache w) (now env) tok enc;
            trace := trace w ++ [CacheSet tok enc] |})
      /\ RandomState env 128 = inr tok
      /\ json_Marshal (stateHandler_context r id64) = inr enc
      /\ (Query_Get r "id" = ""
          \/ UnmarshalGitHubAppID (Query_Get r "id") = inr id64))
  \/ (exists msg code,
        serve (stateHandler env r) w = (http_Error msg code, w)
        /\ (code = StatusBadRequest
            /\ Query_Get r "id" <> ""
            /\ (exists err,
                  UnmarshalGitHubAppID (Query_Get r "id") = inl err)
            \/ code = StatusInternalServerError)).
Proof.
  unfold serve, stateHandler, stateHandler_context, bind, try, respond,
    pure, cache_Set.
  destruct (RandomState env 128) as [err|tok] eqn:Htok.
  { right. eexists _, _. split; [reflexivity | by right]. }
  destruct (String.eqb_spec (Query_Get r "id") "") as [Hid|Hid].
  - destruct (json_Marshal zeroStateDetails) as [err|enc] eqn:Henc.
    + right. eexists _, _. split; [reflexivity | by right].
    + left. exists tok, enc, 0. repeat split; try done. by left.
  - destruct (UnmarshalGitHubAppID (Query_Get r "id")) as [err|id64] eqn:Hdec.
    + right. eexists _, _. split; [reflexivity |]. left. eauto.
    + destruct (json_Marshal _) as [err|enc] eqn:Henc.
      * right. eexists _, _. split; [reflexivity | by right].
      * left. exists tok, enc, id64. repeat split; try done. by right.
Qed.

(** X9: [/state] answers a failure of the random source with 500 and
    changes nothing.  With a token from the random source, an [id] that
    does not decode is answered 400 and a context that does not encode
    500, nothing changed either; else the response is the token and the
    one change is that token set, bound to the zero context when the
    request has no [id] (its [domain] and [baseURL] are then not read) and
    else to the decoded id with the domain and the base URL. *)
Theorem stateHandler_outcome (env : Env) (r : Request) (w : World) :
  (forall err,
      RandomState env 128 = inl err ->
      serve (stateHandler env r) w = (state_random_error err, w))
  /\ (forall tok,
        RandomState env 128 = inr tok ->
        (forall err,
            Query_Get r "id" <> "" ->
            UnmarshalGitHubAppID (Query_Get r "id") = inl err ->
            serve (stateHandler env r) w
            = (http_Error
                 ("Unexpected error while unmarshalling App ID: " +:+ err)
                 StatusBadRequest, w))
        /\ (forall id64,
              Query_Get r "id" = "" /\ id64 = 0
              \/ Query_Get r "id" <> ""
                 /\ UnmarshalGitHubAppID (Query_Get r "id") = inr id64 ->
              (forall err,
                  json_Marshal (stateHandler_context r id64) = inl err ->
                  serve (stateHandler env r) w = (state_marshal_error err, w))
              /\ (forall enc,
                    json_Marshal (stateHandler_context r id64) = inr enc ->
                    serve (stateHandler env r) w
                    = (Write tok,
                       {| cache := rcache.Set_ (cache w) (now env) tok enc;
                          trace := trace w ++ [CacheSet tok enc] |})))).
Proof.
  unfold serve, stateHandler, stateHandler_context, state_random_error,
    state_marshal_error, bind, try, respond, pure, cache_Set.
  split.
  - by intros err ->.
  - intros tok ->. split.
    + intros err Hid%String.eqb_neq Hdec. by rewrite Hid, Hdec.
    + intros id64 [[Hid ->] | [Hid%String.eqb_neq Hdec]].
      * rewrite Hid. cbn [String.eqb].
        split; [by intros err -> | by intros enc ->].
      * rewrite Hid, Hdec.
        split; [by intros err -> | by intros enc ->].
Qed.

(** X10: a token that [/state] issued into a cache with the time to live of
    the package, one hour, is found until 3600 seconds after the request
    that issued it, and from then on both callbacks turn it away as not
    found. *)
Theorem state_token_expires (env0 env : Env) (r0 r : Request)
    (w w1 : World) (tok : string) :
  serve (stateHandler env0 r0) w = (Write tok, w1) ->
  rcache.ttlSeconds (cache w) = cacheTTLSeconds ->
  Query_Get r "state" = tok ->
  (now env < now env0 + 3600 ->
   exists enc, rcache.Get (cache w1) (now env) tok = Some enc)
  /\ (now env0 + 3600 <= now env -> rejected_as_NotFound env r w1 tok).
Proof.
  intros Hissued Httl Hstate.
  destruct (stateHandler_cases env0 r0 w)
    as [(tok' & enc & id64 & Hserve & Htok & _)
       | (msg & code & Hserve & _)];
    rewrite Hserve in Hissued; [| discriminate].
  injection Hissued as -> <-. split.
  - intros Hlive. exists enc. cbn [cache]. apply Get_Set_eq.
    rewrite Httl. unfold cacheTTLSeconds. lia.
  - intros Hlate. apply missing_rejected; [done | |].
    + by apply (RandomState_token env0 128).
    + apply Get_None. right. exists enc, (now env0 + rcache.ttlSeconds (cache w)).
      cbn [cache rcache.Set_ rcache.entries]. split.
      * apply lookup_insert_eq.
      * rewrite Httl. unfold cacheTTLSeconds. lia.
Qed.

(** ** The conversion client *)

(** X15: with a mock installed [createGitHubApp] returns what the mock
    returns and touches nothing.  Without one, a request that cannot be
    built is returned as the error with nothing done; else exactly one
    request is sent, a transport error is returned as it is, and an app is
    returned only for status 201 with a body that decodes and an HTML URL
    that parses: it is then the app with the domain asked for, no
    database id yet, the id, the name, the slug, the client id and the
    three secrets of the body, and the base URL, the app URL and the logo
    made of the HTML URL. *)
Theorem createGitHubApp_effects (env : Env) (u : string)
    (dom : GitHubAppDomain) (w : World) :
  (forall mock,
      MockCreateGitHubApp env = Some mock ->
      createGitHubApp env u dom w = (inr (mock u dom), w))
  /\ (MockCreateGitHubApp env = None ->
      (forall err,
          http_NewRequest "POST" u = inl err ->
          createGitHubApp env u dom w = (inr (inl err), w))
      /\ (forall req,
            http_NewRequest "POST" u = inr req ->
            exists res,
              createGitHubApp env u dom w = (inr res, after w [HTTPDo req])
              /\ (forall err,
                    httpClient_Do env req = inl err -> res = inl err)
              /\ (forall app,
                    res = inr app ->
                    exists resp body htmlURL,
                      httpClient_Do env req = inr resp
                      /\ StatusCode resp = StatusCreated
                      /\ json_Decode (Body resp) = inr body
                      /\ url_Parse (resp_HtmlURL body) = inr htmlURL
                      /\ app
                         = {| app_ID := 0;
                              app_AppID := resp_AppID body;
                              app_Name := resp_Name body;
                              app_Slug := resp_Slug body;
                              app_ClientID := resp_ClientID body;
                              app_ClientSecret := resp_ClientSecret body;
                              app_WebhookSecret := resp_WebhookSecret body;
                              app_PrivateKey := resp_PEM body;
                              app_BaseURL :=
                                URL_Scheme htmlURL +:+ "://"
                                +:+ URL_Host htmlURL;
                              app_AppURL := URL_String htmlURL;
                              app_Domain := dom;
                              app_Logo :=
                                URL_Scheme htmlURL +:+ "://"
                                +:+ URL_Host htmlURL
                                +:+ "/identicons/app/app/"
                                +:+ resp_Slug body |}))).
Proof.
  split; [| intros Hmock; split].
  - intros mock Hmock. unfold createGitHubApp, pure. by rewrite Hmock.
  - intros err Hreq. unfold createGitHubApp, pure. by rewrite Hmock, Hreq.
  - intros req Hreq. unfold createGitHubApp, call, bind, emit, pure.
    rewrite Hmock, Hreq. cbv beta iota. unfold after.
    destruct (httpClient_Do env req) as [err|resp] eqn:Hdo.
    { eexists. split; [reflexivity |]. split; [by intros ? [= ->] | done]. }
    destruct (Z.eqb_spec (StatusCode resp) StatusCreated) as [Hcode|Hcode];
      cbn [negb].
    2: { eexists. split; [reflexivity |]. split; done. }
    destruct (json_Decode (Body resp)) as [err|body] eqn:Hbody.
    { eexists. split; [reflexivity |]. split; done. }
    destruct (url_Parse (resp_HtmlURL body)) as [err|htmlURL] eqn:Hurl.
    { eexists. split; [reflexivity |]. split; done. }
    eexists. split; [reflexivity |]. split; [done |].
    intros app [= <-]. exists resp, body, htmlURL. by repeat split.
Qed.

End Coverage.

(** ** The webhook UUID between [/new-app-state] and [/redirect] *)

Lemma byte_hex_digits (b : Z) :
  0 <= b < 256 ->
  UUID.xvalue (hexdigit hextable (Z.shiftr b 4)) = Some (Z.shiftr b 4)
  /\ UUID.xvalue (hexdigit hextable (Z.land b 15)) = Some (Z.land b 15)
  /\ Z.lor (Z.shiftl (Z.shiftr b 4) 4) (Z.land b 15) = b.
Proof.
  intros Hb. rewrite <- (Z2Nat.id b) by lia.
  assert (Hm : (Z.to_nat b < 256)%nat) by lia.
  revert Hm. generalize (Z.to_nat b) as m.
  do 256 (destruct m as [|m]; [intros _; vm_compute; auto |]).
  intros. lia.
Qed.

(** Writing a UUID and parsing the text gives the UUID back. *)
Lemma uuid_text_round_trip (u : UUID.t) :
  uuid_wf u -> UUID.Parse (uuid_String u) = inr u.
Proof.
  intros [Hlen Hbytes].
  do 16 (destruct u as [|? u]; [discriminate Hlen |]).
  destruct u; [| discriminate Hlen].
  repeat match goal with
         | H : Forall _ (_ :: _) |- _ =>
             apply Forall_cons_iff in H as [?%byte_hex_digits H]
         end.
  repeat match goal with
         | H : _ /\ _ /\ _ |- _ => destruct H as (? & ? & ?)
         end.
  cbv [UUID.Parse UUID.dashed UUID.xtobs UUID.xtob String.get String.length
       uuid_String hex_bytes hex2 List.firstn List.skipn String.append].
  repeat match goal with
         | H : UUID.xvalue _ = Some _ |- _ => rewrite H; clear H
         end.
  repeat match goal with
         | H : Z.lor _ _ = _ |- _ => rewrite H; clear H
         end.
  reflexivity.
Qed.

(** X11: the text [UUID.String] writes for a UUID, which is what
    [/new-app-state] stores as the webhook UUID of the context, is parsed
    back by [uuid.Parse], which is what [/redirect] does with it, to the
    same UUID. *)
Theorem uuid_Parse_String (u : UUID.t) :
  uuid_wf u -> UUID.Parse (uuid_String u) = inr u.
Proof.
  exact (uuid_text_round_trip u).
Qed.

Section NewAppCoverage.

Context `{D : Deps} `{N : NewAppDeps}.

(** ** The token endpoint for a new app *)

(** X12: [/new-app-state] asks the webhook service for a webhook only when
    the request has a [webhookURN]: without one its outcome does not depend
    on the service.  With one, a failure of the service is answered 500 and
    nothing is changed: no token is issued. *)
Theorem newAppStateHandler_webhook (env : Env)
    (CreateWebhook : string -> string -> string -> error + Webhook)
    (r : Request) (w : World) :
  (Query_Get r "webhookURN" = "" ->
   forall CreateWebhook',
     newAppStateHandler env CreateWebhook r w
     = newAppStateHandler env CreateWebhook' r w)
  /\ (forall err,
        Query_Get r "webhookURN" <> "" ->
        CreateWebhook (Query_Get r "appName") KindGitHub
          (Query_Get r "webhookURN") = inl err ->
        serve (newAppStateHandler env CreateWebhook r) w
        = (http_Error
             ("Unexpected error while setting up webhook endpoint: " +:+ err)
             StatusInternalServerError, w)).
Proof.
  split.
  - intros Hurn CreateWebhook'. unfold newAppStateHandler.
    by rewrite Hurn.
  - intros err Hurn%String.eqb_neq Hfail.
    unfold serve, newAppStateHandler, bind, try, respond.
    by rewrite Hurn, Hfail.
Qed.

Lemma newAppStateHandler_issue (env : Env)
    (CreateWebhook : string -> string -> string -> error + Webhook)
    (r : Request) (w : World) (webhookUUID tok enc : string) :
  (Query_Get r "webhookURN" = "" /\ webhookUUID = ""
   \/ Query_Get r "webhookURN" <> ""
      /\ exists hook,
           CreateWebhook (Query_Get r "appName") KindGitHub
             (Query_Get r "webhookURN") = inr hook
           /\ webhookUUID = uuid_String (hook_UUID hook)) ->
  RandomState env 128 = inr tok ->
  json_Marshal (new_app_context r webhookUUID) = inr enc ->
  serve (newAppStateHandler env CreateWebhook r) w
  = (match json_EncodeResponse tok webhookUUID with
     | inr body => Write body
     | inl err =>
         http_Error ("Unexpected error while writing response: " +:+ err)
           StatusInternalServerError
     end,
     {| cache := rcache.Set_ (cache w) (now env) tok enc;
        trace := trace w ++ [CacheSet tok enc] |}).
Proof.
  intros Hhook Htok Henc.
  unfold serve, newAppStateHandler, bind, try, respond, pure, cache_Set.
  unfold new_app_context in Henc.
  destruct Hhook as [[Hurn ->] | (Hurn%String.eqb_neq & hook & Hcreate & ->)].
  - rewrite Hurn. cbn [String.eqb]. cbv beta iota. rewrite Htok, Henc.
    by destruct (json_EncodeResponse tok "").
  - rewrite Hurn, Hcreate. cbv beta iota. rewrite Htok, Henc.
    by destruct (json_EncodeResponse tok _).
Qed.

(** X13: when the webhook service returns a webhook, [/new-app-state] sets
    one token and answers with that token and the UUID of the webhook as
    text.  Consuming the token within its time to live yields what the
    JSON codec decodes from the stored encoding of the context with that
    UUID text and the domain and the base URL of the request: that context
    itself whenever the codec gives it back as it was encoded. *)
Theorem newAppStateHandler_then_consume (env env' : Env)
    (CreateWebhook : string -> string -> string -> error + Webhook)
    (r : Request) (w : World) (hook : Webhook) (tok enc body : string)
    (nf inv : Response) :
  Query_Get r "webhookURN" <> "" ->
  CreateWebhook (Query_Get r "appName") KindGitHub (Query_Get r "webhookURN")
  = inr hook ->
  RandomState env 128 = inr tok ->
  let context := new_app_context r (uuid_String (hook_UUID hook)) in
  json_Marshal context = inr enc ->
  json_EncodeResponse tok (uuid_String (hook_UUID hook)) = inr body ->
  now env' < now env + rcache.ttlSeconds (cache w) ->
  exists w1,
    serve (newAppStateHandler env CreateWebhook r) w = (Write body, w1)
    /\ trace w1 = trace w ++ [CacheSet tok enc]
    /\ (forall decoded,
          json_Unmarshal enc = inr decoded ->
          consume env' tok nf inv w1 = (inr decoded, consumed w1 tok))
    /\ (round_trips context ->
        consume env' tok nf inv w1 = (inr context, consumed w1 tok)).
Proof.
  intros Hurn Hcreate Htok context Henc Hbody Hlive.
  eexists. split; [| split; [| split]].
  - rewrite (newAppStateHandler_issue env CreateWebhook r w
               (uuid_String (hook_UUID hook)) tok enc); try done.
    + by rewrite Hbody.
    + right. eauto.
  - reflexivity.
  - intros decoded Hdecoded. apply consume_found with enc; [| done].
    cbn [cache]. by apply Get_Set_eq.
  - intros Hcodec. apply consume_found with enc; [| by apply Hcodec].
    cbn [cache]. by apply Get_Set_eq.
Qed.

(** X14: the token [/new-app-state] issued for a webhook, presented to
    [/redirect] with a code within its time to live, passes the check of
    the webhook UUID: when the base URL and the domain of the context
    parse, the handler goes on to the conversion and sends the request to
    the platform. *)
Theorem new_app_token_reaches_conversion (env env' : Env)
    (CreateWebhook : string -> string -> string -> error + Webhook)
    (r r' : Request) (w w1 : World) (hook : Webhook) (tok body : string)
    (base : URL) (u : string) (dom : GitHubAppDomain) (req : HTTPRequest) :
  Query_Get r "webhookURN" <> "" ->
  CreateWebhook (Query_Get r "appName") KindGitHub (Query_Get r "webhookURN")
  = inr hook ->
  uuid_wf (hook_UUID hook) ->
  serve (newAppStateHandler env CreateWebhook r) w = (Write body, w1) ->
  RandomState env 128 = inr tok ->
  round_trips (new_app_context r (uuid_String (hook_UUID hook))) ->
  now env' < now env + rcache.ttlSeconds (cache w) ->
  Query_Get r' "state" = tok -> Query_Get r' "code" <> "" ->
  url_Parse (Query_Get r "baseURL") = inr base ->
  url_JoinPath (URL_String (fst (github_APIRoot base)))
    ["/app-manifests"; Query_Get r' "code"; "conversions"] = inr u ->
  parseDomain (Some (Query_Get r "domain")) = inr dom ->
  MockCreateGitHubApp env' = None ->
  http_NewRequest "POST" u = inr req ->
  exists evs,
    trace (snd (serve (redirectHandler env' r') w1))
    = trace w1 ++ [CacheGet tok; CacheDelete tok; HTTPDo req] ++ evs.
Proof.
  intros Hurn Hcreate Hwf Hserve Htok Hcodec Hlive Hstate Hcode
    Hbase Hjoin Hdom Hmock Hreq.
  destruct (json_Marshal (new_app_context r (uuid_String (hook_UUID hook))))
    as [err|enc] eqn:Henc.
  { revert Hserve.
    unfold serve, newAppStateHandler, bind, try, respond, pure.
    apply String.eqb_neq in Hurn. rewrite Hurn, Hcreate, Htok.
    unfold new_app_context in Henc. by rewrite Henc. }
  rewrite (newAppStateHandler_issue env CreateWebhook r w
             (uuid_String (hook_UUID hook)) tok enc) in Hserve;
    [| right; eauto | done | done].
  injection Hserve as _ Hw1.
  destruct (RandomState_token env 128 tok Htok) as (_ & Hlen & _).
  rewrite <- Hstate in Hlen |- *.
  rewrite (redirectHandler_found env' r' w1 enc
             (new_app_context r (uuid_String (hook_UUID hook))));
    [| done | done | | by apply Hcodec].
  2: { rewrite <- Hw1. cbn [cache]. rewrite Hstate. by apply Get_Set_eq. }
  rewrite serve_snd.
  unfold redirectHandler_consumed, call, bind, try, emit, pure, respond,
    cache_Set.
  cbn [new_app_context WebhookUUID BaseURL Domain].
  rewrite (uuid_text_round_trip _ Hwf), Hbase. cbv beta iota zeta.
  rewrite Hjoin, Hdom. cbv beta iota zeta.
  unfold createGitHubApp, call, bind, emit, pure. rewrite Hmock, Hreq.
  cbv beta iota.
  set (W := consumed _ _).
  assert (Hleaf : forall (A : Type) (x : Response + A) (c : rcache.Cache)
                          (evs : list Event),
             exists evs',
               trace (snd (x, {| cache := c;
                                 trace := (trace W ++ [HTTPDo req]) ++ evs |}))
               = trace w1 ++ [CacheGet (Query_Get r' "state");
                             CacheDelete (Query_Get r' "state"); HTTPDo req]
                 ++ evs').
  { intros A x c evs. exists evs. subst W. cbn [snd trace consumed].
    by repeat rewrite <- app_assoc. }
  destruct (httpClient_Do env' req) as [err|resp].
  { rewrite <- (app_nil_r (trace W ++ _)). apply Hleaf. }
  destruct (negb _).
  { rewrite <- (app_nil_r (trace W ++ _)). apply Hleaf. }
  destruct (json_Decode _) as [err|response].
  { rewrite <- (app_nil_r (trace W ++ _)). apply Hleaf. }
  destruct (url_Parse (resp_HtmlURL response)) as [err|htmlURL].
  { rewrite <- (app_nil_r (trace W ++ _)). apply Hleaf. }
  cbn [cache trace].
  match goal with
  | |- context [GitHubApps_Create env' ?a] =>
      destruct (GitHubApps_Create env' a) as [err|id]
  end.
  { apply Hleaf. }
  destruct (Webhooks_GetByUUID env' _) as [err|fetched]; cbn [cache trace].
  { repeat rewrite <- (app_assoc (trace W ++ _)). apply Hleaf. }
  match goal with
  | |- context [Webhooks_Update env' ?h] =>
      destruct (Webhooks_Update env' h) as [err|updated]
  end; cbn [cache trace].
  { repeat rewrite <- (app_assoc (trace W ++ _)). apply Hleaf. }
  destruct (RandomState env' 128) as [err|tok'].
  { repeat rewrite <- (app_assoc (trace W ++ _)). apply Hleaf. }
  match goal with
  | |- context [json_Marshal ?c] =>
      destruct (json_Marshal c) as [err|enc']
  end; cbn [cache trace];
    repeat rewrite <- (app_assoc (trace W ++ _)); apply Hleaf.
Qed.

End NewAppCoverage.

(** ** The site-admin gate *)

(** X16: a request that fails the site-admin check never reaches the
    router: the world is left as it was, whatever the router would do.
    Both [checkSiteAdmin] and [ServeHTTP] write an error, the first with
    status 401 for [ErrNotAuthenticated] and 403 for any other error, the
    second with 403.  A request that passes the check gets the response of
    the router and nothing else. *)
Theorem ServeHTTP_gate (check : option AuthError)
    (Router : Handler Empty_set) (w : World) :
  (check = Some ErrNotAuthenticated ->
   ServeHTTP check Router w
   = ([http_Error "Bad request, user must be a site admin" StatusUnauthorized;
       http_Error "User must be site admin" StatusForbidden], w))
  /\ (forall msg,
        check = Some (OtherAuthError msg) ->
        ServeHTTP check Router w
        = ([http_Error "Bad request, user must be a site admin"
              StatusForbidden;
            http_Error "User must be site admin" StatusForbidden], w))
  /\ (check = None ->
      ServeHTTP check Router w
      = ([fst (serve Router w)], snd (serve Router w))).
Proof.
  split; [| split].
  - by intros ->.
  - by intros msg ->.
  - intros ->. unfold ServeHTTP, checkSiteAdmin.
    by destruct (serve Router w).
Qed.

(** ** The server as a whole *)

Section ServerCoverage.

Context `{D : Deps} `{N : NewAppDeps}.

Lemma tokens_only_Delete (c : rcache.Cache) (key : string) :
  tokens_only c -> tokens_only (rcache.Delete c key).
Proof.
  intros Hc key' entry Hin. cbn in Hin.
  apply lookup_delete_Some in Hin as [_ Hin]. by apply (Hc key' entry).
Qed.

Lemma tokens_only_Set (env : Env) (c : rcache.Cache) (tok value : string) :
  RandomState env 128 = inr tok ->
  tokens_only c -> tokens_only (rcache.Set_ c (now env) tok value).
Proof.
  intros Htok Hc key entry Hin. cbn in Hin.
  apply lookup_insert_Some in Hin as [[<- _] | [_ Hin]].
  - by apply RandomState_token in Htok as (_ & ? & ?).
  - by apply (Hc key entry).
Qed.

Lemma stateHandler_tokens_only (env : Env) (r : Request) (w : World) :
  tokens_only (cache w) ->
  tokens_only (cache (snd (serve (stateHandler env r) w))).
Proof.
  intros Hw.
  destruct (stateHandler_cases env r w)
    as [(tok & enc & id64 & -> & Htok & _) | (msg & code & -> & _)];
    [| done].
  by apply tokens_only_Set.
Qed.

Lemma newAppStateHandler_tokens_only (env : Env)
    (CreateWebhook : string -> string -> string -> error + Webhook)
    (r : Request) (w : World) :
  tokens_only (cache w) ->
  tokens_only (cache (snd (serve (newAppStateHandler env CreateWebhook r) w))).
Proof.
  intros Hw.
  unfold serve, newAppStateHandler, bind, try, respond, pure, cache_Set.
  destruct (String.eqb (Query_Get r "webhookURN") "").
  - destruct (RandomState env 128) as [err|tok] eqn:Htok; [done |].
    destruct (json_Marshal _) as [err|enc]; [done |].
    destruct (json_EncodeResponse tok _); by apply tokens_only_Set.
  - destruct (CreateWebhook _ _ _) as [err|hook]; [done |].
    destruct (RandomState env 128) as [err|tok] eqn:Htok; [done |].
    destruct (json_Marshal _) as [err|enc]; [done |].
    destruct (json_EncodeResponse tok _); by apply tokens_only_Set.
Qed.

Lemma redirectHandler_tokens_only (env : Env) (r : Request) (w : World) :
  tokens_only (cache w) ->
  tokens_only (cache (snd (serve (redirectHandler env r) w))).
Proof.
  intros Hw.
  destruct (String.eqb_spec (Query_Get r "code") "") as [Hcode|Hcode].
  { by rewrite redirectHandler_not_validated by by left. }
  destruct (Nat.eq_dec (String.length (Query_Get r "state")) 64%nat)
    as [Hlen|Hlen].
  2: { by rewrite redirectHandler_not_validated by by right. }
  destruct (rcache.Get (cache w) (now env) (Query_Get r "state"))
    as [v|] eqn:Hget.
  2: { by rewrite redirectHandler_missing by done. }
  destruct (json_Unmarshal v) as [err|d] eqn:Hdec.
  { by rewrite (redirectHandler_invalid env r w v err) by done. }
  destruct (redirectHandler_consumes env r w v d Hcode Hlen Hget Hdec)
    as [-> | (tok & value & Htok & ->)].
  - by apply tokens_only_Delete.
  - by apply tokens_only_Set, tokens_only_Delete.
Qed.

Lemma setupHandler_tokens_only (env : Env) (r : Request) (w : World) :
  tokens_only (cache w) ->
  tokens_only (cache (snd (serve (setupHandler env r) w))).
Proof.
  intros Hw.
  destruct (String.eqb_spec (Query_Get r "installation_id") "") as [Hinst|Hinst].
  { by rewrite setupHandler_not_validated by by left. }
  destruct (Nat.eq_dec (String.length (Query_Get r "state")) 64%nat)
    as [Hlen|Hlen].
  2: { by rewrite setupHandler_not_validated by by right. }
  destruct (rcache.Get (cache w) (now env) (Query_Get r "state"))
    as [v|] eqn:Hget.
  2: { by rewrite setupHandler_missing by done. }
  destruct (json_Unmarshal v) as [err|d] eqn:Hdec.
  { by rewrite (setupHandler_invalid env r w v err) by done. }
  rewrite (setupHandler_consumes env r w v d) by done.
  by apply tokens_only_Delete.
Qed.

(** X19: the server keeps the cache to tokens: when every key of the cache
    has 64 lower-case hexadecimal characters before a request, it is so
    after it, whatever the route among the four that [NewGitHubAppServer]
    registers, the request, the outcome of the site-admin check and the
    answers of the collaborators. *)
Theorem server_holds_tokens_only (check : option AuthError) (env : Env)
    (CreateWebhook : string -> string -> string -> error + Webhook)
    (route : Route) (r : Request) (w : World) :
  tokens_only (cache w) ->
  tokens_only
    (cache (snd (ServeHTTP check
                   (route_handler env CreateWebhook route r) w))).
Proof.
  intros Hw. unfold ServeHTTP.
  destruct (checkSiteAdmin check) as [written [err|]]; [done |].
  assert (Hroute : tokens_only
            (cache (snd (serve (route_handler env CreateWebhook route r) w)))).
  { destruct route; cbn [route_handler].
    - by apply stateHandler_tokens_only.
    - by apply newAppStateHandler_tokens_only.
    - by apply redirectHandler_tokens_only.
    - by apply setupHandler_tokens_only. }
  by destruct (serve _ w).
Qed.

End ServerCoverage.

(** ** The Perforce command *)

Section PerforceCoverage.

Context {Reader Writer Logger : Type} (NoOp : Logger).

Lemma apply_options_lists (opts : list (perforce.Option_ Reader Writer Logger))
    (o : perforce.p4Options Reader Writer Logger) :
  let o' := perforce.apply_options (List.map perforce.option_func opts) o in
  perforce.arguments o'
  = perforce.arguments o ++ List.flat_map perforce.option_arguments opts
  /\ perforce.environment o'
     = perforce.environment o
       ++ List.flat_map perforce.option_environment opts
  /\ perforce.overrideEnvironment o'
     = perforce.overrideEnvironment o
       ++ List.flat_map perforce.option_override opts.
Proof.
  revert o. induction opts as [|opt opts IH]; intros o.
  - cbn. by rewrite !app_nil_r.
  - cbn [List.map perforce.apply_options List.fold_left List.flat_map].
    destruct (IH (perforce.option_func opt o)) as (Ha & He & Ho).
    unfold perforce.apply_options in Ha, He, Ho. rewrite Ha, He, Ho.
    destruct opt; cbn; by rewrite ?app_nil_r, <- ?app_assoc.
Qed.

(** X17: whatever the order in which the options are given, the command
    is [p4] with the arguments of the [WithArguments] options in their
    order, run in the directory given, with an environment that starts
    with [P4CLIENTPATH], goes on with the entries of the [WithEnvironment]
    options in their order, and ends with the entries of the host,
    authentication, home and client options in their order: an overriding
    entry always comes after every plain one. *)
Theorem NewBaseCommand_layout (cwd : string)
    (opts : list (perforce.Option_ Reader Writer Logger)) :
  let c := perforce.NewBaseCommand NoOp cwd
             (List.map perforce.option_func opts) in
  perforce.Name c = "p4" /\ perforce.Dir c = cwd
  /\ perforce.Args c = "p4" :: List.flat_map perforce.option_arguments opts
  /\ perforce.Env_ c
     = ("P4CLIENTPATH=" +:+ cwd)
       :: List.flat_map perforce.option_environment opts
       ++ List.flat_map perforce.option_override opts.
Proof.
  destruct (apply_options_lists opts perforce.zero) as (Ha & He & Ho).
  cbn [perforce.zero perforce.arguments perforce.environment
       perforce.overrideEnvironment app] in Ha, He, Ho.
  cbv zeta. unfold perforce.NewBaseCommand.
  cbn [perforce.Name perforce.Dir perforce.Args perforce.Env_].
  rewrite Ha, He, Ho. by repeat split.
Qed.

Lemma apply_options_stdout_untouched
    (opts : list (perforce.Option_ Reader Writer Logger))
    (o : perforce.p4Options Reader Writer Logger) :
  Forall (fun opt => perforce.option_stdout opt = None) opts ->
  perforce.stdout
    (List.fold_left (fun acc option => option acc)
       (List.map perforce.option_func opts) o)
  = perforce.stdout o.
Proof.
  intros Hnone. revert o.
  induction Hnone as [|opt opts Hopt _ IH]; intros o; [done |].
  cbn [List.map List.fold_left]. rewrite IH. by destruct opt.
Qed.

(** X18: the standard output of the command is the argument of the last
    [WithStdout] option given, a nil one included, and is not set when
    none is given. *)
Theorem NewBaseCommand_stdout (cwd : string)
    (opts : list (perforce.Option_ Reader Writer Logger)) :
  (Forall (fun opt => perforce.option_stdout opt = None) opts ->
   perforce.Stdout
     (perforce.NewBaseCommand NoOp cwd (List.map perforce.option_func opts))
   = None)
  /\ (forall before s later,
        opts = before ++ perforce.Stdout_ s :: later ->
        Forall (fun opt => perforce.option_stdout opt = None) later ->
        perforce.Stdout
          (perforce.NewBaseCommand NoOp cwd
             (List.map perforce.option_func opts))
        = s).
Proof.
  split.
  - intros Hnone. unfold perforce.NewBaseCommand, perforce.apply_options.
    cbn [perforce.Stdout]. by rewrite apply_options_stdout_untouched.
  - intros before s later -> Hnone.
    unfold perforce.NewBaseCommand, perforce.apply_options.
    cbn [perforce.Stdout].
    rewrite List.map_app, List.fold_left_app. cbn [List.map List.fold_left].
    by rewrite (apply_options_stdout_untouched later _ Hnone).
Qed.

End PerforceCoverage.

(** ** The theorems above at the reference instances *)



Lemma redirectHandler_see_other_witness :
  exists app id tok,
    GitHubApps_Create (Happy.env 10 [x01]) app = inr id
    /\ RandomState (Happy.env 10 [x01]) 128 = inr tok.
Proof.
  destruct (redirectHandler_see_other (D := Ref.deps) (Happy.env 10 [x01])
              Ref.redirect_request (Ref.holding (Ref.encode Ref.converting))
              (snd (serve (redirectHandler (Happy.env 10 [x01])
                             Ref.redirect_request)
                      (Ref.holding (Ref.encode Ref.converting))))
              ("https://github.com/apps/foo/installations/new?state="
               +:+ Happy.next_token))
    as (v & d & uuid & u & dom & app & w2 & id & hook & tok & enc
        & _ & _ & _ & _ & _ & Hid & _ & Htok & _).
  - vm_compute. reflexivity.
  - exists app, id, tok. exact (conj Hid Htok).
Defined.

Lemma setupHandler_installs_witness :
  fst (serve (setupHandler (Happy.env 10 [])
                (Ref.setup_request "12" "install"))
         (Ref.holding (Ref.encode Ref.installing)))
  = http_Redirect "/site-admin/github-apps/GitHubApp:42?installation_id=12"
      StatusFound.
Proof.
  refine (proj1 (proj2 (setupHandler_installs (D := Ref.deps)
            (Happy.env 10 []) (Ref.setup_request "12" "install")
            (Ref.holding (Ref.encode Ref.installing))
            (Ref.encode Ref.installing) Ref.installing 12 1
            (Happy.app ReposGitHubAppDomain)
            {| auth_AppID := 1234; auth_PrivateKey := bytes_of_string "pem" |}
            "https://github.com" Happy.remote
            eq_refl eq_refl eq_refl eq_refl eq_refl eq_refl eq_refl eq_refl
            eq_refl eq_refl)) eq_refl).
Defined.

Lemma redirect_then_setup_witness :
  exists tok app id,
    RandomState (Happy.env 10 [x01]) 128 = inr tok
    /\ GitHubApps_Create (Happy.env 10 [x01]) app = inr id.
Proof.
  destruct (redirect_then_setup (D := Ref.deps) (Happy.env 10 [x01])
              (Happy.env 20 []) Ref.redirect_request Happy.install_request
              (Ref.holding (Ref.encode Ref.converting))
              (snd (serve (redirectHandler (Happy.env 10 [x01])
                             Ref.redirect_request)
                      (Ref.holding (Ref.encode Ref.converting))))
              ("https://github.com/apps/foo/installations/new?state="
               +:+ Happy.next_token)
              (Ref.encode Ref.converting) Ref.converting 12)
    as (tok & app & id & Htok & Hid & _).
  - vm_compute. reflexivity.
  - reflexivity.
  - reflexivity.
  - intros app id Hid. injection Hid as <-.
    intros encoded Hencoded. injection Hencoded as <-. reflexivity.
  - reflexivity.
  - reflexivity.
  - reflexivity.
  - exists tok, app, id. exact (conj Htok Hid).
Defined.

Lemma redirectHandler_error_issues_nothing_witness :
  cache (snd (serve (redirectHandler (Ref.env 10 []) Ref.redirect_request)
                (Ref.holding (Ref.encode Ref.converting))))
  = cache (Ref.holding (Ref.encode Ref.converting))
  \/ cache (snd (serve (redirectHandler (Ref.env 10 []) Ref.redirect_request)
                   (Ref.holding (Ref.encode Ref.converting))))
     = rcache.Delete (cache (Ref.holding (Ref.encode Ref.converting)))
         Ref.token.
Proof.
  apply (redirectHandler_error_issues_nothing (D := Ref.deps)
           (Ref.env 10 []) Ref.redirect_request
           (Ref.holding (Ref.encode Ref.converting))).
  intros location. vm_compute. discriminate.
Defined.

Lemma state_token_expires_witness :
  (exists enc, rcache.Get (cache Ref.issued) 3599 Ref.token = Some enc)
  /\ rejected_as_NotFound (Ref.env 3600 []) Ref.redirect_request Ref.issued
       Ref.token.
Proof.
  split.
  - refine (proj1 (state_token_expires (D := Ref.deps) (Ref.env 0 [])
              (Ref.env 3599 []) (Ref.get []) Ref.redirect_request Ref.start
              Ref.issued Ref.token _ eq_refl eq_refl) _).
    + vm_compute. reflexivity.
    + reflexivity.
  - refine (proj2 (state_token_expires (D := Ref.deps) (Ref.env 0 [])
              (Ref.env 3600 []) (Ref.get []) Ref.redirect_request Ref.start
              Ref.issued Ref.token _ eq_refl eq_refl) _).
    + vm_compute. reflexivity.
    + discriminate.
Defined.

Lemma uuid_Parse_String_witness :
  UUID.Parse (uuid_String Happy.uuid) = inr Happy.uuid.
Proof.
  apply uuid_Parse_String. split; [reflexivity |].
  repeat constructor; discriminate.
Defined.

Lemma newAppStateHandler_then_consume_witness :
  exists w1,
    serve (newAppStateHandler (N := Happy.new_app) (Ref.env 0 [])
             Happy.CreateWebhook Happy.new_app_request) Ref.start
    = (Write Happy.new_app_body, w1)
    /\ trace w1
       = trace Ref.start
         ++ [CacheSet Ref.token (Ref.encode Ref.converting)]
    /\ consume (Ref.env 1 []) Ref.token redirect_NotFound redirect_Invalid w1
       = (inr Ref.converting, consumed w1 Ref.token).
Proof.
  destruct (newAppStateHandler_then_consume (D := Ref.deps)
              (N := Happy.new_app) (Ref.env 0 []) (Ref.env 1 [])
              Happy.CreateWebhook Happy.new_app_request Ref.start
              {| hook_UUID := Happy.uuid; hook_Name := "Foo";
                 hook_Secret := "" |}
              Ref.token (Ref.encode Ref.converting) Happy.new_app_body
              redirect_NotFound redirect_Invalid)
    as (w1 & Hserve & Htrace & _ & Hconsume).
  - discriminate.
  - reflexivity.
  - vm_compute. reflexivity.
  - reflexivity.
  - reflexivity.
  - reflexivity.
  - exists w1. split; [exact Hserve | split; [exact Htrace |]].
    apply Hconsume.
    intros encoded Hencoded. injection Hencoded as <-. reflexivity.
Defined.

Lemma new_app_token_reaches_conversion_witness :
  exists evs,
    trace (snd (serve (redirectHandler (Ref.env 1 []) Ref.redirect_request)
                  (snd (serve (newAppStateHandler (N := Happy.new_app)
                                 (Ref.env 0 []) Happy.CreateWebhook
                                 Happy.new_app_request) Ref.start))))
    = trace (snd (serve (newAppStateHandler (N := Happy.new_app)
                           (Ref.env 0 []) Happy.CreateWebhook
                           Happy.new_app_request) Ref.start))
      ++ [CacheGet Ref.token; CacheDelete Ref.token;
          HTTPDo Ref.conversion_request] ++ evs.
Proof.
  apply (new_app_token_reaches_conversion (D := Ref.deps)
           (N := Happy.new_app) (Ref.env 0 []) (Ref.env 1 [])
           Happy.CreateWebhook Happy.new_app_request Ref.redirect_request
           Ref.start _
           {| hook_UUID := Happy.uuid; hook_Name := "Foo"; hook_Secret := "" |}
           Ref.token Happy.new_app_body "https://github.com"
           "https://api.github.com/app-manifests/abc/conversions"
           ReposGitHubAppDomain Ref.conversion_request).
  - discriminate.
  - reflexivity.
  - split; [reflexivity |]. repeat constructor; discriminate.
  - vm_compute. reflexivity.
  - vm_compute. reflexivity.
  - intros encoded Hencoded. injection Hencoded as <-. reflexivity.
  - reflexivity.
  - reflexivity.
  - discriminate.
  - reflexivity.
  - reflexivity.
  - reflexivity.
  - reflexivity.
  - reflexivity.
Defined.

Lemma server_holds_tokens_only_witness :
  tokens_only
    (cache (snd (ServeHTTP None
                   (route_handler (N := Happy.new_app) (Ref.env 0 [])
                      Happy.CreateWebhook StateRoute (Ref.get []))
                   Ref.start))).
Proof.
  apply (server_holds_tokens_only (D := Ref.deps) (N := Happy.new_app)).
  intros key entry Hin. cbn in Hin. by rewrite lookup_empty in Hin.
Defined.
